(** * REST-to-D-Bus bridge: a shallow embedding of [include/openbmc_dbus_rest.hpp]

    The development follows the source file function by function:
    the signature splitter, the JSON-to-bus codec, the reference-counted
    request transactions, the per-verb handlers with their bus callbacks,
    the URL dispatcher of the [/xyz/<path>] route, and the callbacks of
    the [/bus/system/] routes. *)

From Stdlib Require Import ZArith List Bool Lia.
From Stdlib Require Import Sorting.Sorted Sorting.Permutation.
From Stdlib Require Import Strings.Ascii Strings.String Numbers.DecimalString.
Import ListNotations.

#[local] Set Warnings "-register-all".

Local Open Scope string_scope.
Local Open Scope list_scope.
Local Open Scope Z_scope.

(** ** Strings, the way the source uses them *)

Module Str.

Definition empty (s : string) : bool :=
  match s with EmptyString => true | String _ _ => false end.

(** [s.substr(pos)] for [pos <= s.size()]. *)
Definition substr_from (pos : nat) (s : string) : string :=
  substring pos (String.length s) s.

(** [boost::starts_with]. *)
Definition starts_with (s pre : string) : bool := prefix pre s.

(** [boost::ends_with]. *)
Definition ends_with (s suf : string) : bool :=
  (String.length suf <=? String.length s)%nat
  && (substr_from (String.length s - String.length suf) s =? suf)%string.

(** Removes the last [n] characters: [pop_back], [erase(end() - n, end())]. *)
Definition drop_back (n : nat) (s : string) : string :=
  substring 0 (String.length s - n) s.

(** ASCII lower-casing, as the classic locale does it. *)
Definition to_lower (c : ascii) : ascii :=
  let n := nat_of_ascii c in
  if ((65 <=? n) && (n <=? 90))%nat then ascii_of_nat (n + 32) else c.

(** [boost::istarts_with(s, "t")]. *)
Definition istarts_with_t (s : string) : bool :=
  match s with
  | EmptyString => false
  | String c _ => Ascii.eqb (to_lower c) "t"%char
  end.

Definition of_char (c : ascii) : string := String c EmptyString.

(** Decimal rendering of an array index ([std::to_string]). *)
Definition of_nat (n : nat) : string :=
  NilZero.string_of_uint (Nat.to_uint n).

End Str.

(** ** Fixed-width integer casts, wrap-around written out *)

Definition wrap_unsigned (w : Z) (z : Z) : Z := z mod 2 ^ w.

Definition wrap_signed (w : Z) (z : Z) : Z :=
  let u := z mod 2 ^ w in
  if u <? 2 ^ (w - 1) then u else u - 2 ^ w.

(** ** JSON values ([nlohmann::json]) *)

(** A [double].  The codec never computes with doubles, it only passes them
    on, so a double is either a value read from JSON or from the bus (its
    IEEE-754 bit pattern) or the result of [static_cast<double>] on an
    integer. *)
Inductive double : Type :=
| Dbits (bits : Z)
| Dof_int64 (z : Z)
| Dof_uint64 (u : Z).

Inductive json : Type :=
| Jnull
| Jboolean (b : bool)
| Jnumber_integer (z : Z)        (* int64_t *)
| Jnumber_unsigned (u : Z)       (* uint64_t; the parser's choice for integers >= 0 *)
| Jnumber_float (d : double)
| Jstring (s : string)
| Jarray (elements : list json)
| Jobject (members : list (string * json)).  (* in the order of the std::map *)

Module Json.

(** [operator[](key) = v] on the member list of an object: [std::map]
    keeps its keys sorted and unique. *)
Fixpoint members_set (key : string) (v : json) (m : list (string * json))
  : list (string * json) :=
  match m with
  | [] => [(key, v)]
  | (k, x) :: m' =>
      match String.compare key k with
      | Eq => (key, v) :: m'
      | Lt => (key, v) :: (k, x) :: m'
      | Gt => (k, x) :: members_set key v m'
      end
  end.

Fixpoint members_get (key : string) (m : list (string * json)) : option json :=
  match m with
  | [] => None
  | (k, x) :: m' => if (key =? k)%string then Some x else members_get key m'
  end.

(** An object written as an initializer list [{{k1, v1}, {k2, v2}, ...}]. *)
Definition object (l : list (string * json)) : json :=
  Jobject (fold_left (fun m kv => members_set (fst kv) (snd kv) m) l []).

(** [j[key] = v]: a null value silently becomes an object; on any other
    non-object the library throws. *)
Definition set (key : string) (v : json) (j : json) : option json :=
  match j with
  | Jnull => Some (Jobject [(key, v)])
  | Jobject m => Some (Jobject (members_set key v m))
  | _ => None
  end.

(** [j.find(key)], [None] standing for [end()]. *)
Definition find (key : string) (j : json) : option json :=
  match j with
  | Jobject m => members_get key m
  | _ => None
  end.

(** [j.push_back(v)]: null becomes an array; throws on other non-arrays. *)
Definition push_back (v : json) (j : json) : option json :=
  match j with
  | Jnull => Some (Jarray [v])
  | Jarray l => Some (Jarray (l ++ [v]))
  | _ => None
  end.

Definition is_array (j : json) : bool :=
  match j with Jarray _ => true | _ => false end.

Definition is_null (j : json) : bool :=
  match j with Jnull => true | _ => false end.

(** [j.empty()]. *)
Definition empty (j : json) : bool :=
  match j with
  | Jnull => true
  | Jarray [] => true
  | Jobject [] => true
  | _ => false
  end.

(** The values [begin() .. end()] ranges over: the elements of an array,
    the member values of an object, nothing for null, and the value itself
    for a scalar. *)
Definition range (j : json) : list json :=
  match j with
  | Jnull => []
  | Jarray l => l
  | Jobject m => map snd m
  | _ => [j]
  end.

(** [j.items()]: key and value; an array yields its indices as keys, a
    scalar the empty key. *)
Definition items (j : json) : list (string * json) :=
  match j with
  | Jnull => []
  | Jarray l => combine (map Str.of_nat (seq 0 (List.length l))) l
  | Jobject m => m
  | _ => [(EmptyString, j)]
  end.

(** [get_ptr<const int64_t *>()] is non-null on both integer kinds
    ([is_number_integer] holds for either); the source's own fallback
    cast of the unsigned value to [int64_t] gives the same number. *)
Definition int_value (j : json) : option Z :=
  match j with
  | Jnumber_integer z => Some z
  | Jnumber_unsigned u => Some (wrap_signed 64 u)
  | _ => None
  end.

(** [get_ptr<const uint64_t *>()]. *)
Definition uint_value (j : json) : option Z :=
  match j with Jnumber_unsigned u => Some u | _ => None end.

(** [get_ptr<const std::string *>()]. *)
Definition string_value (j : json) : option string :=
  match j with Jstring s => Some s | _ => None end.

(** [get_ptr<const bool *>()]. *)
Definition bool_ptr (j : json) : option bool :=
  match j with Jboolean b => Some b | _ => None end.

(** [get_ptr<const double *>()] followed by the source's widening of
    integers ("int and uint can be converted to double"). *)
Definition double_value (j : json) : option double :=
  match j with
  | Jnumber_float d => Some d
  | Jnumber_unsigned u => Some (Dof_uint64 u)
  | Jnumber_integer z => Some (Dof_int64 z)
  | _ => None
  end.

End Json.

(** ** How control leaves a value-returning function

    [dbus_arg_split] and [convert_json_to_dbus] both have paths on which the
    closing brace is reached without a [return] statement.  The embedding
    keeps the two ways of leaving apart. *)
Inductive exit (A : Type) : Type :=
| Returned (a : A)   (* a [return] statement was executed *)
| FellOff (a : A).   (* the closing brace was reached; [a] is the local
                        the missing [return] would have handed back *)
Arguments Returned {A} a.
Arguments FellOff {A} a.

(** The vector the callers of [dbus_arg_split] go on with: the [ret] it
    has built, on either way out. *)
Definition result_of {A : Type} (e : exit A) : A :=
  match e with Returned a => a | FellOff a => a end.

(** ** Signature splitter: [dbus_arg_split] *)

(** [ret.back() += c]. *)
Fixpoint back_append (ret : list string) (c : ascii) : list string :=
  match ret with
  | [] => []
  | [x] => [String.append x (Str.of_char c)]
  | x :: ret' => x :: back_append ret' c
  end.

(** [character++;] then, unless [character] is [string.end()], [push_back]
    of an empty string. *)
Definition push_if_more (rest : string) (ret : list string) : list string :=
  if Str.empty rest then ret else ret ++ [EmptyString].

(** The [while] loop; [chars] is what lies from [character] to
    [string.end()].  [container_depth] is an [int]: it moves by one per
    character, so it stays far from the limits of [int]. *)
Fixpoint dbus_arg_split_loop (chars : string) (ret : list string)
  (container_depth : Z) : list string :=
  match chars with
  | EmptyString => ret
  | String c rest =>
      let ret := back_append ret c in
      if Ascii.eqb c "a" then
        dbus_arg_split_loop rest ret container_depth
      else if Ascii.eqb c "(" || Ascii.eqb c "{" then
        dbus_arg_split_loop rest ret (container_depth + 1)
      else if Ascii.eqb c "}" || Ascii.eqb c ")" then
        let container_depth := container_depth - 1 in
        if container_depth =? 0
        then dbus_arg_split_loop rest (push_if_more rest ret) container_depth
        else dbus_arg_split_loop rest ret container_depth
      else
        if container_depth =? 0
        then dbus_arg_split_loop rest (push_if_more rest ret) container_depth
        else dbus_arg_split_loop rest ret container_depth
  end.

Definition dbus_arg_split (s : string) : exit (list string) :=
  if Str.empty s then Returned []
  else FellOff (dbus_arg_split_loop s [EmptyString] 0).

(** Concatenation of a list of codes. *)
Definition concat_codes (l : list string) : string :=
  fold_right String.append EmptyString l.

(** ** Bus messages under construction ([sd_bus_message]) *)

(** The value handed to [sd_bus_message_append_basic], after the cast the
    source applies to it. *)
Inductive basic : Type :=
| Bstring (s : string)
| Bint32 (i : Z)
| Bbool (bool_int : Z)
| Bint16 (n : Z)
| Bint64 (x : Z)
| Bbyte (y : Z)
| Buint16 (q : Z)
| Buint32 (u : Z)
| Buint64 (t : Z)
| Bdouble (d : option double).   (* [None]: a null [double_value] is passed on *)

Inductive bus_op : Type :=
| append_basic (type : ascii) (p : basic)
| open_container (type : ascii) (contents : string)
| close_container.

(** [SD_BUS_TYPE_ARRAY], [_VARIANT], [_STRUCT], [_DICT_ENTRY]. *)
Definition SD_BUS_TYPE_ARRAY : ascii := "a".
Definition SD_BUS_TYPE_VARIANT : ascii := "v".
Definition SD_BUS_TYPE_STRUCT : ascii := "r".
Definition SD_BUS_TYPE_DICT_ENTRY : ascii := "e".

(** A method call made by [new_method_call], with what was appended so far. *)
Record message : Type := Message {
  destination : string;
  object : string;
  interface : string;
  member : string;
  body : list bus_op
}.

Definition new_method_call (service objpath iface method : string) : message :=
  Message service objpath iface method [].

(** How a run of the codec ends. *)
Inductive ending : Type :=
| Done (e : exit Z)   (* left the function, by [return] or at the closing brace *)
| Fault               (* read through an iterator standing past [end()] *)
| NoFuel.             (* the recursion did not come back within the fuel given *)

(** One step of a loop body: go on with the next iteration, or leave the
    enclosing function. *)
Inductive flow : Type :=
| Next (m : message) (r : Z)
| Leave (m : message) (res : ending).

(** Reading [*j_it] at a position of the iteration range. *)
Inductive deref : Type :=
| At (j : json)
| AtEnd
| PastEnd.

Section Codec.

(** sd-bus is an external library: [sd_bus m op] is the [int] it returns
    when [op] is applied to the message [m]; a negative value is an error,
    and then the message keeps its content. *)
Variable sd_bus : message -> bus_op -> Z.

Definition sd (m : message) (op : bus_op) : message * Z :=
  let r := sd_bus m op in
  if r <? 0 then (m, r)
  else (Message (destination m) (object m) (interface m) (member m)
                (body m ++ [op]), r).

(** [r = sd_bus_...(m, ...); if (r < 0) return r;] *)
Definition sd_checked (m : message) (op : bus_op) : flow :=
  let (m, r) := sd m op in
  if r <? 0 then Leave m (Done (Returned r)) else Next m r.

(** [r = sd_bus_...(m, ...);] with the test left to the end of the chain. *)
Definition sd_unchecked (m : message) (op : bus_op) : flow :=
  let (m, r) := sd m op in Next m r.

Definition return_ (m : message) (r : Z) : flow := Leave m (Done (Returned r)).

(** [convert_json_to_dbus] has no [return] statement at its closing
    brace, so a call that gets there hands back no value: its caller reads
    whatever the place of the return value holds at that moment.  The
    embedding takes no view of that [int]: [garbage m arg_type input_json]
    stands for what the caller reads after the call with these arguments
    that left the message as [m]. *)
Variable garbage : message -> string -> json -> Z.

(** What the caller of [convert_json_to_dbus (m, arg_type, input_json)]
    reads when the call has come back with the message [m]. *)
Definition received (m : message) (arg_type : string) (input_json : json)
  (e : exit Z) : Z :=
  match e with
  | Returned r => r
  | FellOff _ => garbage m arg_type input_json
  end.

Section Body.

(** The recursive calls of [convert_json_to_dbus]. *)
Variable rec : message -> string -> json -> message * ending.

(** [r = convert_json_to_dbus(m, t, x); if (r < 0) return r;] followed
    by [k]. *)
Definition call_checked (m : message) (t : string) (x : json)
  (k : message -> Z -> flow) : flow :=
  let (m, res) := rec m t x in
  match res with
  | Done e =>
      let r := received m t x e in
      if r <? 0 then return_ m r else k m r
  | Fault => Leave m Fault
  | NoFuel => Leave m NoFuel
  end.

(** The element loop of the array case:
    [for (it = j->begin(); it != j->end(); ++it) { ...; it++; }].
    The iterator moves twice per round.  When one element is left the
    second move steps past [end()], the loop test still holds and the
    next round reads there. *)
Fixpoint array_loop (contained_type : string) (its : list json)
  (m : message) (r : Z) : flow :=
  match its with
  | [] => Next m r
  | x :: after_body_increment =>
      call_checked m contained_type x (fun m r =>
        match after_body_increment with
        | [] => Leave m Fault
        | _ :: after_loop_increment =>
            array_loop contained_type after_loop_increment m r
        end)
  end.

(** The struct case: one element of [j] per code, [-1] when [j] runs out. *)
Fixpoint struct_loop (codes : list string) (its : list json)
  (m : message) (r : Z) : flow :=
  match codes with
  | [] => Next m r
  | arg_code :: codes =>
      match its with
      | [] => return_ m (-1)
      | x :: its =>
          call_checked m arg_code x (fun m r => struct_loop codes its m r)
      end
  end.

(** The dict-entry case: [for (auto it : j->items())]. *)
Fixpoint dict_loop (key_type value_type : string)
  (its : list (string * json)) (m : message) (r : Z) : flow :=
  match its with
  | [] => Next m r
  | (key, value) :: its =>
      call_checked m key_type (Jstring key) (fun m _ =>
        call_checked m value_type value (fun m r =>
          dict_loop key_type value_type its m r))
  end.

(** The [if / else if] chain on one top-level code [arg_code], encoding
    the JSON value [j]; [r] is the value of the local on entry. *)
Definition encode_code (arg_type : string) (input_json : json)
  (arg_code : string) (j : json) (m : message) (r : Z) : flow :=
  if (arg_code =? "s")%string then
    match Json.string_value j with
    | None => return_ m (-1)
    | Some s => sd_checked m (append_basic "s" (Bstring s))
    end
  else if (arg_code =? "i")%string then
    match Json.int_value j with
    | None => return_ m (-1)
    | Some v => sd_checked m (append_basic "i" (Bint32 (wrap_signed 32 v)))
    end
  else if (arg_code =? "b")%string then
    (* lots of ways bool could be represented here.  Try them all *)
    match Json.int_value j, Json.bool_ptr j, Json.string_value j with
    | Some v, _, _ =>
        sd_checked m (append_basic "b" (Bbool (if 0 <? v then 1 else 0)))
    | None, Some _, _ =>
        (* [bool_int = b ? 1 : 0;] tests the pointer [b], which is not
           null in this branch *)
        sd_checked m (append_basic "b" (Bbool 1))
    | None, None, Some s =>
        sd_checked m
          (append_basic "b" (Bbool (if Str.istarts_with_t s then 1 else 0)))
    | None, None, None => return_ m (-1)
    end
  else if (arg_code =? "n")%string then
    match Json.int_value j with
    | None => return_ m (-1)
    | Some v => sd_checked m (append_basic "n" (Bint16 (wrap_signed 16 v)))
    end
  else if (arg_code =? "x")%string then
    match Json.int_value j with
    | None => return_ m (-1)
    | Some v => sd_checked m (append_basic "x" (Bint64 v))
    end
  else if (arg_code =? "y")%string then
    match Json.uint_value j with
    | None => return_ m (-1)
    | Some v => sd_unchecked m (append_basic "y" (Bbyte (wrap_unsigned 8 v)))
    end
  else if (arg_code =? "q")%string then
    match Json.uint_value j with
    | None => return_ m (-1)
    | Some v => sd_unchecked m (append_basic "q" (Buint16 (wrap_unsigned 16 v)))
    end
  else if (arg_code =? "u")%string then
    match Json.uint_value j with
    | None => return_ m (-1)
    | Some v => sd_unchecked m (append_basic "u" (Buint32 (wrap_unsigned 32 v)))
    end
  else if (arg_code =? "t")%string then
    match Json.uint_value j with
    | None => return_ m (-1)
    | Some v => sd_unchecked m (append_basic "t" (Buint64 v))
    end
  else if (arg_code =? "d")%string then
    (* the result of the append is dropped, [r] keeps its value *)
    Next (fst (sd m (append_basic "d" (Bdouble (Json.double_value j))))) r
  else if Str.starts_with arg_code "a" then
    let contained_type := Str.substr_from 1 arg_code in
    match sd_checked m (open_container SD_BUS_TYPE_ARRAY contained_type) with
    | Leave m res => Leave m res
    | Next m r =>
        match array_loop contained_type (Json.range j) m r with
        | Leave m res => Leave m res
        | Next m r => Next (fst (sd m close_container)) r
        end
    end
  else if Str.starts_with arg_code "v" then
    let contained_type := Str.substr_from 1 arg_code in
    match sd_checked m (open_container SD_BUS_TYPE_VARIANT contained_type) with
    | Leave m res => Leave m res
    | Next m _ =>
        call_checked m contained_type input_json (fun m _ =>
          sd_checked m close_container)
    end
  else if Str.starts_with arg_code "(" && Str.ends_with arg_code ")" then
    let contained_type :=
      substring 1 (String.length arg_code - 1) arg_code in
    match sd_unchecked m (open_container SD_BUS_TYPE_STRUCT contained_type) with
    | Leave m res => Leave m res
    | Next m r =>
        match struct_loop (result_of (dbus_arg_split arg_type))
                          (Json.range j) m r with
        | Leave m res => Leave m res
        | Next m _ => sd_unchecked m close_container
        end
    end
  else if Str.starts_with arg_code "{" && Str.ends_with arg_code "}" then
    let contained_type :=
      substring 1 (String.length arg_code - 1) arg_code in
    match sd_unchecked m
            (open_container SD_BUS_TYPE_DICT_ENTRY contained_type) with
    | Leave m res => Leave m res
    | Next m r =>
        match result_of (dbus_arg_split contained_type) with
        | [key_type; value_type] =>
            match dict_loop key_type value_type (Json.items j) m r with
            | Leave m res => Leave m res
            | Next m _ => sd_unchecked m close_container
            end
        | _ => return_ m (-1)
        end
    end
  else return_ m (-2).

(** [*j_it] with [j_it] at position [pos] of the range of [input_json]. *)
Definition read_at (input_json : json) (pos : nat) : deref :=
  let range := Json.range input_json in
  if (pos =? List.length range)%nat then AtEnd
  else match nth_error range pos with
       | Some j => At j
       | None => PastEnd
       end.

(** The loop over the top-level codes.  With several codes [j_it] is
    moved twice per round, once after it is read and once at the end of
    the round.  The loop ends at the closing brace of the function. *)
Fixpoint codes_loop (arg_type : string) (input_json : json) (several : bool)
  (arg_types : list string) (j_it : nat) (m : message) (r : Z)
  
: message * ending :=
  match arg_types with
  | [] => (m, Done (FellOff r))
  | arg_code :: arg_types =>
      match (if several then read_at input_json j_it else At input_json) with
      | AtEnd => (m, Done (Returned (-2)))
      | PastEnd => (m, Fault)
      | At j =>
          match encode_code arg_type input_json arg_code j m r with
          | Leave m res => (m, res)
          | Next m r =>
              if r <? 0 then (m, Done (Returned r))
              else codes_loop arg_type input_json several arg_types
                     (if several then S (S j_it) else j_it) m r
          end
      end
  end.

Definition convert_body (m : message) (arg_type : string)
  (input_json : json) 
: message * ending :=
  let arg_types := result_of (dbus_arg_split arg_type) in
  codes_loop arg_type input_json (1 <? List.length arg_types)%nat
             arg_types 0%nat m 0.

End Body.

(** [convert_json_to_dbus], the depth of the recursion bounded by [fuel]. *)
Fixpoint convert_json_to_dbus (fuel : nat) (m : message) (arg_type : string)
  (input_json : json) 
  : message * ending :=
  match fuel with
  | O => (m, NoFuel)
  | S fuel => convert_body (convert_json_to_dbus fuel) m arg_type input_json
  end.

End Codec.

(** ** Introspection documents ([tinyxml2]) *)

Inductive XMLElement : Type :=
| Element (Name : string) (attributes : list (string * string))
          (children : list XMLElement).

(** An [XMLElement *]: the element pointed at followed by its later
    siblings; the empty list is [nullptr]. *)
Definition XMLNode : Type := list XMLElement.

(** A parsed document: its top-level elements.  The bus hands over XML
    text; what is modelled is what [doc.Parse] makes of it (a text that
    does not parse leaves a document without elements). *)
Definition XMLDocument : Type := list XMLElement.

Module Xml.

Definition name_of (e : XMLElement) : string :=
  match e with Element n _ _ => n end.

Definition attributes_of (e : XMLElement) : list (string * string) :=
  match e with Element _ a _ => a end.

Definition children_of (e : XMLElement) : list XMLElement :=
  match e with Element _ _ c => c end.

(** The first element of [l] called [name], with what follows it. *)
Fixpoint seek (name : string) (l : list XMLElement) : XMLNode :=
  match l with
  | [] => []
  | e :: l' => if (name_of e =? name)%string then l else seek name l'
  end.

Definition FirstChildElement (name : string) (node : XMLNode) : XMLNode :=
  match node with
  | [] => []
  | e :: _ => seek name (children_of e)
  end.

Definition NextSiblingElement (name : string) (node : XMLNode) : XMLNode :=
  match node with
  | [] => []
  | _ :: l => seek name l
  end.

Fixpoint lookup (name : string) (a : list (string * string)) : option string :=
  match a with
  | [] => None
  | (k, v) :: a' => if (k =? name)%string then Some v else lookup name a'
  end.

(** [node->Attribute(name)]; [None] is the null [const char *]. *)
Definition Attribute (name : string) (node : XMLNode) : option string :=
  match node with
  | [] => None
  | e :: _ => lookup name (attributes_of e)
  end.

End Xml.

(** ** Bus values and replies *)

(** [boost::system::error_code]: [None] is success, [Some msg] an error
    whose [message()] is [msg]. *)
Definition error_code : Type := option string.

Definition failed (ec : error_code) : bool :=
  match ec with Some _ => true | None => false end.

(** [DbusRestVariantType]. *)
Inductive DbusRestVariantType : Type :=
| v_tuples (l : list (string * string * string))
| v_string (s : string)
| v_int64 (z : Z)
| v_uint64 (z : Z)
| v_double (d : double)
| v_int32 (z : Z)
| v_uint32 (z : Z)
| v_int16 (z : Z)
| v_uint16 (z : Z)
| v_uint8 (z : Z)
| v_bool (b : bool).

(** The visitor [[&](auto &&val) { json = val; }]. *)
Definition json_of_variant (v : DbusRestVariantType) : json :=
  match v with
  | v_tuples l =>
      Jarray (map (fun t => match t with
                            | (a, b, c) => Jarray [Jstring a; Jstring b; Jstring c]
                            end) l)
  | v_string s => Jstring s
  | v_int64 z | v_int32 z | v_int16 z => Jnumber_integer z
  | v_uint64 z | v_uint32 z | v_uint16 z | v_uint8 z => Jnumber_unsigned z
  | v_double d => Jnumber_float d
  | v_bool b => Jboolean b
  end.

(** [ManagedObjectType]: object path, then interface, then property. *)
Definition ManagedObjectType : Type :=
  list (string * list (string * list (string * DbusRestVariantType))).

(** [GetSubTreeType]: path, then connection with its interfaces. *)
Definition GetSubTreeType : Type :=
  list (string * list (string * list string)).

(** [GetObjectType]: connection with its interfaces. *)
Definition GetObjectType : Type := list (string * list string).

(** What the bus passes to a callback. *)
Inductive reply : Type :=
| introspect_reply (ec : error_code) (introspect_xml : XMLDocument)
| managed_objects_reply (ec : error_code) (objects : ManagedObjectType)
| subtree_reply (ec : error_code) (object_names : GetSubTreeType)
| object_reply (ec : error_code) (object_names : GetObjectType)
| properties_reply (ec : error_code)
    (properties : list (string * DbusRestVariantType))
| paths_reply (ec : error_code) (object_paths : list string)
| send_reply (ec : error_code).

(** ** The response and the reactor state *)

(** [boost::beast::http::status], the values the file uses. *)
Inductive status : Type :=
| ok
| bad_request
| forbidden
| not_found
| method_not_allowed
| internal_server_error.

Definition status_eqb (a b : status) : bool :=
  match a, b with
  | ok, ok | bad_request, bad_request | forbidden, forbidden
  | not_found, not_found | method_not_allowed, method_not_allowed
  | internal_server_error, internal_server_error => true
  | _, _ => false
  end.

(** [crow::response]: [ended] counts the calls of [res.end()]. *)
Record response : Type := Response {
  result : status;
  json_value : json;
  ended : nat
}.

(** The object behind the [shared_ptr] a request passes to its callbacks. *)
Inductive shared : Type :=
| SharedJson (j : json)
| InProgressActionData (path method_name : string) (arguments : json)
| AsyncPutRequest (objectPath propertyName : string) (propertyValue : json).

(** An asynchronous bus call that has been issued and whose callback has
    not run yet, with what the callback captured. *)
Inductive task : Type :=
| introspect_objects_call (process_name object_path : string)
    (transaction : bool)            (* is the captured [shared_ptr] non-null *)
| get_managed_objects_call (object_name connection_name : string)
| enumerate_subtree_call (object_path : string)
| get_object_call (object_path property_name : string)
| get_all_call (connection object_path interface property_name : string)
| list_paths_call (object_path : string)
| action_object_call
| action_introspect_call (connectionName : string)
| action_send_call (m : message)
| put_object_call
| put_introspect_call (connectionName : string)
| put_send_call (m : message).

(** Does the callback hold a reference to the shared object. *)
Definition holds (t : task) : bool :=
  match t with
  | introspect_objects_call _ _ transaction => transaction
  | get_managed_objects_call _ _ => true
  | enumerate_subtree_call _ => false
  | get_object_call _ _ => false
  | get_all_call _ _ _ _ => true
  | list_paths_call _ => false
  | action_object_call => true
  | action_introspect_call _ => true
  | action_send_call _ => true
  | put_object_call => true
  | put_introspect_call _ => true
  | put_send_call _ => true
  end.

Record world : Type := World {
  res : response;
  heap : option shared;       (* the shared object, while it is alive *)
  pending : list task
}.

(** A [crow::response] as the router hands it to a handler. *)
Definition fresh : world := World (Response ok Jnull 0) None [].

Definition with_result (st : status) (w : world) : world :=
  World (Response st (json_value (res w)) (ended (res w))) (heap w) (pending w).

Definition with_json (j : json) (w : world) : world :=
  World (Response (result (res w)) j (ended (res w))) (heap w) (pending w).

(** [res.end()]. *)
Definition end_ (w : world) : world :=
  World (Response (result (res w)) (json_value (res w)) (S (ended (res w))))
        (heap w) (pending w).

Definition with_heap (h : option shared) (w : world) : world :=
  World (res w) h (pending w).

(** [async_method_call] / [async_send]: the callback is queued. *)
Definition spawn (t : task) (w : world) : world :=
  World (res w) (heap w) (pending w ++ [t]).

(** [use_count()] seen from inside a running callback that holds one
    reference itself. *)
Definition use_count (w : world) : nat :=
  S (List.length (filter holds (pending w))).

(** [use_count()] of a captured pointer; a null [shared_ptr] counts 0. *)
Definition use_count_of (transaction : bool) (w : world) : nat :=
  if transaction then use_count w else 0%nat.

(** How the invocation of a callback ends. *)
Inductive outcome : Type :=
| Completed (w : world)   (* the callback returned *)
| Aborted                 (* it did not: null dereference, an exception that
                             leaves the callback, a loop without end *)
| IllTyped.               (* no such pending call, or a reply of another
                             call's type: nothing the bus does *)

(** The success envelope, [data] being [d]. *)
Definition ok_envelope (d : json) : json :=
  Json.object [("status", Jstring "ok"); ("message", Jstring "200 OK");
               ("data", d)].

(** *** [introspect_objects] *)

Definition introspect_objects (process_name path : string)
  (transaction : bool) (w : world) : world :=
  spawn (introspect_objects_call process_name path transaction) w.

(** The loop over the [<node>] children: [nodes] are the children of the
    root from the current position on. *)
Fixpoint introspect_children (process_name object_path : string)
  (transaction : bool) (nodes : list XMLElement) (w : world) : option world :=
  match nodes with
  | [] => Some w
  | e :: rest =>
      if (Xml.name_of e =? "node")%string then
        match Xml.Attribute "name" [e] with
        | None => None          (* a [std::string] built from a null pointer *)
        | Some child_path =>
            let newpath :=
              String.append
                (if (object_path =? "/")%string then EmptyString else object_path)
                (String.append "/" child_path) in
            introspect_children process_name object_path transaction rest
              (introspect_objects process_name newpath transaction w)
        end
      else introspect_children process_name object_path transaction rest w
  end.

Definition introspect_objects_callback (process_name object_path : string)
  (transaction : bool) (ec : error_code) (introspect_xml : XMLDocument)
  (w : world) : outcome :=
  let walked :=
    if failed ec then Some w
    else
      (* [transaction->push_back({{"path", object_path}})] *)
      match (if transaction then heap w else None) with
      | Some (SharedJson j) =>
          match Json.push_back (Json.object [("path", Jstring object_path)]) j with
          | None => None
          | Some j =>
              let w := with_heap (Some (SharedJson j)) w in
              match Xml.seek "node" introspect_xml with
              | [] => Some w
              | pRoot :: _ =>
                  introspect_children process_name object_path transaction
                    (Xml.children_of pRoot) w
              end
          end
      | _ => None                (* [transaction] is null *)
      end in
  match walked with
  | None => Aborted
  | Some w =>
      (* if we're the last outstanding caller, finish the request *)
      if (use_count_of transaction w =? 1)%nat then
        match heap w with
        | Some (SharedJson j) =>
            Completed
              (end_ (with_json
                       (Json.object [("status", Jstring "ok");
                                     ("bus_name", Jstring process_name);
                                     ("objects", j)])
                       (with_heap (Some (SharedJson Jnull)) w)))
        | _ => Aborted
        end
      else Completed w
  end.

(** *** [get_managed_objects_for_enumerate] *)

(** dbus-rest represents booleans as 1 or 0, implement to match. *)
Definition bool_as_int (property_json : json) : json :=
  match Json.bool_ptr property_json with
  | Some property_bool => Jnumber_integer (if property_bool then 1 else 0)
  | None => property_json
  end.

Fixpoint enumerate_properties (properties : list (string * DbusRestVariantType))
  (object_json : json) : option json :=
  match properties with
  | [] => Some object_json
  | (name, v) :: rest =>
      match Json.set name (bool_as_int (json_of_variant v)) object_json with
      | None => None
      | Some object_json => enumerate_properties rest object_json
      end
  end.

Fixpoint enumerate_interfaces
  (interfaces : list (string * list (string * DbusRestVariantType)))
  (object_json : json) : option json :=
  match interfaces with
  | [] => Some object_json
  | (_, properties) :: rest =>
      match enumerate_properties properties object_json with
      | None => None
      | Some object_json => enumerate_interfaces rest object_json
      end
  end.

Fixpoint enumerate_objects (objects : ManagedObjectType) (data_json : json)
  : option json :=
  match objects with
  | [] => Some data_json
  | (object_path, interfaces) :: rest =>
      (* [object_json = data_json[object_path]], made an object when null *)
      let object_json :=
        match Json.find object_path data_json with
        | Some x => if Json.is_null x then Json.object [] else x
        | None => Json.object []
        end in
      match enumerate_interfaces interfaces object_json with
      | None => None
      | Some object_json =>
          match Json.set object_path object_json data_json with
          | None => None
          | Some data_json => enumerate_objects rest data_json
          end
      end
  end.

Definition get_managed_objects_for_enumerate (object_name connection_name : string)
  (w : world) : world :=
  spawn (get_managed_objects_call object_name connection_name) w.

Definition get_managed_objects_callback (ec : error_code)
  (objects : ManagedObjectType) (w : world) : outcome :=
  let filled :=
    if failed ec then Some w
    else match heap w with
         | Some (SharedJson data_json) =>
             match enumerate_objects objects data_json with
             | Some data_json => Some (with_heap (Some (SharedJson data_json)) w)
             | None => None
             end
         | _ => None
         end in
  match filled with
  | None => Aborted
  | Some w =>
      if (use_count w =? 1)%nat then
        match heap w with
        | Some (SharedJson j) =>
            Completed
              (end_ (with_json
                       (Json.object [("message", Jstring "200 OK");
                                     ("status", Jstring "ok");
                                     ("data", j)])
                       (with_heap (Some (SharedJson Jnull)) w)))
        | _ => Aborted
        end
      else Completed w
  end.

(** *** [handle_list] *)

Definition handle_list (object_path : string) (w : world) : world :=
  spawn (list_paths_call object_path) w.

Definition handle_list_callback (ec : error_code) (object_paths : list string)
  (w : world) : outcome :=
  Completed
    (end_ (if failed ec then with_result internal_server_error w
           else with_json (ok_envelope (Jarray (map Jstring object_paths))) w)).

(** *** [handle_enumerate] *)

(** [boost::container::flat_set<std::string>::insert]. *)
Fixpoint flat_set_insert (x : string) (s : list string) : list string :=
  match s with
  | [] => [x]
  | y :: s' =>
      match String.compare x y with
      | Eq => s
      | Lt => x :: s
      | Gt => y :: flat_set_insert x s'
      end
  end.

(** The connections named anywhere in a [GetSubTree] reply. *)
Definition subtree_connections (object_names : GetSubTreeType) : list string :=
  fold_left
    (fun connections object =>
       fold_left (fun connections connection =>
                    flat_set_insert (fst connection) connections)
                 (snd object) connections)
    object_names [].

Definition handle_enumerate (object_path : string) (w : world) : world :=
  spawn (enumerate_subtree_call object_path) w.

Definition handle_enumerate_callback (object_path : string) (ec : error_code)
  (object_names : GetSubTreeType) (w : world) : outcome :=
  if failed ec then
    Completed
      (end_ (with_json
               (Json.object [("message", Jstring "200 OK");
                             ("status", Jstring "ok");
                             ("data", Json.object [])]) w))
  else
    let connections := subtree_connections object_names in
    if (List.length connections <=? 0)%nat then
      Completed (end_ (with_result not_found w))
    else
      Completed
        (fold_left
           (fun w connection =>
              get_managed_objects_for_enumerate object_path connection w)
           connections
           (with_heap (Some (SharedJson (Json.object []))) w)).

(** *** [handle_get] *)

Definition handle_get (object_path dest_property : string) (w : world) : world :=
  spawn (get_object_call object_path dest_property) w.

(** The loop over the connections of the [GetObject] reply; the [return]
    on an empty interface list leaves the calls issued so far pending. *)
Fixpoint get_connections (object_path property_name : string)
  (object_names : GetObjectType) (w : world) : world :=
  match object_names with
  | [] => w
  | (connection, interfaceNames) :: rest =>
      if (List.length interfaceNames <=? 0)%nat then
        end_ (with_result not_found w)
      else
        get_connections object_path property_name rest
          (fold_left
             (fun w interface =>
                spawn (get_all_call connection object_path interface
                                    property_name) w)
             interfaceNames w)
  end.

Definition handle_get_callback (object_path property_name : string)
  (ec : error_code) (object_names : GetObjectType) (w : world) : outcome :=
  if failed ec || (List.length object_names <=? 0)%nat then
    Completed (end_ (with_result not_found w))
  else
    Completed
      (get_connections object_path property_name object_names
         (with_heap (Some (SharedJson (Json.object []))) w)).

(** if property name is empty, or matches our search query, add it to the
    response json *)
Fixpoint collect_properties (property_name : string)
  (properties : list (string * DbusRestVariantType)) (response : json)
  : option json :=
  match properties with
  | [] => Some response
  | (name, v) :: rest =>
      if Str.empty property_name then
        match Json.set name (json_of_variant v) response with
        | None => None
        | Some response => collect_properties property_name rest response
        end
      else if (name =? property_name)%string then
        collect_properties property_name rest (json_of_variant v)
      else collect_properties property_name rest response
  end.

Definition get_all_callback (property_name : string) (ec : error_code)
  (properties : list (string * DbusRestVariantType)) (w : world) : outcome :=
  let filled :=
    if failed ec then Some w
    else match heap w with
         | Some (SharedJson response) =>
             match collect_properties property_name properties response with
             | Some response => Some (with_heap (Some (SharedJson response)) w)
             | None => None
             end
         | _ => None
         end in
  match filled with
  | None => Aborted
  | Some w =>
      if (use_count w =? 1)%nat then
        match heap w with
        | Some (SharedJson response) =>
            Completed (end_ (with_json (ok_envelope response) w))
        | _ => Aborted
        end
      else Completed w
  end.

(** ** Requests *)

Inductive verb : Type := GET | PUT | POST.

(** [crow::request].  [body] is what
    [nlohmann::json::parse(req.body, nullptr, false)] makes of the body
    text: [None] when the result [is_discarded()]. *)
Record request : Type := Request {
  method : verb;
  body_json : option json
}.

(** What one round of a loop inside a callback does. *)
Inductive ctl : Type :=
| Go (w : world)       (* on to the next round, or past the loop *)
| Stop (w : world)     (* [return;] *)
| Crash.               (* the callback does not return *)

Section Handlers.

Variable sd_bus : message -> bus_op -> Z.

(** What a caller reads after a call of the codec that got to its closing
    brace. *)
Variable garbage : message -> string -> json -> Z.

(** The depth the recursion of the codec may reach before the stack of
    the process is used up. *)
Variable fuel : nat.

(** *** [InProgressActionData] and [handle_action] *)

Definition setErrorStatus (w : world) : world :=
  with_result internal_server_error w.

(** [~InProgressActionData()]. *)
Definition destroy_action (w : world) : world :=
  end_ (if status_eqb (result (res w)) internal_server_error
        then with_json (Json.object []) w
        else w).

(** What the argument loop of [find_action_on_interface] comes to. *)
Inductive encoded : Type :=
| Encoded (m : message)   (* the loop ended, [m] is ready to be sent *)
| Rejected                (* [setErrorStatus(); return;] *)
| Stuck.                  (* null attribute, codec fault, or no exit *)

(** One round at [argument_node], [its] being what lies from [arg_it] to
    [arguments.end()]; [k] is the rest of the loop. *)
Definition encode_argument (argument_node : XMLNode) (its : list json)
  (m : message) (k : list json -> message -> encoded) : encoded :=
  match Xml.Attribute "direction" argument_node with
  | None => Stuck
  | Some arg_direction =>
      if (arg_direction =? "in")%string then
        match Xml.Attribute "type" argument_node with
        | None => Stuck
        | Some arg_type =>
            match its with
            | [] => Rejected
            | x :: its =>
                match convert_json_to_dbus sd_bus garbage fuel m arg_type x with
                | (m, Done e) =>
                    if received garbage m arg_type x e <? 0 then Rejected
                    else k its m
                | (_, _) => Stuck
                end
            end
        end
      else k its m
  end.

(** The rounds after the first.  Each of them reads
    [method_node->NextSiblingElement("arg")], the same node [again] every
    time: an argument of direction [in] uses up the JSON array until the
    round is rejected, any other direction never leaves the loop. *)
Fixpoint encode_again (again : XMLNode) (its : list json) (m : message)
  : encoded :=
  match again with
  | [] => Encoded m
  | _ :: _ =>
      match Xml.Attribute "direction" again with
      | None => Stuck
      | Some arg_direction =>
          if (arg_direction =? "in")%string then
            match Xml.Attribute "type" again with
            | None => Stuck
            | Some arg_type =>
                match its with
                | [] => Rejected
                | x :: its =>
                    match convert_json_to_dbus sd_bus garbage fuel m arg_type
                            x with
                    | (m, Done e) =>
                        if received garbage m arg_type x e <? 0 then Rejected
                        else encode_again again its m
                    | (_, _) => Stuck
                    end
                end
            end
          else Stuck
      end
  end.

(** The [while (argument_node != nullptr)] loop for the method at the
    head of [method_node]. *)
Definition encode_arguments (method_node : XMLNode) (arguments : json)
  (m : message) : encoded :=
  match Xml.FirstChildElement "arg" method_node with
  | [] => Encoded m
  | argument_node =>
      encode_argument argument_node (Json.range arguments) m
        (encode_again (Xml.NextSiblingElement "arg" method_node))
  end.

(** The loop over the [<method>] children of one interface; [nodes] are
    the children from the current position on.  The [break] after a
    dispatch ends this loop only. *)
Fixpoint action_methods (connectionName this_interface_name : string)
  (path method_name : string) (arguments : json)
  (nodes : list XMLElement) (w : world) : ctl :=
  match nodes with
  | [] => Go w
  | e :: rest =>
      if (Xml.name_of e =? "method")%string then
        match Xml.Attribute "name" [e] with
        | None => Crash
        | Some this_method_name =>
            if (this_method_name =? method_name)%string then
              let m := new_method_call connectionName path
                         this_interface_name method_name in
              match encode_arguments (e :: rest) arguments m with
              | Encoded m => Go (spawn (action_send_call m) w)
              | Rejected => Stop (setErrorStatus w)
              | Stuck => Crash
              end
            else
              action_methods connectionName this_interface_name path
                method_name arguments rest w
        end
      else
        action_methods connectionName this_interface_name path
          method_name arguments rest w
  end.

(** The loop over the [<interface>] children of the root. *)
Fixpoint action_interfaces (connectionName : string)
  (path method_name : string) (arguments : json)
  (nodes : list XMLElement) (w : world) : ctl :=
  match nodes with
  | [] => Go w
  | e :: rest =>
      if (Xml.name_of e =? "interface")%string then
        match Xml.Attribute "name" [e] with
        | None => Crash
        | Some this_interface_name =>
            match action_methods connectionName this_interface_name path
                    method_name arguments (Xml.children_of e) w with
            | Go w =>
                action_interfaces connectionName path method_name
                  arguments rest w
            | other => other
            end
        end
      else action_interfaces connectionName path method_name arguments rest w
  end.

Definition outcome_of (c : ctl) : outcome :=
  match c with
  | Go w | Stop w => Completed w
  | Crash => Aborted
  end.

Definition find_action_on_interface (connectionName : string) (w : world)
  : world :=
  spawn (action_introspect_call connectionName) w.

Definition find_action_callback (connectionName : string) (ec : error_code)
  (introspect_xml : XMLDocument) (w : world) : outcome :=
  if failed ec then Completed w
  else
    match Xml.seek "node" introspect_xml with
    | [] => Completed w
    | pRoot :: _ =>
        match heap w with
        | Some (InProgressActionData path method_name arguments) =>
            outcome_of
              (action_interfaces connectionName path method_name arguments
                 (Xml.children_of pRoot) w)
        | _ => Aborted
        end
    end.

Definition action_send_callback (ec : error_code) (w : world) : outcome :=
  if failed ec then Completed (setErrorStatus w)
  else Completed (with_json (ok_envelope Jnull) w).

Definition handle_action_callback (ec : error_code)
  (interface_names : GetObjectType) (w : world) : outcome :=
  if failed ec || (List.length interface_names <=? 0)%nat then
    Completed (setErrorStatus w)
  else
    Completed
      (fold_left (fun w object => find_action_on_interface (fst object) w)
                 interface_names w).

Definition handle_action (req : request) (object_path method_name : string)
  (w : world) : world :=
  match body_json req with
  | None => end_ (with_result bad_request w)
  | Some request_dbus_data =>
      if negb (Json.is_array request_dbus_data) then
        end_ (with_result bad_request w)
      else
        spawn action_object_call
          (with_heap
             (Some (InProgressActionData object_path method_name
                                         request_dbus_data)) w)
  end.

(** *** [AsyncPutRequest] and [handle_put] *)

(** [~AsyncPutRequest()]. *)
Definition destroy_put (propertyName : string) (w : world) : world :=
  let w := if status_eqb (result (res w)) internal_server_error
           then with_json (Json.object []) w
           else w in
  let w := if Json.empty (json_value (res w))
           then with_json
                  (Json.object
                     [("status", Jstring "error");
                      ("message", Jstring "403 Forbidden");
                      ("data",
                       Json.object
                         [("message",
                           Jstring (String.append
                                      "The specified property cannot be created: "
                                      propertyName))])])
                  (with_result forbidden w)
           else w in
  end_ w.

(** The [Properties.Set] call for one matching property: the message is
    built, the value encoded inside a variant, the call sent. *)
Definition put_set_property (connectionName interfaceName : string)
  (objectPath propertyName : string) (propertyValue : json)
  (argType : string) (w : world) : ctl :=
  let m := new_method_call connectionName objectPath
             "org.freedesktop.DBus.Properties" "Set" in
  (* [m.append(interfaceName, transaction->propertyName)] *)
  let m := fst (sd sd_bus m (append_basic "s" (Bstring interfaceName))) in
  let m := fst (sd sd_bus m (append_basic "s" (Bstring propertyName))) in
  let (m, r) := sd sd_bus m (open_container SD_BUS_TYPE_VARIANT argType) in
  if r <? 0 then Stop (setErrorStatus w)
  else
    match convert_json_to_dbus sd_bus garbage fuel m argType propertyValue with
    | (m, Done e) =>
        if received garbage m argType propertyValue e <? 0
        then Stop (setErrorStatus w)
        else
          let (m, r) := sd sd_bus m close_container in
          if r <? 0 then Stop (setErrorStatus w)
          else Go (spawn (put_send_call m) w)
    | (_, _) => Crash
    end.

(** The loop over the [<property>] children of one interface. *)
Fixpoint put_properties (connectionName interfaceName : string)
  (objectPath propertyName : string) (propertyValue : json)
  (nodes : list XMLElement) (w : world) : ctl :=
  match nodes with
  | [] => Go w
  | e :: rest =>
      if (Xml.name_of e =? "property")%string then
        match Xml.Attribute "name" [e] with
        | None => Crash       (* a null [const char *] compared with a string *)
        | Some thisName =>
            let found :=
              if (thisName =? propertyName)%string then
                match Xml.Attribute "type" [e] with
                | Some argType =>
                    put_set_property connectionName interfaceName objectPath
                      propertyName propertyValue argType w
                | None => Go w
                end
              else Go w in
            match found with
            | Go w =>
                put_properties connectionName interfaceName objectPath
                  propertyName propertyValue rest w
            | other => other
            end
        end
      else
        put_properties connectionName interfaceName objectPath propertyName
          propertyValue rest w
  end.

(** The loop over the [<interface>] children of the root. *)
Fixpoint put_interfaces (connectionName : string)
  (objectPath propertyName : string) (propertyValue : json)
  (nodes : list XMLElement) (w : world) : ctl :=
  match nodes with
  | [] => Go w
  | e :: rest =>
      if (Xml.name_of e =? "interface")%string then
        match Xml.Attribute "name" [e] with
        | None => Crash       (* the null name is streamed and appended *)
        | Some interfaceName =>
            match put_properties connectionName interfaceName objectPath
                    propertyName propertyValue (Xml.children_of e) w with
            | Go w =>
                put_interfaces connectionName objectPath propertyName
                  propertyValue rest w
            | other => other
            end
        end
      else
        put_interfaces connectionName objectPath propertyName propertyValue
          rest w
  end.

Definition put_introspect_callback (connectionName : string)
  (ec : error_code) (introspectXml : XMLDocument) (w : world) : outcome :=
  if failed ec then Completed (setErrorStatus w)
  else
    match Xml.seek "node" introspectXml with
    | [] => Completed (setErrorStatus w)
    | pRoot :: _ =>
        match heap w with
        | Some (AsyncPutRequest objectPath propertyName propertyValue) =>
            outcome_of
              (put_interfaces connectionName objectPath propertyName
                 propertyValue (Xml.children_of pRoot) w)
        | _ => Aborted
        end
    end.

Definition put_send_callback (ec : error_code) (w : world) : outcome :=
  match ec with
  | None => Completed w
  | Some message =>
      match Json.set "status" (Jstring "error") (json_value (res w)) with
      | None => Aborted
      | Some j =>
          match Json.set "message" (Jstring message) j with
          | None => Aborted
          | Some j => Completed (with_json j w)
          end
      end
  end.

Definition handle_put_callback (ec : error_code)
  (object_names : GetObjectType) (w : world) : outcome :=
  if negb (failed ec) && (List.length object_names <=? 0)%nat then
    Completed (with_result not_found w)
  else
    Completed
      (fold_left
         (fun w connection => spawn (put_introspect_call (fst connection)) w)
         object_names w).

Definition handle_put (req : request) (objectPath destProperty : string)
  (w : world) : world :=
  match body_json req with
  | None => end_ (with_result bad_request w)
  | Some request_dbus_data =>
      match Json.find "data" request_dbus_data with
      | None => end_ (with_result bad_request w)
      | Some propertySetValue =>
          (* the constructor of [AsyncPutRequest] fills in the envelope *)
          spawn put_object_call
            (with_heap
               (Some (AsyncPutRequest objectPath destProperty propertySetValue))
               (with_json (ok_envelope Jnull) w))
      end
  end.

(** *** The reactor *)

(** The references of a callback are dropped when it has run: the shared
    object dies with the last of them, and its destructor runs. *)
Definition release (w : world) : world :=
  if existsb holds (pending w) then w
  else
    match heap w with
    | Some (InProgressActionData _ _ _) => with_heap None (destroy_action w)
    | Some (AsyncPutRequest _ propertyName _) =>
        with_heap None (destroy_put propertyName w)
    | _ => with_heap None w
    end.

Definition callback (t : task) (r : reply) (w : world) : outcome :=
  match t, r with
  | introspect_objects_call process_name object_path transaction,
    introspect_reply ec introspect_xml =>
      introspect_objects_callback process_name object_path transaction
        ec introspect_xml w
  | get_managed_objects_call _ _, managed_objects_reply ec objects =>
      get_managed_objects_callback ec objects w
  | enumerate_subtree_call object_path, subtree_reply ec object_names =>
      handle_enumerate_callback object_path ec object_names w
  | get_object_call object_path property_name, object_reply ec object_names =>
      handle_get_callback object_path property_name ec object_names w
  | get_all_call _ _ _ property_name, properties_reply ec properties =>
      get_all_callback property_name ec properties w
  | list_paths_call _, paths_reply ec object_paths =>
      handle_list_callback ec object_paths w
  | action_object_call, object_reply ec interface_names =>
      handle_action_callback ec interface_names w
  | action_introspect_call connectionName, introspect_reply ec introspect_xml =>
      find_action_callback connectionName ec introspect_xml w
  | action_send_call _, send_reply ec => action_send_callback ec w
  | put_object_call, object_reply ec object_names =>
      handle_put_callback ec object_names w
  | put_introspect_call connectionName, introspect_reply ec introspectXml =>
      put_introspect_callback connectionName ec introspectXml w
  | put_send_call _, send_reply ec => put_send_callback ec w
  | _, _ => IllTyped
  end.

(** The bus answers the [i]-th pending call with [r]: its callback runs,
    then gives up its references. *)
Definition fire (i : nat) (r : reply) (w : world) : outcome :=
  match nth_error (pending w) i with
  | None => IllTyped
  | Some t =>
      match callback t r
              (World (res w) (heap w)
                     (firstn i (pending w) ++ skipn (S i) (pending w))) with
      | Completed w => Completed (release w)
      | other => other
      end
  end.

(** A sequence of answers, each naming the pending call it completes. *)
Fixpoint run (answers : list (nat * reply)) (w : world) : outcome :=
  match answers with
  | [] => Completed w
  | (i, r) :: rest =>
      match fire i r w with
      | Completed w => run rest w
      | other => other
      end
  end.

(** *** The routes *)

(** Where the [/xyz/<path>] route sends a request. *)
Inductive routed : Type :=
| to_handle_action (object_path post_property : string)
| to_handle_enumerate (object_path : string)
| to_handle_list (object_path : string)
| to_handle_get (object_path dest_property : string)
| to_handle_put (object_path dest_property : string)
| to_method_not_allowed.

Definition attr_seperator : string := "/attr/".
Definition action_seperator : string := "/action/".

Definition xyz_dispatch (method : verb) (path : string) : routed :=
  let object_path := String.append "/xyz/" path in
  (* Trim any trailing "/" at the end *)
  let object_path :=
    if Str.ends_with object_path "/" then Str.drop_back 1 object_path
    else object_path in
  (* If accessing a single attribute, fill in and update object_path,
     otherwise leave dest_property blank *)
  let '(object_path, dest_property) :=
    match index 0 attr_seperator path with
    | Some attr_position =>
        (String.append "/xyz/" (substring 0 attr_position path),
         substring (attr_position + String.length attr_seperator)
                   (String.length path) path)
    | None => (object_path, EmptyString)
    end in
  match method with
  | POST =>
      match index 0 action_seperator path with
      | Some action_position =>
          to_handle_action
            (String.append "/xyz/" (substring 0 action_position path))
            (substring (action_position + String.length action_seperator)
                       (String.length path) path)
      | None => to_method_not_allowed
      end
  | GET =>
      if Str.ends_with object_path "/enumerate" then
        to_handle_enumerate (Str.drop_back 10 object_path)
      else if Str.ends_with object_path "/list" then
        to_handle_list (Str.drop_back 5 object_path)
      else to_handle_get object_path dest_property
  | PUT => to_handle_put object_path dest_property
  end.

(** The handler of [CROW_ROUTE(app, "/xyz/<path>")]. *)
Definition xyz_route (req : request) (path : string) (w : world) : world :=
  release
    match xyz_dispatch (method req) path with
    | to_handle_action object_path post_property =>
        handle_action req object_path post_property w
    | to_handle_enumerate object_path => handle_enumerate object_path w
    | to_handle_list object_path => handle_list object_path w
    | to_handle_get object_path dest_property =>
        handle_get object_path dest_property w
    | to_handle_put object_path dest_property =>
        handle_put req object_path dest_property w
    | to_method_not_allowed => end_ (with_result method_not_allowed w)
    end.

(** The handler of [CROW_ROUTE(app, "/bus/system/<str>/")]: the
    [shared_ptr] it passes on is default-constructed, that is null. *)
Definition bus_system_route (connection : string) (w : world) : world :=
  release (introspect_objects connection "/" false w).

End Handlers.

(** ** The fan-out of an enumerate request, as a state invariant *)

Definition is_object (j : json) : bool :=
  match j with Jobject _ => true | _ => false end.

Definition object_valued (m : list (string * json)) : Prop :=
  Forall (fun kv => is_object (snd kv) = true) m.

Definition managed_call (t : task) : bool :=
  match t with get_managed_objects_call _ _ => true | _ => false end.

Definition managed_reply (r : reply) : bool :=
  match r with managed_objects_reply _ _ => true | _ => false end.

(** Answers to [k] pending [GetManagedObjects] calls, each naming a call
    that is pending when it arrives. *)
Fixpoint managed_answers (k : nat) (answers : list (nat * reply)) : Prop :=
  match answers with
  | [] => True
  | (i, r) :: rest =>
      (i < k)%nat /\ managed_reply r = true /\ managed_answers (k - 1) rest
  end.

(** The state of an enumerate request with [k] calls outstanding. *)
Definition enumerate_outstanding (k : nat) (w : world) : Prop :=
  ended (res w) = 0%nat
  /\ result (res w) = ok
  /\ (exists m, heap w = Some (SharedJson (Jobject m)) /\ object_valued m)
  /\ List.length (pending w) = k
  /\ forallb managed_call (pending w) = true.

(** ** Inputs used by the evaluations below *)

(** A message builder that accepts every call. *)
Definition sd_accept : message -> bus_op -> Z := fun _ _ => 0.

(** Every call of the codec that gets to its closing brace leaves [v] for
    its caller to read. *)
Definition hands_back (v : Z) : message -> string -> json -> Z :=
  fun _ _ _ => v.

(** [m] with [ops] appended to what it holds. *)
Definition appended (m : message) (ops : list bus_op) : message :=
  Message (destination m) (object m) (interface m) (member m) (body m ++ ops).

(** An introspection document with one interface [iface] that has one
    method [name] with the children [args] and no property. *)
Definition method_document (iface name : string) (args : list XMLElement)
  : XMLDocument :=
  [Element "node" []
     [Element "interface" [("name", iface)]
        [Element "method" [("name", name)] args]]].

(** An introspection document with one interface [iface] that has one
    property [name] of signature [type]. *)
Definition property_document (iface name type : string) : XMLDocument :=
  [Element "node" []
     [Element "interface" [("name", iface)]
        [Element "property" [("name", name); ("type", type)] []]]].

(** The body of the 403 answer of a PUT. *)
Definition forbidden_body (propertyName : string) : json :=
  Json.object
    [("status", Jstring "error");
     ("message", Jstring "403 Forbidden");
     ("data",
      Json.object
        [("message",
          Jstring (String.append "The specified property cannot be created: "
                                 propertyName))])].

(** ** Further inputs and predicates *)

(** A type code that neither opens nor closes a container and is not the
    array prefix: the [default] branch of the splitter. *)
Definition plain_code (c : ascii) : bool :=
  negb (Ascii.eqb c "a" || Ascii.eqb c "(" || Ascii.eqb c "{"
        || Ascii.eqb c "}" || Ascii.eqb c ")").

(** Do all characters of [s] satisfy [p]? *)
Fixpoint all_chars (p : ascii -> bool) (s : string) : bool :=
  match s with
  | EmptyString => true
  | String c s' => p c && all_chars p s'
  end.

(** What the splitter keeps between two rounds: before the last
    character every element of [ret] but the last is non-empty, after it
    all are. *)
Definition split_state (chars : string) (ret : list string) : Prop :=
  if Str.empty chars
  then Forall (fun code => code <> EmptyString) ret
  else ret <> [] /\ Forall (fun code => code <> EmptyString) (removelast ret).

(** The first characters the [if / else if] chain of the codec knows. *)
Definition handled_code (c : ascii) : bool :=
  existsb (Ascii.eqb c)
    ["s"; "i"; "b"; "n"; "x"; "y"; "q"; "u"; "t"; "d"; "a"; "v"]%char.



(** A JSON body [handle_action] turns down. *)
Definition not_an_array (body : option json) : bool :=
  match body with
  | None => true
  | Some j => negb (Json.is_array j)
  end.

(** A JSON body [handle_put] turns down. *)
Definition without_data (body : option json) : bool :=
  match body with
  | None => true
  | Some j => match Json.find "data" j with None => true | Some _ => false end
  end.

(** No [<method>] among [nodes] is called [name], and each has a name. *)
Definition no_method_named (name : string) (nodes : list XMLElement) : bool :=
  forallb
    (fun e =>
       if (Xml.name_of e =? "method")%string then
         match Xml.Attribute "name" [e] with
         | Some n => negb (n =? name)%string
         | None => false
         end
       else true)
    nodes.

(** The document has a root whose interfaces are all named and offer no
    method called [name]. *)
Definition offers_no_method (name : string) (doc : XMLDocument) : bool :=
  match Xml.seek "node" doc with
  | [] => false
  | pRoot :: _ =>
      forallb
        (fun e =>
           if (Xml.name_of e =? "interface")%string then
             match Xml.Attribute "name" [e] with
             | Some _ => no_method_named name (Xml.children_of e)
             | None => false
             end
           else true)
        (Xml.children_of pRoot)
  end.

(** No [<property>] among [nodes] is called [name], and each has a name. *)
Definition no_property_named (name : string) (nodes : list XMLElement) : bool :=
  forallb
    (fun e =>
       if (Xml.name_of e =? "property")%string then
         match Xml.Attribute "name" [e] with
         | Some n => negb (n =? name)%string
         | None => false
         end
       else true)
    nodes.

(** The document has a root whose interfaces are all named and offer no
    property called [name]. *)
Definition offers_no_property (name : string) (doc : XMLDocument) : bool :=
  match Xml.seek "node" doc with
  | [] => false
  | pRoot :: _ =>
      forallb
        (fun e =>
           if (Xml.name_of e =? "interface")%string then
             match Xml.Attribute "name" [e] with
             | Some _ => no_property_named name (Xml.children_of e)
             | None => false
             end
           else true)
        (Xml.children_of pRoot)
  end.

(** The [Properties.Set] message for a string property when the codec
    comes back: the value is in, the variant is still open. *)
Definition set_string_open (connectionName objectPath interfaceName
  propertyName value : string) : message :=
  Message connectionName objectPath "org.freedesktop.DBus.Properties" "Set"
    [append_basic "s" (Bstring interfaceName);
     append_basic "s" (Bstring propertyName);
     open_container SD_BUS_TYPE_VARIANT "s";
     append_basic "s" (Bstring value)].

(** The [Properties.Set] call for a string property. *)
Definition set_string_call (connectionName objectPath interfaceName
  propertyName value : string) : message :=
  Message connectionName objectPath "org.freedesktop.DBus.Properties" "Set"
    [append_basic "s" (Bstring interfaceName);
     append_basic "s" (Bstring propertyName);
     open_container SD_BUS_TYPE_VARIANT "s";
     append_basic "s" (Bstring value);
     close_container].

(** The [GetAll] calls [handle_get] issues for a [GetObject] reply. *)
Definition get_all_calls (object_path property_name : string)
  (object_names : GetObjectType) : list task :=
  flat_map
    (fun connection =>
       map (fun interface =>
              get_all_call (fst connection) object_path interface property_name)
           (snd connection))
    object_names.

(** Is [t] a [GetAll] call of a get request for [property_name]? *)
Definition get_all_for (property_name : string) (t : task) : bool :=
  match t with
  | get_all_call _ _ _ p => (p =? property_name)%string
  | _ => false
  end.

(** Is [r] the reply to a [GetAll] call? *)
Definition properties_answer (r : reply) : bool :=
  match r with properties_reply _ _ => true | _ => false end.

(** Answers to [k] pending [GetAll] calls, each naming a call that is
    pending when it arrives. *)
Fixpoint get_all_answers (k : nat) (answers : list (nat * reply)) : Prop :=
  match answers with
  | [] => True
  | (i, r) :: rest =>
      (i < k)%nat /\ properties_answer r = true /\ get_all_answers (k - 1) rest
  end.

(** The state of a get request with [k] calls outstanding. *)
Definition get_outstanding (property_name : string) (k : nat) (w : world)
  : Prop :=
  ended (res w) = 0%nat
  /\ result (res w) = ok
  /\ (exists j, heap w = Some (SharedJson j)
                /\ (Str.empty property_name = true -> is_object j = true))
  /\ List.length (pending w) = k
  /\ forallb (get_all_for property_name) (pending w) = true.

(** The last character of a string. *)
Fixpoint last_char (s : string) : option ascii :=
  match s with
  | EmptyString => None
  | String c EmptyString => Some c
  | String _ s' => last_char s'
  end.

(** No member of the object is a JSON bool. *)
Definition bool_free (m : list (string * json)) : Prop :=
  Forall (fun kv => Json.bool_ptr (snd kv) = None) m.

(** Every member of [data] is an object without a JSON bool in it. *)
Definition bool_free_objects (d : list (string * json)) : Prop :=
  Forall (fun kv => exists m, snd kv = Jobject m /\ bool_free m) d.

(** The value of the property [name] that comes last in [properties]. *)
Fixpoint last_property (name : string)
  (properties : list (string * DbusRestVariantType))
  : option DbusRestVariantType :=
  match properties with
  | [] => None
  | (n, v) :: rest =>
      match last_property name rest with
      | Some v' => Some v'
      | None => if (n =? name)%string then Some v else None
      end
  end.

(** The properties a [GetManagedObjects] reply holds for the object
    [path], through all its interfaces, in the order of the reply. *)
Definition reported_properties (objects : ManagedObjectType) (path : string)
  : list (string * DbusRestVariantType) :=
  flat_map
    (fun object =>
       if (fst object =? path)%string then flat_map snd (snd object) else [])
    objects.

(** The member [name] of the member [path] of the object [d]. *)
Definition member_of (d : list (string * json)) (path name : string)
  : option json :=
  match Json.members_get path d with
  | Some (Jobject o) => Json.members_get name o
  | _ => None
  end.

(** ** The [/bus/system/] route *)

(** [std::sort(names.begin(), names.end())] on strings: the ascending
    arrangement of the names; it is built here by insertion. *)
Fixpoint insert_name (x : string) (l : list string) : list string :=
  match l with
  | [] => [x]
  | y :: l' => if String.leb x y then x :: l else y :: insert_name x l'
  end.

(** The names in ascending order. *)
Definition sort_names (names : list string) : list string :=
  fold_right insert_name [] names.

(** [objects_sub.push_back({{"name", name}})] for each name, starting from
    the null value [j["objects"]] creates. *)
Fixpoint push_names (names : list string) (objects_sub : json) : option json :=
  match names with
  | [] => Some objects_sub
  | name :: rest =>
      match Json.push_back (Json.object [("name", Jstring name)]) objects_sub with
      | Some objects_sub => push_names rest objects_sub
      | None => None
      end
  end.

(** The [ListNames] callback of the [/bus/system/] route. *)
Definition list_names_callback (ec : error_code) (names : list string)
  (w : world) : option world :=
  if failed ec then Some (end_ (with_result internal_server_error w))
  else
    match push_names (sort_names names) Jnull with
    | None => None
    | Some objects_sub =>
        match Json.set "objects" objects_sub
                (Json.object [("status", Jstring "ok")]) with
        | None => None
        | Some j => Some (end_ (with_json j w))
        end
    end.

(** The entry [{"name": name}] of a list of names. *)
Definition name_entry (name : string) : json := Jobject [("name", Jstring name)].

(** ** The [/bus/system/<str>/<path>] route *)

(** [boost::split(strs, s, boost::is_any_of("/"))]: the tokens between the
    slashes, empty ones included; [token] is the one being read. *)
Fixpoint split_slash (s : string) (token : string) : list string :=
  match s with
  | EmptyString => [token]
  | String c s' =>
      if Ascii.eqb c "/" then token :: split_slash s' EmptyString
      else split_slash s' (String.append token (Str.of_char c))
  end.

(** [it->find(".") != std::string::npos]. *)
Definition has_dot (segment : string) : bool :=
  match index 0 "." segment with Some _ => true | None => false end.

(** The [while] loop over the segments: the object path built so far, and
    the segments from the one the loop stopped at. *)
Fixpoint walk_segments (strs : list string) (object_path : string)
  : string * list string :=
  match strs with
  | [] => (object_path, [])
  | segment :: rest =>
      if has_dot segment then (object_path, strs)
      else walk_segments rest
             (if Str.empty segment then object_path
              else String.append object_path (String.append "/" segment))
  end.

(** What the handler of [/bus/system/<str>/<path>] does with a path. *)
Inductive bus_request : Type :=
| answer_not_found
| list_interfaces (object_path : string)
| describe_interface (object_path interface_name : string).

(** The path parsing of the handler: the tokens are walked, then the
    interface name and the method name are taken, and anything after them
    is answered 404. *)
Definition parse_requested_path (requested_path : string) : bus_request :=
  let strs := split_slash requested_path EmptyString in
  let '(object_path, from_interface) :=
    walk_segments strs (match strs with [] => "/" | _ => EmptyString end) in
  match from_interface with
  | [] => list_interfaces object_path
  | [interface_name] | [interface_name; _] =>
      if Str.empty interface_name then list_interfaces object_path
      else describe_interface object_path interface_name
  | _ :: _ :: _ :: _ => answer_not_found
  end.

(** The loop that lists the interfaces of the root. *)
Fixpoint interface_names (nodes : list XMLElement) : option (list json) :=
  match nodes with
  | [] => Some []
  | e :: rest =>
      if (Xml.name_of e =? "interface")%string then
        match Xml.Attribute "name" [e], interface_names rest with
        | Some iface_name, Some l =>
            Some (Json.object [("name", Jstring iface_name)] :: l)
        | _, _ => None
        end
      else interface_names rest
  end.

(** The [Introspect] callback of the branch without an interface name. *)
Definition list_interfaces_callback (process_name object_path : string)
  (ec : error_code) (introspect_xml : XMLDocument) (w : world) : option world :=
  if failed ec then Some (end_ w)
  else
    match Xml.seek "node" introspect_xml with
    | [] =>
        Some (end_ (with_result internal_server_error
                      (with_json
                         (Json.object [("status", Jstring "XML parse error")])
                         w)))
    | pRoot :: _ =>
        match interface_names (Xml.children_of pRoot) with
        | None => None
        | Some interfaces_array =>
            Some (end_ (with_json
                          (Json.object
                             [("status", Jstring "ok");
                              ("bus_name", Jstring process_name);
                              ("interfaces", Jarray interfaces_array);
                              ("object_path", Jstring object_path)])
                          w))
        end
    end.

(** The arguments of one method, with name, type and direction. *)
Fixpoint method_args (nodes : list XMLElement) : option (list json) :=
  match nodes with
  | [] => Some []
  | e :: rest =>
      if (Xml.name_of e =? "arg")%string then
        match Xml.Attribute "name" [e], Xml.Attribute "type" [e],
              Xml.Attribute "direction" [e], method_args rest with
        | Some n, Some t, Some d, Some l =>
            Some (Json.object [("name", Jstring n); ("type", Jstring t);
                               ("direction", Jstring d)] :: l)
        | _, _, _, _ => None
        end
      else method_args rest
  end.

(** The arguments of one signal, with name and type. *)
Fixpoint signal_args (nodes : list XMLElement) : option (list json) :=
  match nodes with
  | [] => Some []
  | e :: rest =>
      if (Xml.name_of e =? "arg")%string then
        match Xml.Attribute "name" [e], Xml.Attribute "type" [e],
              signal_args rest with
        | Some n, Some t, Some l =>
            Some (Json.object [("name", Jstring n); ("type", Jstring t)] :: l)
        | _, _, _ => None
        end
      else signal_args rest
  end.

(** The methods of the interface, each with its invocation [uri]. *)
Fixpoint describe_methods (process_name object_path interface_name : string)
  (nodes : list XMLElement) : option (list json) :=
  match nodes with
  | [] => Some []
  | e :: rest =>
      if (Xml.name_of e =? "method")%string then
        match method_args (Xml.children_of e), Xml.Attribute "name" [e],
              describe_methods process_name object_path interface_name rest with
        | Some args_array, Some name, Some l =>
            Some (Json.object
                    [("name", Jstring name);
                     ("uri",
                      Jstring
                        (String.append "/bus/system/"
                           (String.append process_name
                              (String.append object_path
                                 (String.append "/"
                                    (String.append interface_name
                                       (String.append "/" name)))))));
                     ("args", Jarray args_array)] :: l)
        | _, _, _ => None
        end
      else describe_methods process_name object_path interface_name rest
  end.

(** The signals of the interface. *)
Fixpoint describe_signals (nodes : list XMLElement) : option (list json) :=
  match nodes with
  | [] => Some []
  | e :: rest =>
      if (Xml.name_of e =? "signal")%string then
        match signal_args (Xml.children_of e), Xml.Attribute "name" [e],
              describe_signals rest with
        | Some args_array, Some name, Some l =>
            Some (Json.object [("name", Jstring name);
                               ("args", Jarray args_array)] :: l)
        | _, _, _ => None
        end
      else describe_signals rest
  end.

(** The loop that looks for the interface: the body to answer with when it
    is found, [Some None] when the loop runs to its end. *)
Fixpoint describe_interfaces (process_name object_path interface_name : string)
  (nodes : list XMLElement) : option (option json) :=
  match nodes with
  | [] => Some None
  | e :: rest =>
      if (Xml.name_of e =? "interface")%string then
        match Xml.Attribute "name" [e] with
        | None => None
        | Some iface_name =>
            if (iface_name =? interface_name)%string then
              match describe_methods process_name object_path interface_name
                      (Xml.children_of e),
                    describe_signals (Xml.children_of e) with
              | Some methods_array, Some signals_array =>
                  Some (Some (Json.object
                                [("status", Jstring "ok");
                                 ("bus_name", Jstring process_name);
                                 ("interface", Jstring interface_name);
                                 ("methods", Jarray methods_array);
                                 ("object_path", Jstring object_path);
                                 ("properties", Json.object []);
                                 ("signals", Jarray signals_array)]))
              | _, _ => None
              end
            else describe_interfaces process_name object_path interface_name
                   rest
        end
      else describe_interfaces process_name object_path interface_name rest
  end.

(** The [Introspect] callback of the branch with an interface name. *)
Definition describe_interface_callback
  (process_name object_path interface_name : string)
  (ec : error_code) (introspect_xml : XMLDocument) (w : world) : option world :=
  if failed ec then Some (end_ w)
  else
    match Xml.seek "node" introspect_xml with
    | [] => Some (end_ (with_result internal_server_error w))
    | pRoot :: _ =>
        match describe_interfaces process_name object_path interface_name
                (Xml.children_of pRoot) with
        | None => None
        | Some (Some j) => Some (end_ (with_json j w))
        | Some None => Some (end_ (with_result not_found w))
        end
    end.

(** The interfaces among [nodes] are all named, and none is [name]. *)
Definition interface_absent (name : string) (nodes : list XMLElement) : bool :=
  forallb
    (fun e =>
       if (Xml.name_of e =? "interface")%string then
         match Xml.Attribute "name" [e] with
         | Some n => negb (n =? name)%string
         | None => false
         end
       else true)
    nodes.

(** Characters other than the dot, and other than the slash. *)
Definition not_dot (c : ascii) : bool := negb (Ascii.eqb c ".").

(** A [<method>] element without arguments. *)
Definition plain_method (name : string) : XMLElement :=
  Element "method" [("name", name)] [].

(** What the route answers for such a method. *)
Definition method_entry (process_name object_path interface_name name : string)
  : json :=
  Json.object
    [("name", Jstring name);
     ("uri",
      Jstring
        (String.append "/bus/system/"
           (String.append process_name
              (String.append object_path
                 (String.append "/"
                    (String.append interface_name
                       (String.append "/" name)))))));
     ("args", Jarray [])].

(** An [<interface>] element without children. *)
Definition plain_interface (name : string) : XMLElement :=
  Element "interface" [("name", name)] [].

(** A message builder that refuses every call with [-22]. *)
Definition sd_reject : message -> bus_op -> Z := fun _ _ => -22.

(** * Properties *)

(** ** Strings *)

Lemma append_assoc (a b c : string) :
  String.append (String.append a b) c = String.append a (String.append b c).
Proof.
  induction a as [|x a IH]; simpl; [reflexivity | now rewrite IH].
Qed.

Lemma append_empty_r (a : string) : String.append a EmptyString = a.
Proof.
  induction a as [|x a IH]; simpl; [reflexivity | now rewrite IH].
Qed.

Lemma substring_prefix_of_append (p r : string) :
  substring 0 (String.length p) (String.append p r) = p.
Proof.
  induction p as [|x p IH]; simpl.
  - destruct r; reflexivity.
  - now rewrite IH.
Qed.

Lemma substring_skip_append (p r : string) (k m : nat) :
  substring (String.length p + k) m (String.append p r) = substring k m r.
Proof.
  induction p as [|x p IH]; simpl; [reflexivity | exact IH].
Qed.

Lemma substring_whole (s : string) (m : nat) :
  (String.length s <= m)%nat -> substring 0 m s = s.
Proof.
  revert m; induction s as [|x s IH]; intros [|m] H; simpl in *;
    try reflexivity; try lia.
  rewrite IH; [reflexivity | lia].
Qed.

Lemma length_append (a b : string) :
  String.length (String.append a b) = (String.length a + String.length b)%nat.
Proof.
  induction a as [|x a IH]; simpl; [reflexivity | now rewrite IH].
Qed.

(** ** The signature splitter *)

Lemma concat_codes_app (l1 l2 : list string) :
  concat_codes (l1 ++ l2) = String.append (concat_codes l1) (concat_codes l2).
Proof.
  induction l1 as [|x l1 IH]; simpl; [reflexivity |].
  now rewrite IH, append_assoc.
Qed.

Lemma back_append_nonempty (ret : list string) (c : ascii) :
  ret <> [] -> back_append ret c <> [].
Proof.
  destruct ret as [|x [|y ret]]; simpl; congruence.
Qed.

Lemma back_append_concat (ret : list string) (c : ascii) :
  ret <> [] ->
  concat_codes (back_append ret c)
  = String.append (concat_codes ret) (Str.of_char c).
Proof.
  induction ret as [|x ret IH]; intros Hne; [congruence |].
  destruct ret as [|y ret].
  - simpl. now rewrite !append_empty_r.
  - change (back_append (x :: y :: ret) c) with (x :: back_append (y :: ret) c).
    change (concat_codes (x :: back_append (y :: ret) c))
      with (String.append x (concat_codes (back_append (y :: ret) c))).
    rewrite IH by congruence.
    change (concat_codes (x :: y :: ret))
      with (String.append x (concat_codes (y :: ret))).
    now rewrite append_assoc.
Qed.

Lemma push_if_more_nonempty (rest : string) (ret : list string) :
  ret <> [] -> push_if_more rest ret <> [].
Proof.
  unfold push_if_more; destruct (Str.empty rest); [trivial |].
  destruct ret; simpl; congruence.
Qed.

Lemma push_if_more_concat (rest : string) (ret : list string) :
  concat_codes (push_if_more rest ret) = concat_codes ret.
Proof.
  unfold push_if_more; destruct (Str.empty rest); [reflexivity |].
  rewrite concat_codes_app; simpl. apply append_empty_r.
Qed.

(** Every character the loop reads goes to the end of [ret], whatever the
    depth counter says. *)
Lemma dbus_arg_split_loop_concat (chars : string) :
  forall (ret : list string) (container_depth : Z),
    ret <> [] ->
    concat_codes (dbus_arg_split_loop chars ret container_depth)
    = String.append (concat_codes ret) chars.
Proof.
  induction chars as [|c rest IH]; intros ret d Hne; simpl.
  - now rewrite append_empty_r.
  - pose proof (back_append_nonempty ret c Hne) as Hb.
    pose proof (back_append_concat ret c Hne) as Hc.
    assert (Hgoal :
      String.append (concat_codes (back_append ret c)) rest
      = String.append (concat_codes ret) (String c rest)).
    { rewrite Hc, append_assoc. reflexivity. }
    repeat match goal with
           | |- context [if ?b then _ else _] => destruct b
           end;
      rewrite IH;
      try (apply push_if_more_nonempty); try assumption;
      rewrite ?push_if_more_concat; exact Hgoal.
Qed.

Example dbus_arg_split_two_arrays :
  dbus_arg_split "aia{sv}" = FellOff ["ai"; "a{sv}"].
Proof. reflexivity. Qed.

(** C3.  The vector the splitter builds does concatenate to the signature,
    but only the empty signature is answered by a [return]: on every other
    signature, [i] for one, control reaches the closing brace of
    [dbus_arg_split] with the vector still in the local [ret], and no list
    is returned. *)
Theorem dbus_arg_split_reaches_end_without_return :
  dbus_arg_split EmptyString = Returned []
  /\ dbus_arg_split "i" = FellOff ["i"]
  /\ forall (c : ascii) (s : string),
       exists ret : list string,
         dbus_arg_split (String c s) = FellOff ret
         /\ concat_codes ret = String c s.
Proof.
  split; [reflexivity |]. split; [reflexivity |].
  intros c s. eexists. split.
  - unfold dbus_arg_split. simpl Str.empty. cbv iota. reflexivity.
  - rewrite dbus_arg_split_loop_concat by congruence. reflexivity.
Qed.

(** ** The codec *)

(** With a builder that accepts everything an operation is appended. *)
Lemma sd_accept_appends (m : message) (op : bus_op) :
  sd sd_accept m op = (appended m [op], 0).
Proof. reflexivity. Qed.

(** Signature [b], the integer case: true exactly for a value above 0. *)
Lemma encode_b_integer (garbage : message -> string -> json -> Z)
  (fuel : nat) (m : message) (j : json) (v : Z) :
  Json.int_value j = Some v ->
  convert_json_to_dbus sd_accept garbage (S fuel) m "b" j
  = (appended m [append_basic "b" (Bbool (if 0 <? v then 1 else 0))],
     Done (FellOff 0)).
Proof.
  intros Hv. cbn -[Z.ltb Json.int_value]. rewrite Hv. reflexivity.
Qed.

(** Signature [b], the string case: true exactly for a leading [t] or [T]. *)
Lemma encode_b_string (garbage : message -> string -> json -> Z)
  (fuel : nat) (m : message) (s : string) :
  convert_json_to_dbus sd_accept garbage (S fuel) m "b" (Jstring s)
  = (appended m
       [append_basic "b" (Bbool (if Str.istarts_with_t s then 1 else 0))],
     Done (FellOff 0)).
Proof. reflexivity. Qed.

(** Signature [b]: null, floating-point numbers, arrays and objects are
    rejected with [-1] and nothing is appended. *)
Lemma encode_b_rejects_other_shapes (garbage : message -> string -> json -> Z)
  (fuel : nat) (m : message) (j : json) :
  Json.int_value j = None -> Json.bool_ptr j = None ->
  Json.string_value j = None ->
  convert_json_to_dbus sd_accept garbage (S fuel) m "b" j = (m, Done (Returned (-1))).
Proof.
  intros Hi Hb Hs. cbn -[Json.int_value Json.bool_ptr Json.string_value].
  rewrite Hi, Hb, Hs. reflexivity.
Qed.

(** C6.  A JSON bool encoded against signature [b] is appended as the bus
    boolean 1 whatever its value: JSON [false] goes out as bus true.  The
    branch tests the pointer [b] where the value behind it was meant. *)
Theorem encode_b_json_bool_is_always_true :
  forall (garbage : message -> string -> json -> Z)
         (fuel : nat) (m : message) (b : bool),
    convert_json_to_dbus sd_accept garbage (S fuel) m "b" (Jboolean b)
    = (appended m [append_basic "b" (Bbool 1)], Done (FellOff 0)).
Proof. intros garbage fuel m b. reflexivity. Qed.

(** The array case: the element the second increment steps over never
    reaches the codec. *)
Lemma array_loop_skips (garbage : message -> string -> json -> Z)
  (rec : message -> string -> json -> message * ending)
  (contained_type : string) (x y y' : json) (rest : list json)
  (m : message) (r : Z) :
  array_loop garbage rec contained_type (x :: y :: rest) m r
  = array_loop garbage rec contained_type (x :: y' :: rest) m r.
Proof. reflexivity. Qed.

(** One round of the array loop that goes on: the caller has read a value
    that is not negative. *)
Lemma array_loop_pairs (garbage : message -> string -> json -> Z)
  (rec : message -> string -> json -> message * ending)
  (contained_type : string) (x y : json) (rest : list json)
  (m m1 : message) (r r1 : Z) (e : exit Z) :
  rec m contained_type x = (m1, Done e) ->
  received garbage m1 contained_type x e = r1 -> 0 <= r1 ->
  array_loop garbage rec contained_type (x :: y :: rest) m r
  = array_loop garbage rec contained_type rest m1 r1.
Proof.
  intros Hrec He Hr. simpl. unfold call_checked. rewrite Hrec, He.
  destruct (Z.ltb_spec r1 0); [lia | reflexivity].
Qed.

(** One round of the array loop that leaves: the caller has read a
    negative value and returns it, with the container still open. *)
Lemma array_loop_leaves (garbage : message -> string -> json -> Z)
  (rec : message -> string -> json -> message * ending)
  (contained_type : string) (x : json) (rest : list json)
  (m m1 : message) (r r1 : Z) (e : exit Z) :
  rec m contained_type x = (m1, Done e) ->
  received garbage m1 contained_type x e = r1 -> r1 < 0 ->
  array_loop garbage rec contained_type (x :: rest) m r
  = Leave m1 (Done (Returned r1)).
Proof.
  intros Hrec He Hr. simpl. unfold call_checked. rewrite Hrec, He.
  destruct (Z.ltb_spec r1 0); [reflexivity | lia].
Qed.

(** The array case for the signature [ai], spelt out. *)
Lemma convert_array_of_int (sd_bus : message -> bus_op -> Z)
  (garbage : message -> string -> json -> Z)
  (fuel : nat) (m : message) (j : json) :
  convert_json_to_dbus sd_bus garbage (S fuel) m "ai" j
  = match
      match sd_checked sd_bus m (open_container SD_BUS_TYPE_ARRAY "i") with
      | Leave m res => Leave m res
      | Next m r =>
          match array_loop garbage (convert_json_to_dbus sd_bus garbage fuel)
                  "i" (Json.range j) m r with
          | Leave m res => Leave m res
          | Next m r => Next (fst (sd sd_bus m close_container)) r
          end
      end
    with
    | Leave m res => (m, res)
    | Next m r =>
        if r <? 0 then (m, Done (Returned r)) else (m, Done (FellOff r))
    end.
Proof. reflexivity. Qed.

(** C5.  Against [ai] the element loop moves its iterator twice per
    round, so the element at position 1 of the JSON array never reaches
    the codec: the call comes to the same whatever stands there, for every
    builder and whatever the calls for the elements leave for the loop to
    read.  On [[1, 2]], with a builder that accepts, the [1] is appended
    and then the loop reads [v], which no [return] statement has set:
    when [v] is negative the call returns [v] with the container left
    open, otherwise the container is closed; the [2] is encoded in neither
    case.  On [[1]] the loop returns [v] when it is negative, and
    otherwise goes on reading past the end of the array. *)
Theorem encode_array_skips_every_second_element :
  forall (sd_bus : message -> bus_op -> Z)
         (garbage : message -> string -> json -> Z)
         (fuel : nat) (m : message),
    (forall (x y y' : json) (rest : list json),
        convert_json_to_dbus sd_bus garbage (S fuel) m "ai"
          (Jarray (x :: y :: rest))
        = convert_json_to_dbus sd_bus garbage (S fuel) m "ai"
            (Jarray (x :: y' :: rest)))
    /\ (let m1 := appended m [open_container SD_BUS_TYPE_ARRAY "i";
                              append_basic "i" (Bint32 1)] in
        let v := garbage m1 "i" (Jnumber_unsigned 1) in
        convert_json_to_dbus sd_accept garbage (S (S fuel)) m "ai"
          (Jarray [Jnumber_unsigned 1; Jnumber_unsigned 2])
        = (if v <? 0 then (m1, Done (Returned v))
           else (appended m1 [close_container], Done (FellOff v)))
        /\ convert_json_to_dbus sd_accept garbage (S (S fuel)) m "ai"
             (Jarray [Jnumber_unsigned 1])
           = (if v <? 0 then (m1, Done (Returned v)) else (m1, Fault))).
Proof.
  intros sd_bus garbage fuel m. split.
  - intros x y y' rest. reflexivity.
  - cbv zeta.
    set (m0 := appended m [open_container SD_BUS_TYPE_ARRAY "i"]).
    assert (Hm : appended m0 [append_basic "i" (Bint32 1)]
                 = appended m [open_container SD_BUS_TYPE_ARRAY "i";
                               append_basic "i" (Bint32 1)]).
    { unfold m0, appended; cbn. rewrite <- app_assoc. reflexivity. }
    rewrite <- Hm.
    assert (Hrec : convert_json_to_dbus sd_accept garbage (S fuel) m0 "i"
                     (Jnumber_unsigned 1)
                   = (appended m0 [append_basic "i" (Bint32 1)],
                      Done (FellOff 0))) by reflexivity.
    set (m1 := appended m0 [append_basic "i" (Bint32 1)]) in *.
    set (v := garbage m1 "i" (Jnumber_unsigned 1)).
    split; rewrite convert_array_of_int; unfold sd_checked;
      rewrite sd_accept_appends; cbn [Z.ltb Z.compare Json.range]; fold m0.
    + destruct (Z.ltb_spec v 0) as [Hv | Hv].
      * rewrite (array_loop_leaves garbage _ "i" _ _ m0 m1 0 v (FellOff 0)
                   Hrec eq_refl Hv).
        reflexivity.
      * rewrite (array_loop_pairs garbage _ "i" _ _ [] m0 m1 0 v (FellOff 0)
                   Hrec eq_refl Hv).
        cbn [array_loop]. rewrite sd_accept_appends. cbn [fst].
        destruct (Z.ltb_spec v 0); [lia | reflexivity].
    + destruct (Z.ltb_spec v 0) as [Hv | Hv].
      * rewrite (array_loop_leaves garbage _ "i" _ _ m0 m1 0 v (FellOff 0)
                   Hrec eq_refl Hv).
        reflexivity.
      * cbn [array_loop]. unfold call_checked. rewrite Hrec.
        cbn [received]. fold v.
        destruct (Z.ltb_spec v 0); [lia | reflexivity].
Qed.

(** ** The URL dispatcher *)

Lemma substring_cut (s : string) :
  forall n m k : nat,
    (String.length s <= k)%nat ->
    String.append (substring n m s) (substring (n + m) k s) = substring n k s.
Proof.
  induction s as [|c s IH]; intros n m k Hk.
  - destruct n, m, k; reflexivity.
  - simpl in Hk. destruct n as [|n].
    + destruct m as [|m]; [reflexivity |].
      destruct k as [|k]; [lia |].
      change (String.append (String c (substring 0 m s))
                            (substring (0 + m) (S k) s)
              = String c (substring 0 k s)).
      simpl String.append. f_equal.
      rewrite IH by lia.
      rewrite !substring_whole by lia. reflexivity.
    + simpl. apply IH. lia.
Qed.

(** A string is what lies before position [n], the [m] characters from
    [n], and what lies after them. *)
Lemma substring_three_parts (s : string) (n m : nat) :
  s = String.append (substring 0 n s)
        (String.append (substring n m s)
                       (substring (n + m) (String.length s) s)).
Proof.
  rewrite substring_cut by lia.
  pose proof (substring_cut s 0 n (String.length s) (le_n _)) as H.
  change (0 + n)%nat with n in H. rewrite H.
  symmetry; apply substring_whole; lia.
Qed.

(** C8, as the code has it.  When a path contains [/attr/] (or, on a POST,
    [/action/]), the dispatcher splits it at the first occurrence [n] of
    the separator, also when the separator occurs again later: the object
    path is [/xyz/] followed by everything before position [n], the
    property or method name is everything after the separator found
    there, and the separator occurs nowhere before [n].  A PUT hands the
    two to [handle_put] and a POST to [handle_action].  A GET hands them
    to [handle_get], unless the object path so made ends in [/enumerate]
    or [/list]: then the request goes to [handle_enumerate] or
    [handle_list] for the object path without that suffix, and the
    property name is not used. *)
Theorem xyz_dispatch_splits_at_first_separator :
  forall path : string,
    (forall n : nat,
        index 0 attr_seperator path = Some n ->
        let before := substring 0 n path in
        let after := substring (n + 6) (String.length path) path in
        path = String.append before (String.append "/attr/" after)
        /\ (forall p : nat, (p < n)%nat -> substring p 6 path <> "/attr/")
        /\ xyz_dispatch PUT path
           = to_handle_put (String.append "/xyz/" before) after
        /\ xyz_dispatch GET path
           = (if Str.ends_with (String.append "/xyz/" before) "/enumerate"
              then to_handle_enumerate
                     (Str.drop_back 10 (String.append "/xyz/" before))
              else if Str.ends_with (String.append "/xyz/" before) "/list"
              then to_handle_list
                     (Str.drop_back 5 (String.append "/xyz/" before))
              else to_handle_get (String.append "/xyz/" before) after))
    /\ (forall n : nat,
           index 0 action_seperator path = Some n ->
           let before := substring 0 n path in
           let after := substring (n + 8) (String.length path) path in
           path = String.append before (String.append "/action/" after)
           /\ (forall p : nat, (p < n)%nat -> substring p 8 path <> "/action/")
           /\ xyz_dispatch POST path
              = to_handle_action (String.append "/xyz/" before) after).
Proof.
  intros path; split; intros n Hn before after.
  - pose proof (index_correct1 _ _ _ _ Hn) as Hat.
    pose proof (index_correct2 _ _ _ _ Hn) as Hfirst.
    change (String.length attr_seperator) with 6%nat in Hat, Hfirst.
    change attr_seperator with "/attr/" in Hat, Hfirst.
    repeat split.
    + subst before after. rewrite <- Hat at 1. apply substring_three_parts.
    + intros p Hp. apply Hfirst; lia.
    + unfold xyz_dispatch. rewrite Hn. reflexivity.
    + unfold xyz_dispatch. rewrite Hn.
      change (String.length attr_seperator) with 6%nat.
      fold before. fold after. reflexivity.
  - pose proof (index_correct1 _ _ _ _ Hn) as Hat.
    pose proof (index_correct2 _ _ _ _ Hn) as Hfirst.
    change (String.length action_seperator) with 8%nat in Hat, Hfirst.
    change action_seperator with "/action/" in Hat, Hfirst.
    repeat split.
    + subst before after. rewrite <- Hat at 1. apply substring_three_parts.
    + intros p Hp. apply Hfirst; lia.
    + unfold xyz_dispatch. rewrite Hn.
      destruct (index 0 attr_seperator path); reflexivity.
Qed.

(** The split at the first separator, on paths that hold it twice: a PUT,
    a POST, a GET of a property, and a GET whose object path ends in
    [/enumerate]. *)
Lemma xyz_dispatch_splits_at_first_separator_witness :
  xyz_dispatch PUT "a/attr/b/attr/c" = to_handle_put "/xyz/a" "b/attr/c"
  /\ xyz_dispatch POST "a/action/b/action/c"
     = to_handle_action "/xyz/a" "b/action/c"
  /\ xyz_dispatch GET "a/attr/b/attr/c" = to_handle_get "/xyz/a" "b/attr/c"
  /\ xyz_dispatch GET "a/enumerate/attr/b/attr/c"
     = to_handle_enumerate "/xyz/a".
Proof.
  split; [| split; [| split]].
  - exact (proj1 (proj2 (proj2
      (proj1 (xyz_dispatch_splits_at_first_separator "a/attr/b/attr/c")
             1%nat eq_refl)))).
  - exact (proj2 (proj2
      (proj2 (xyz_dispatch_splits_at_first_separator "a/action/b/action/c")
             1%nat eq_refl))).
  - exact (proj2 (proj2 (proj2
      (proj1 (xyz_dispatch_splits_at_first_separator "a/attr/b/attr/c")
             1%nat eq_refl)))).
  - exact (proj2 (proj2 (proj2
      (proj1 (xyz_dispatch_splits_at_first_separator
                "a/enumerate/attr/b/attr/c")
             11%nat eq_refl)))).
Defined.

(** C8, as the specification words it, fails: in [a/attr/b/attr/c] the last
    separator stands between [a/attr/b] and [c], yet the dispatcher hands
    [/xyz/a] and [b/attr/c] to the PUT handler; the same on a POST with
    [/action/]. *)
Lemma xyz_dispatch_last_separator_counterexample :
  "a/attr/b/attr/c" = String.append "a/attr/b" (String.append "/attr/" "c")
  /\ index 0 "/attr/" "c" = None
  /\ xyz_dispatch PUT "a/attr/b/attr/c" = to_handle_put "/xyz/a" "b/attr/c"
  /\ xyz_dispatch PUT "a/attr/b/attr/c" <> to_handle_put "/xyz/a/attr/b" "c"
  /\ xyz_dispatch GET "a/attr/b/attr/c" <> to_handle_get "/xyz/a/attr/b" "c"
  /\ xyz_dispatch POST "a/action/b/action/c"
     = to_handle_action "/xyz/a" "b/action/c"
  /\ xyz_dispatch POST "a/action/b/action/c"
     <> to_handle_action "/xyz/a/action/b" "c".
Proof.
  repeat split; try reflexivity; vm_compute; discriminate.
Qed.

(** ** [handle_enumerate] and the mapper's answer *)

Lemma flat_set_insert_nonempty (x : string) (s : list string) :
  flat_set_insert x s <> [].
Proof.
  destruct s as [|y s]; simpl; [congruence |].
  destruct (String.compare x y); congruence.
Qed.

Lemma insert_connections_nil (connections : list (string * list string)) :
  forall acc : list string,
    fold_left (fun acc connection => flat_set_insert (fst connection) acc)
              connections acc = []
    <-> acc = [] /\ connections = [].
Proof.
  induction connections as [|c cs IH]; intros acc; simpl.
  - split; [intros ->; split; reflexivity | intros [-> _]; reflexivity].
  - rewrite IH. split.
    + intros [H _]. now apply flat_set_insert_nonempty in H.
    + intros [_ H]. discriminate.
Qed.

(** No connection is collected exactly when no path of the reply has an
    owner. *)
Lemma subtree_connections_nil (object_names : GetSubTreeType) :
  subtree_connections object_names = []
  <-> Forall (fun object => snd object = []) object_names.
Proof.
  unfold subtree_connections.
  assert (H : forall acc,
    fold_left
      (fun connections object =>
         fold_left (fun connections connection =>
                      flat_set_insert (fst connection) connections)
                   (snd object) connections)
      object_names acc = []
    <-> acc = [] /\ Forall (fun object => snd object = []) object_names).
  { induction object_names as [|o os IH]; intros acc; simpl.
    - split; [intros ->; split; [reflexivity | constructor]
             | intros [-> _]; reflexivity].
    - rewrite IH, insert_connections_nil. split.
      + intros [[-> Ho] Hos]. split; [reflexivity | constructor; assumption].
      + intros [-> Hall]. inversion Hall; subst. repeat split; assumption. }
  rewrite H. split; [intros [_ ?]; assumption | intros ?; split; [reflexivity | assumption]].
Qed.

(** C10.  When the [GetSubTree] call of [handle_enumerate] comes back with
    an error code, the handler answers at once: status 200, the success
    envelope with an empty [data] object, the response ended once, and no
    further bus call issued.  Neither 500 nor 404 is set. *)
Theorem handle_enumerate_bus_error_answers_200 :
  forall (sd_bus : message -> bus_op -> Z)
         (garbage : message -> string -> json -> Z) (fuel : nat)
         (object_path message : string) (object_names : GetSubTreeType),
    run sd_bus garbage fuel [(0%nat, subtree_reply (Some message) object_names)]
        (handle_enumerate object_path fresh)
    = Completed
        (World (Response ok
                  (Json.object [("message", Jstring "200 OK");
                                ("status", Jstring "ok");
                                ("data", Jobject [])])
                  1)
               None []).
Proof. intros. reflexivity. Qed.

(** C9, as the code has it.  When the [GetSubTree] call succeeds and no
    path of its reply has an owner, [handle_enumerate] answers 404 Not Found: the
    response is ended once, its body is left untouched, and no
    [GetManagedObjects] call is issued. *)
Theorem handle_enumerate_no_owner_answers_404 :
  forall (sd_bus : message -> bus_op -> Z)
         (garbage : message -> string -> json -> Z) (fuel : nat)
         (object_path : string) (object_names : GetSubTreeType),
    Forall (fun object => snd object = []) object_names ->
    run sd_bus garbage fuel [(0%nat, subtree_reply None object_names)]
        (handle_enumerate object_path fresh)
    = Completed (World (Response not_found Jnull 1) None []).
Proof.
  intros sd_bus garbage fuel object_path object_names Hnone.
  apply subtree_connections_nil in Hnone.
  unfold run, fire, handle_enumerate, spawn, fresh. simpl.
  unfold handle_enumerate_callback. simpl failed. cbv iota.
  rewrite Hnone. reflexivity.
Qed.

(** An empty subtree, and a subtree whose only path has no owner. *)
Lemma handle_enumerate_no_owner_answers_404_witness :
  run sd_accept (hands_back 0) 0 [(0%nat, subtree_reply None [])]
      (handle_enumerate "/xyz/openbmc_project/nonexistent" fresh)
  = Completed (World (Response not_found Jnull 1) None [])
  /\ run sd_accept (hands_back 0) 0
       [(0%nat, subtree_reply None [("/xyz/openbmc_project/nonexistent", [])])]
       (handle_enumerate "/xyz/openbmc_project/nonexistent" fresh)
     = Completed (World (Response not_found Jnull 1) None []).
Proof.
  split.
  - apply (handle_enumerate_no_owner_answers_404 sd_accept (hands_back 0) 0
             "/xyz/openbmc_project/nonexistent" []).
    constructor.
  - apply (handle_enumerate_no_owner_answers_404 sd_accept (hands_back 0) 0
             "/xyz/openbmc_project/nonexistent"
             [("/xyz/openbmc_project/nonexistent", [])]).
    constructor; [reflexivity | constructor].
Defined.

(** C9, as the specification words it, fails: for
    [GET /xyz/openbmc_project/nonexistent/enumerate] with an empty subtree
    from the mapper the response carries status 404 and no body, not
    status 200 with the success envelope. *)
Lemma handle_enumerate_empty_subtree_counterexample :
  xyz_dispatch GET "openbmc_project/nonexistent/enumerate"
  = to_handle_enumerate "/xyz/openbmc_project/nonexistent"
  /\ run sd_accept (hands_back 0) 0 [(0%nat, subtree_reply None [])]
       (xyz_route (Request GET None) "openbmc_project/nonexistent/enumerate"
                  fresh)
     = Completed (World (Response not_found Jnull 1) None [])
  /\ run sd_accept (hands_back 0) 0 [(0%nat, subtree_reply None [])]
       (xyz_route (Request GET None) "openbmc_project/nonexistent/enumerate"
                  fresh)
     <> Completed
          (World (Response ok
                    (Json.object [("message", Jstring "200 OK");
                                  ("status", Jstring "ok");
                                  ("data", Jobject [])])
                    1)
                 None []).
Proof.
  split; [reflexivity |]. split; [reflexivity |].
  vm_compute. discriminate.
Qed.

(** ** [handle_action] and the argument count *)

(** A method without [<arg>] children is sent as it is: the JSON array is
    not looked at. *)
Lemma encode_arguments_without_arg (sd_bus : message -> bus_op -> Z)
  (garbage : message -> string -> json -> Z)
  (fuel : nat) (name : string) (attrs : list (string * string))
  (margs later : list XMLElement) (arguments : json) (m : message) :
  Xml.seek "arg" margs = [] ->
  encode_arguments sd_bus garbage fuel (Element name attrs margs :: later) arguments m
  = Encoded m.
Proof.
  intros Hnone. unfold encode_arguments. simpl Xml.FirstChildElement.
  rewrite Hnone. reflexivity.
Qed.






(** ** [handle_put] and the 403 answer *)

(** C4.  A PUT that parses, resolves an owner and finds no property of the
    requested name in the owner's introspection is answered 200 with the
    success envelope: the constructor of [AsyncPutRequest] has put the
    envelope into the body, so the destructor's test for an empty body
    does not fire.  The 403 answer is what the destructor makes of a
    recorded error instead: it comes when the introspection call fails,
    and when a property of that name exists but the value cannot be
    encoded against its signature. *)
Theorem handle_put_unknown_property_answers_200 :
  forall (sd_bus : message -> bus_op -> Z)
         (garbage : message -> string -> json -> Z) (fuel : nat),
    run sd_bus garbage fuel
      [(0%nat, object_reply None
                 [("xyz.openbmc_project.Network", ["n.Config"])]);
       (0%nat, introspect_reply None
                 (property_document "n.Config" "DHCPEnabled" "b"))]
      (xyz_route (Request PUT (Some (Jobject [("data", Jboolean true)])))
                 "openbmc_project/network/config/attr/HostName" fresh)
    = Completed (World (Response ok (ok_envelope Jnull) 1) None [])
    /\ run sd_bus garbage fuel
         [(0%nat, object_reply None
                    [("xyz.openbmc_project.Network", ["n.Config"])]);
          (0%nat, introspect_reply (Some "timed out") [])]
         (xyz_route (Request PUT (Some (Jobject [("data", Jboolean true)])))
                    "openbmc_project/network/config/attr/DHCPEnabled" fresh)
       = Completed
           (World (Response forbidden (forbidden_body "DHCPEnabled") 1)
                  None [])
    /\ run sd_accept garbage (S fuel)
         [(0%nat, object_reply None
                    [("xyz.openbmc_project.Network", ["n.Config"])]);
          (0%nat, introspect_reply None
                    (property_document "n.Config" "HostName" "s"))]
         (xyz_route (Request PUT (Some (Jobject [("data", Jboolean true)])))
                    "openbmc_project/network/config/attr/HostName" fresh)
       = Completed
           (World (Response forbidden (forbidden_body "HostName") 1)
                  None []).
Proof.
  intros sd_bus garbage fuel. repeat split; reflexivity.
Qed.

(** ** [handle_get] and booleans *)

(** What [get_managed_objects_for_enumerate] stores for a bus boolean. *)
Lemma enumerate_stores_bool_as_integer (b : bool) :
  bool_as_int (json_of_variant (v_bool b))
  = Jnumber_integer (if b then 1 else 0).
Proof. reflexivity. Qed.

(** What [handle_get] stores for it, keyed and as a scalar. *)
Lemma collect_properties_keeps_bool (name : string) (b : bool) :
  collect_properties EmptyString [(name, v_bool b)] (Jobject [])
  = Some (Jobject [(name, Jboolean b)])
  /\ collect_properties (String "P" name) [(String "P" name, v_bool b)]
       (Jobject [])
     = Some (Jboolean b).
Proof.
  split; [reflexivity |].
  cbn -[String.eqb]. rewrite String.eqb_refl. reflexivity.
Qed.

(** C2.  [GET /xyz/openbmc_project/state/host0/attr/Powered] on a bus
    boolean [b] answers with [data] being the JSON bool [b], and a GET of
    the whole object answers with [{"Powered": b}], a JSON bool again:
    [handle_get] has no conversion to 1 or 0.  The enumerate handler has
    one, and answers the integer for the same reply. *)
Theorem handle_get_answers_json_bool :
  forall (sd_bus : message -> bus_op -> Z)
         (garbage : message -> string -> json -> Z) (fuel : nat) (b : bool),
    run sd_bus garbage fuel
      [(0%nat, object_reply None [("xyz.openbmc_project.State.Host", ["s.Host"])]);
       (0%nat, properties_reply None [("Powered", v_bool b)])]
      (xyz_route (Request GET None) "openbmc_project/state/host0/attr/Powered"
                 fresh)
    = Completed (World (Response ok (ok_envelope (Jboolean b)) 1) None [])
    /\ run sd_bus garbage fuel
         [(0%nat, object_reply None
                    [("xyz.openbmc_project.State.Host", ["s.Host"])]);
          (0%nat, properties_reply None [("Powered", v_bool b)])]
         (xyz_route (Request GET None) "openbmc_project/state/host0" fresh)
       = Completed
           (World (Response ok
                     (ok_envelope (Jobject [("Powered", Jboolean b)])) 1)
                  None [])
    /\ run sd_bus garbage fuel
         [(0%nat, subtree_reply None
                    [("/xyz/openbmc_project/state/host0",
                      [("xyz.openbmc_project.State.Host", ["s.Host"])])]);
          (0%nat, managed_objects_reply None
                    [("/xyz/openbmc_project/state/host0",
                      [("s.Host", [("Powered", v_bool b)])])])]
         (xyz_route (Request GET None) "openbmc_project/state/host0/enumerate"
                    fresh)
       = Completed
           (World (Response ok
                     (ok_envelope
                        (Jobject
                           [("/xyz/openbmc_project/state/host0",
                             Jobject [("Powered",
                                       Jnumber_integer (if b then 1 else 0))])]))
                     1)
                  None []).
Proof.
  intros sd_bus garbage fuel b. repeat split; reflexivity.
Qed.

(** ** The fan-out of [handle_enumerate] *)

Lemma members_set_object_valued key v m :
  is_object v = true -> object_valued m ->
  object_valued (Json.members_set key v m).
Proof.
  intros Hv Hm. induction Hm as [|[k x] m Hx Hm IH]; simpl.
  - constructor; [exact Hv | constructor].
  - destruct (String.compare key k).
    + constructor; [exact Hv | exact Hm].
    + constructor; [exact Hv |]. constructor; assumption.
    + constructor; assumption.
Qed.

Lemma members_get_object_valued key m x :
  object_valued m -> Json.members_get key m = Some x -> is_object x = true.
Proof.
  intros Hm. induction Hm as [|[k y] m Hy Hm IH]; simpl; [discriminate |].
  destruct (key =? k)%string; [intros [= <-]; exact Hy | exact IH].
Qed.

Lemma enumerate_properties_object properties :
  forall m, exists m',
    enumerate_properties properties (Jobject m) = Some (Jobject m').
Proof.
  induction properties as [|[name v] rest IH]; intros m; simpl.
  - eexists; reflexivity.
  - apply IH.
Qed.

Lemma enumerate_interfaces_object interfaces :
  forall m, exists m',
    enumerate_interfaces interfaces (Jobject m) = Some (Jobject m').
Proof.
  induction interfaces as [|[name properties] rest IH]; intros m; simpl.
  - eexists; reflexivity.
  - destruct (enumerate_properties_object properties m) as [m' ->]. apply IH.
Qed.

Lemma enumerate_objects_object objects :
  forall m, object_valued m ->
    exists m', enumerate_objects objects (Jobject m) = Some (Jobject m')
               /\ object_valued m'.
Proof.
  induction objects as [|[object_path interfaces] rest IH]; intros m Hm.
  - exists m; split; [reflexivity | exact Hm].
  - simpl.
    assert (Hobj : exists o,
      match Json.members_get object_path m with
      | Some x => if Json.is_null x then Json.object [] else x
      | None => Json.object []
      end = Jobject o).
    { destruct (Json.members_get object_path m) as [x|] eqn:Hget.
      - pose proof (members_get_object_valued _ _ _ Hm Hget) as Hx.
        destruct x; try discriminate. eexists; reflexivity.
      - eexists; reflexivity. }
    destruct Hobj as [o ->].
    destruct (enumerate_interfaces_object interfaces o) as [o' ->].
    apply IH. apply members_set_object_valued; [reflexivity | exact Hm].
Qed.

Lemma forallb_managed_holds l :
  forallb managed_call l = true -> filter holds l = l.
Proof.
  induction l as [|t l IH]; simpl; [reflexivity |].
  intros H; apply andb_prop in H as [Ht Hl].
  destruct t; try discriminate. simpl. now rewrite IH.
Qed.

Lemma forallb_managed_remove i l :
  forallb managed_call l = true ->
  forallb managed_call (firstn i l ++ skipn (S i) l) = true.
Proof.
  revert i; induction l as [|t l IH]; intros i H.
  - destruct i; reflexivity.
  - simpl in H. apply andb_prop in H as [Ht Hl].
    destruct i as [|i]; simpl; [exact Hl |].
    rewrite Ht. apply IH, Hl.
Qed.

Lemma length_remove {A} i (l : list A) :
  (i < List.length l)%nat ->
  List.length (firstn i l ++ skipn (S i) l) = (List.length l - 1)%nat.
Proof.
  intros H. rewrite length_app, length_firstn, length_skipn. lia.
Qed.

Lemma fire_managed sd_bus garbage fuel k w i ec objects :
  enumerate_outstanding (S k) w -> (i < S k)%nat ->
  exists w',
    fire sd_bus garbage fuel i (managed_objects_reply ec objects) w = Completed w'
    /\ match k with
       | O => ended (res w') = 1%nat /\ result (res w') = ok
              /\ pending w' = []
              /\ exists d, json_value (res w') = ok_envelope (Jobject d)
       | S _ => enumerate_outstanding k w'
       end.
Proof.
  intros (Hended & Hresult & (m & Hheap & Hm) & Hlen & Hall) Hi.
  unfold fire.
  destruct (nth_error (pending w) i) as [t|] eqn:Hnth.
  2:{ apply nth_error_None in Hnth. lia. }
  assert (Ht : managed_call t = true).
  { rewrite forallb_forall in Hall. apply Hall.
    eapply nth_error_In; eassumption. }
  destruct t; try discriminate. cbn [callback].
  pose proof (forallb_managed_remove i _ Hall) as Hothers.
  assert (Hlen' : List.length (firstn i (pending w) ++ skipn (S i) (pending w)) = k).
  { rewrite length_remove by lia. lia. }
  revert Hothers Hlen'.
  generalize (firstn i (pending w) ++ skipn (S i) (pending w)).
  intros others Hothers Hlen'.
  unfold get_managed_objects_callback. cbn [heap]. rewrite Hheap.
  assert (Hfill : exists m', object_valued m' /\
     (if failed ec
      then Some (World (res w) (Some (SharedJson (Jobject m))) others)
      else match enumerate_objects objects (Jobject m) with
           | Some data_json =>
               Some (with_heap (Some (SharedJson data_json))
                       (World (res w) (Some (SharedJson (Jobject m))) others))
           | None => None
           end)
     = Some (World (res w) (Some (SharedJson (Jobject m'))) others)).
  { destruct (failed ec).
    - exists m; split; [exact Hm | reflexivity].
    - destruct (enumerate_objects_object objects m Hm) as (m' & -> & Hm').
      exists m'; split; [exact Hm' | reflexivity]. }
  destruct Hfill as (m' & Hm' & ->).
  unfold use_count. cbn [pending].
  rewrite (forallb_managed_holds _ Hothers), Hlen'.
  destruct k as [|k].
  - destruct others; [| discriminate].
    eexists; split; [reflexivity |]. cbn. rewrite Hresult, Hended.
    repeat split. eexists; reflexivity.
  - change (S (S k) =? 1)%nat with false. cbv iota.
    destruct others as [|t others']; [discriminate |].
    cbn in Hothers. apply andb_prop in Hothers as [Ht' Hothers'].
    destruct t; try discriminate.
    eexists; split; [reflexivity |].
    repeat split; cbn; try assumption.
    exists m'; split; [reflexivity | exact Hm'].
Qed.

Lemma run_managed sd_bus garbage fuel answers :
  forall k w,
    enumerate_outstanding k w -> managed_answers k answers ->
    exists w',
      run sd_bus garbage fuel answers w = Completed w'
      /\ (if (List.length answers =? k)%nat
          then (k = 0%nat \/
                (ended (res w') = 1%nat /\ result (res w') = ok
                 /\ pending w' = []))
          else ended (res w') = 0%nat).
Proof.
  induction answers as [|[i r] rest IH]; intros k w Hw Hans.
  - exists w; split; [reflexivity |]. simpl.
    destruct k; simpl; [left; reflexivity | apply Hw].
  - destruct Hans as (Hi & Hr & Hrest).
    destruct r; try discriminate.
    destruct k as [|k]; [lia |].
    destruct (fire_managed sd_bus garbage fuel k w i ec objects Hw Hi) as (w1 & Hfire & Hk).
    simpl run. rewrite Hfire.
    replace (S k - 1)%nat with k in Hrest by lia.
    destruct k as [|k].
    + destruct Hk as (He & Hres & Hp & _).
      destruct rest as [|[j r'] rest'].
      * exists w1; split; [reflexivity |]. simpl. right. auto.
      * destruct Hrest as (Hj & _). lia.
    + destruct (IH (S k) w1 Hk Hrest) as (w' & Hrun & Hend).
      exists w'; split; [exact Hrun |].
      change (List.length ((i, managed_objects_reply ec objects) :: rest))
        with (S (List.length rest)).
      change (S (List.length rest) =? S (S k))%nat
        with (List.length rest =? S k)%nat.
      destruct (List.length rest =? S k)%nat; [| exact Hend].
      destruct Hend as [Hz | Hend]; [discriminate | right; exact Hend].
Qed.

Lemma spawn_managed_calls (object_path : string) (connections : list string) :
  forall w : world,
    fold_left
      (fun w connection =>
         get_managed_objects_for_enumerate object_path connection w)
      connections w
    = World (res w) (heap w)
            (pending w
             ++ map (get_managed_objects_call object_path) connections).
Proof.
  induction connections as [|c cs IH]; intros w; simpl.
  - rewrite app_nil_r. destruct w; reflexivity.
  - rewrite IH. unfold get_managed_objects_for_enumerate, spawn. simpl.
    now rewrite <- app_assoc.
Qed.

(** X22.  Where [handle_enumerate] does fan out, the count works: with the
    mapper naming [k >= 1] connections, the response is not ended while
    fewer than [k] of the [GetManagedObjects] calls have come back, in
    whatever order and with or without errors, and it is ended once, with
    status 200, by the callback that runs last; nothing is pending after
    it. *)
Lemma handle_enumerate_fan_out_ends_once
  (sd_bus : message -> bus_op -> Z)
  (garbage : message -> string -> json -> Z) (fuel : nat) (object_path : string)
  (object_names : GetSubTreeType) (answers : list (nat * reply)) :
  subtree_connections object_names <> [] ->
  managed_answers (List.length (subtree_connections object_names)) answers ->
  exists w' : world,
    run sd_bus garbage fuel ((0%nat, subtree_reply None object_names) :: answers)
        (handle_enumerate object_path fresh)
    = Completed w'
    /\ (if (List.length answers
            =? List.length (subtree_connections object_names))%nat
        then ended (res w') = 1%nat /\ result (res w') = ok
             /\ pending w' = []
        else ended (res w') = 0%nat).
Proof.
  intros Hne Hans.
  set (connections := subtree_connections object_names) in *.
  assert (Hfirst :
    fire sd_bus garbage fuel 0 (subtree_reply None object_names)
         (handle_enumerate object_path fresh)
    = Completed
        (World (Response ok Jnull 0) (Some (SharedJson (Jobject [])))
               (map (get_managed_objects_call object_path) connections))).
  { unfold fire, handle_enumerate, spawn, fresh. cbn [pending app nth_error].
    cbn [callback firstn skipn app res heap].
    unfold handle_enumerate_callback. cbn [failed].
    fold connections.
    destruct connections as [|c cs] eqn:Hc; [congruence |].
    cbn [List.length Nat.leb]. rewrite spawn_managed_calls.
    cbn [res heap pending with_heap app map].
    unfold release. reflexivity. }
  assert (Hinv : enumerate_outstanding (List.length connections)
    (World (Response ok Jnull 0) (Some (SharedJson (Jobject [])))
           (map (get_managed_objects_call object_path) connections))).
  { repeat split; cbn.
    - exists []; split; [reflexivity | constructor].
    - apply length_map.
    - clear. induction connections; [reflexivity | assumption]. }
  destruct (run_managed sd_bus garbage fuel answers _ _ Hinv Hans) as (w' & Hrun & Hend).
  exists w'. split.
  - cbn [run]. rewrite Hfirst. exact Hrun.
  - destruct (List.length answers =? List.length connections)%nat;
      [| exact Hend].
    destruct Hend as [Hz | Hend]; [| exact Hend].
    destruct connections; [congruence | discriminate].
Qed.

(** Two connections, answered in the reverse order, one of them with an
    error. *)
Example handle_enumerate_two_connections :
  run sd_accept (hands_back 0) 0
    [(0%nat, subtree_reply None
               [("/xyz/a", [("org.b", ["b.I"]); ("org.a", ["a.I"])])]);
     (1%nat, managed_objects_reply None
               [("/xyz/a", [("b.I", [("Level", v_uint8 3)])])]);
     (0%nat, managed_objects_reply (Some "no such object") [])]
    (handle_enumerate "/xyz/a" fresh)
  = Completed
      (World (Response ok
                (ok_envelope
                   (Jobject [("/xyz/a",
                              Jobject [("Level", Jnumber_unsigned 3)])]))
                1)
             None []).
Proof. reflexivity. Qed.

(** ** One response per request *)

(** C1.  The introspection walk of [/bus/system/<connection>/] hands a
    null [shared_ptr] to [introspect_objects], whose [use_count()] is 0
    and never 1: when the [Introspect] call fails the callback returns
    without ending the response and nothing is left pending, so the
    request gets no response at all; when the call succeeds the callback
    dereferences the null pointer.  [handle_get] ends the response twice
    when the mapper names an owner without interfaces after one with
    interfaces: once with 404 in the loop, and once more when the call
    already issued completes. *)
Theorem fan_out_handlers_miss_the_single_response :
  forall (sd_bus : message -> bus_op -> Z)
         (garbage : message -> string -> json -> Z) (fuel : nat),
    (forall (connection message : string) (introspect_xml : XMLDocument),
        run sd_bus garbage fuel [(0%nat, introspect_reply (Some message) introspect_xml)]
            (bus_system_route connection fresh)
        = Completed (World (Response ok Jnull 0) None []))
    /\ (forall (connection : string) (introspect_xml : XMLDocument),
           run sd_bus garbage fuel [(0%nat, introspect_reply None introspect_xml)]
               (bus_system_route connection fresh)
           = Aborted)
    /\ run sd_bus garbage fuel
         [(0%nat, object_reply None [("org.a", ["a.I"]); ("org.b", [])])]
         (xyz_route (Request GET None) "openbmc_project/x" fresh)
       = Completed
           (World (Response not_found Jnull 1)
                  (Some (SharedJson (Jobject [])))
                  [get_all_call "org.a" "/xyz/openbmc_project/x" "a.I"
                                EmptyString])
    /\ run sd_bus garbage fuel
         [(0%nat, object_reply None [("org.a", ["a.I"]); ("org.b", [])]);
          (0%nat, properties_reply None [])]
         (xyz_route (Request GET None) "openbmc_project/x" fresh)
       = Completed
           (World (Response not_found (ok_envelope (Jobject [])) 2) None []).
Proof.
  intros sd_bus garbage fuel. repeat split; reflexivity.
Qed.

(** * Further properties of the code *)

(** ** The signature splitter, continued *)

Lemma back_append_last (ret : list string) (x : string) (c : ascii) :
  back_append (ret ++ [x]) c = ret ++ [String.append x (Str.of_char c)].
Proof.
  induction ret as [|y ret IH]; [reflexivity |].
  destruct ret as [|z ret].
  - reflexivity.
  - change (back_append ((y :: z :: ret) ++ [x]) c)
      with (y :: back_append ((z :: ret) ++ [x]) c).
    rewrite IH. reflexivity.
Qed.

Lemma back_append_all_nonempty (ret : list string) (c : ascii) :
  ret <> [] ->
  Forall (fun code => code <> EmptyString) (removelast ret) ->
  Forall (fun code => code <> EmptyString) (back_append ret c).
Proof.
  intros Hne Hall.
  destruct (exists_last Hne) as (front & x & ->).
  rewrite removelast_last in Hall. rewrite back_append_last.
  apply Forall_app; split; [exact Hall |].
  constructor; [| constructor].
  destruct x; discriminate.
Qed.

Lemma split_state_keep (rest : string) (ret : list string) :
  ret <> [] -> Forall (fun code => code <> EmptyString) ret ->
  split_state rest ret.
Proof.
  intros Hne Hall. unfold split_state. destruct (Str.empty rest); [exact Hall |].
  split; [exact Hne |].
  destruct (exists_last Hne) as (front & x & ->).
  rewrite removelast_last. apply Forall_app in Hall. tauto.
Qed.

Lemma split_state_push (rest : string) (ret : list string) :
  ret <> [] -> Forall (fun code => code <> EmptyString) ret ->
  split_state rest (push_if_more rest ret).
Proof.
  intros Hne Hall. unfold split_state, push_if_more.
  destruct (Str.empty rest); [exact Hall |].
  split; [destruct ret; discriminate |].
  rewrite removelast_last. exact Hall.
Qed.

Lemma dbus_arg_split_loop_nonempty_codes (chars : string) :
  forall (ret : list string) (container_depth : Z),
    split_state chars ret ->
    Forall (fun code => code <> EmptyString)
           (dbus_arg_split_loop chars ret container_depth).
Proof.
  induction chars as [|c rest IH]; intros ret d Hst.
  - exact Hst.
  - destruct Hst as [Hne Hall].
    pose proof (back_append_nonempty ret c Hne) as Hb.
    pose proof (back_append_all_nonempty ret c Hne Hall) as Ha.
    simpl.
    repeat match goal with
           | |- context [if ?b then _ else _] => destruct b
           end;
      apply IH;
      first [apply split_state_push; assumption
            | apply split_state_keep; assumption].
Qed.

(** X1.  No code the splitter builds is empty: a new element is only
    opened when a character follows to go into it. *)
Theorem dbus_arg_split_codes_are_not_empty :
  forall (c : ascii) (s : string),
    Forall (fun code => code <> EmptyString)
           (result_of (dbus_arg_split (String c s))).
Proof.
  intros c s. unfold dbus_arg_split. simpl Str.empty. cbv iota.
  apply dbus_arg_split_loop_nonempty_codes.
  split; [discriminate | constructor].
Qed.

Lemma dbus_arg_split_loop_plain (chars : string) :
  forall ret : list string,
    all_chars plain_code chars = true ->
    Str.empty chars = false ->
    dbus_arg_split_loop chars (ret ++ [EmptyString]) 0
    = ret ++ map Str.of_char (list_ascii_of_string chars).
Proof.
  induction chars as [|c rest IH]; intros ret Hall Hne; [discriminate |].
  simpl in Hall. apply andb_prop in Hall as [Hc Hrest].
  unfold plain_code in Hc. apply negb_true_iff in Hc.
  repeat (apply orb_false_iff in Hc; destruct Hc as [Hc ?]).
  cbn [dbus_arg_split_loop]. rewrite back_append_last.
  repeat match goal with H : Ascii.eqb _ _ = false |- _ => rewrite H; clear H end.
  cbn [orb Z.eqb]. cbv iota.
  unfold push_if_more. destruct rest as [|c' rest'].
  - reflexivity.
  - cbn [Str.empty]. cbv iota.
    rewrite IH by (assumption || reflexivity).
    cbn [list_ascii_of_string map String.append]. rewrite <- app_assoc. reflexivity.
Qed.

(** Outside a container every plain code is a code of its own. *)
Lemma dbus_arg_split_plain_signature :
  forall s : string,
    all_chars plain_code s = true ->
    result_of (dbus_arg_split s) = map Str.of_char (list_ascii_of_string s).
Proof.
  intros [|c s] Hall; [reflexivity |].
  unfold dbus_arg_split. cbn [Str.empty]. cbv iota. cbn [result_of].
  apply (dbus_arg_split_loop_plain (String c s) [] Hall). reflexivity.
Qed.

(** Inside a container, plain codes are only collected. *)
Lemma dbus_arg_split_loop_inside (inner : string) :
  forall (ret : list string) (x : string),
    all_chars plain_code inner = true ->
    dbus_arg_split_loop (String.append inner ")") (ret ++ [x]) 1
    = ret ++ [String.append x (String.append inner ")")].
Proof.
  induction inner as [|c rest IH]; intros ret x Hall.
  - cbn. rewrite back_append_last. reflexivity.
  - cbn [all_chars] in Hall. apply andb_prop in Hall as [Hc Hrest].
    unfold plain_code in Hc. apply negb_true_iff in Hc.
    repeat (apply orb_false_iff in Hc; destruct Hc as [Hc ?]).
    cbn [String.append dbus_arg_split_loop]. rewrite back_append_last.
    repeat match goal with H : Ascii.eqb _ _ = false |- _ => rewrite H; clear H end.
    cbn [orb Z.eqb]. cbv iota.
    rewrite IH by assumption.
    rewrite append_assoc. reflexivity.
Qed.

(** A struct of plain codes is one top-level code. *)
Lemma dbus_arg_split_plain_struct (inner : string) :
  all_chars plain_code inner = true ->
  dbus_arg_split (String "(" (String.append inner ")"))
  = FellOff [String "(" (String.append inner ")")].
Proof.
  intros Hall. unfold dbus_arg_split. cbn [Str.empty]. cbv iota.
  change (dbus_arg_split_loop (String "(" (String.append inner ")"))
            [EmptyString] 0)
    with (dbus_arg_split_loop (String.append inner ")") ([] ++ ["("]) 1).
  rewrite (dbus_arg_split_loop_inside inner [] "(" Hall). reflexivity.
Qed.

(** X2.  A signature of codes that are neither [a] nor a bracket is split
    into one code per character, and the same codes between [(] and [)]
    stay together as one code. *)
Theorem dbus_arg_split_groups :
  forall s : string,
    all_chars plain_code s = true ->
    result_of (dbus_arg_split s) = map Str.of_char (list_ascii_of_string s)
    /\ dbus_arg_split (String "(" (String.append s ")"))
       = FellOff [String "(" (String.append s ")")].
Proof.
  intros s Hs. split.
  - apply dbus_arg_split_plain_signature, Hs.
  - apply dbus_arg_split_plain_struct, Hs.
Qed.

Lemma dbus_arg_split_groups_witness :
  result_of (dbus_arg_split "isu") = ["i"; "s"; "u"]
  /\ dbus_arg_split "(isu)" = FellOff ["(isu)"].
Proof.
  apply (dbus_arg_split_groups "isu"). reflexivity.
Defined.

(** ** The codec, continued *)

Lemma wrap_signed_range (w z : Z) :
  0 < w -> - 2 ^ (w - 1) <= wrap_signed w z < 2 ^ (w - 1).
Proof.
  intros Hw. unfold wrap_signed.
  assert (H2 : 2 ^ w = 2 * 2 ^ (w - 1)).
  { replace w with (Z.succ (w - 1)) at 1 by lia. apply Z.pow_succ_r. lia. }
  assert (Hpos : 0 < 2 ^ (w - 1)) by (apply Z.pow_pos_nonneg; lia).
  pose proof (Z.mod_pos_bound z (2 ^ w) ltac:(lia)) as Hm.
  destruct (Z.ltb_spec (z mod 2 ^ w) (2 ^ (w - 1))); lia.
Qed.

Lemma wrap_signed_congruent (w z : Z) :
  0 < w -> (wrap_signed w z) mod 2 ^ w = z mod 2 ^ w.
Proof.
  intros Hw. unfold wrap_signed.
  assert (Hpos : 0 < 2 ^ w) by (apply Z.pow_pos_nonneg; lia).
  destruct (Z.ltb_spec (z mod 2 ^ w) (2 ^ (w - 1))).
  - apply Z.mod_mod. lia.
  - replace (z mod 2 ^ w - 2 ^ w) with (z mod 2 ^ w + (-1) * 2 ^ w) by lia.
    rewrite Z.mod_add by lia. apply Z.mod_mod. lia.
Qed.

Lemma wrap_signed_in_range (w z : Z) :
  0 < w -> - 2 ^ (w - 1) <= z < 2 ^ (w - 1) -> wrap_signed w z = z.
Proof.
  intros Hw Hz. unfold wrap_signed.
  assert (H2 : 2 ^ w = 2 * 2 ^ (w - 1)).
  { replace w with (Z.succ (w - 1)) at 1 by lia. apply Z.pow_succ_r. lia. }
  destruct (Z.le_gt_cases 0 z).
  - rewrite Z.mod_small by lia.
    destruct (Z.ltb_spec z (2 ^ (w - 1))); lia.
  - replace (z mod 2 ^ w) with (z + 2 ^ w).
    + destruct (Z.ltb_spec (z + 2 ^ w) (2 ^ (w - 1))); lia.
    + symmetry. rewrite <- (Z.mod_add z 1 (2 ^ w)) by lia.
      rewrite Z.mul_1_l. apply Z.mod_small. lia.
Qed.

(** X3.  Against [i] and [n] no range check stands in front of the cast:
    with a builder that accepts, the value appended for a JSON integer is
    the one congruent to it modulo [2^32] (resp. [2^16]) in the range of
    the type, so a value in range is appended as it is and a value out of
    range is wrapped.  No [return] is taken on the way: the call gets to
    the closing brace of the function with [r = 0], where no [return]
    statement hands a value back. *)
Theorem encode_integer_codes_truncate :
  forall (garbage : message -> string -> json -> Z)
         (fuel : nat) (m : message) (j : json) (v : Z),
    Json.int_value j = Some v ->
    convert_json_to_dbus sd_accept garbage (S fuel) m "i" j
    = (appended m [append_basic "i" (Bint32 (wrap_signed 32 v))],
       Done (FellOff 0))
    /\ convert_json_to_dbus sd_accept garbage (S fuel) m "n" j
       = (appended m [append_basic "n" (Bint16 (wrap_signed 16 v))],
          Done (FellOff 0))
    /\ - 2 ^ 31 <= wrap_signed 32 v < 2 ^ 31
    /\ (wrap_signed 32 v) mod 2 ^ 32 = v mod 2 ^ 32
    /\ - 2 ^ 15 <= wrap_signed 16 v < 2 ^ 15
    /\ (wrap_signed 16 v) mod 2 ^ 16 = v mod 2 ^ 16
    /\ (- 2 ^ 31 <= v < 2 ^ 31 -> wrap_signed 32 v = v)
    /\ (- 2 ^ 15 <= v < 2 ^ 15 -> wrap_signed 16 v = v).
Proof.
  intros garbage fuel m j v Hv.
  split; [| split].
  - cbn -[wrap_signed Json.int_value]. rewrite Hv. reflexivity.
  - cbn -[wrap_signed Json.int_value]. rewrite Hv. reflexivity.
  - split; [apply (wrap_signed_range 32); lia |].
    split; [apply (wrap_signed_congruent 32); lia |].
    split; [apply (wrap_signed_range 16); lia |].
    split; [apply (wrap_signed_congruent 16); lia |].
    split; intros H; [apply (wrap_signed_in_range 32) | apply (wrap_signed_in_range 16)];
      (lia || exact H).
Qed.

Lemma encode_integer_codes_truncate_witness :
  convert_json_to_dbus sd_accept (hands_back 0) 1
    (new_method_call "c" "/p" "i" "m") "i" (Jnumber_unsigned 4294967297)
  = (appended (new_method_call "c" "/p" "i" "m")
       [append_basic "i" (Bint32 (wrap_signed 32 4294967297))],
     Done (FellOff 0))
  /\ wrap_signed 32 4294967297 = 1.
Proof.
  split.
  - apply (proj1 (encode_integer_codes_truncate (hands_back 0) 0
                    (new_method_call "c" "/p" "i" "m")
                    (Jnumber_unsigned 4294967297) 4294967297 eq_refl)).
  - reflexivity.
Defined.

(** X4.  A JSON value of the wrong shape for a basic code is rejected with
    [-1] before the builder is touched: a non-string against [s], a
    non-integer against [i], [n], [x], and anything but an unsigned
    integer (a negative one included) against [y], [q], [u], [t]. *)
Theorem encode_basic_code_mismatch_is_rejected :
  forall (sd_bus : message -> bus_op -> Z)
         (garbage : message -> string -> json -> Z) (fuel : nat) (m : message)
         (j : json),
    (Json.string_value j = None ->
     convert_json_to_dbus sd_bus garbage (S fuel) m "s" j = (m, Done (Returned (-1))))
    /\ (Json.int_value j = None ->
        convert_json_to_dbus sd_bus garbage (S fuel) m "i" j = (m, Done (Returned (-1)))
        /\ convert_json_to_dbus sd_bus garbage (S fuel) m "n" j
           = (m, Done (Returned (-1)))
        /\ convert_json_to_dbus sd_bus garbage (S fuel) m "x" j
           = (m, Done (Returned (-1))))
    /\ (Json.uint_value j = None ->
        convert_json_to_dbus sd_bus garbage (S fuel) m "y" j = (m, Done (Returned (-1)))
        /\ convert_json_to_dbus sd_bus garbage (S fuel) m "q" j
           = (m, Done (Returned (-1)))
        /\ convert_json_to_dbus sd_bus garbage (S fuel) m "u" j
           = (m, Done (Returned (-1)))
        /\ convert_json_to_dbus sd_bus garbage (S fuel) m "t" j
           = (m, Done (Returned (-1)))).
Proof.
  intros sd_bus garbage fuel m j.
  split; [| split]; intros H; repeat split;
    cbn -[Json.int_value Json.string_value Json.uint_value];
    rewrite H; reflexivity.
Qed.

Lemma encode_basic_code_mismatch_is_rejected_witness :
  convert_json_to_dbus sd_accept (hands_back 0) 1 (new_method_call "c" "/p" "i" "m") "s"
    (Jnumber_unsigned 5)
  = (new_method_call "c" "/p" "i" "m", Done (Returned (-1)))
  /\ convert_json_to_dbus sd_accept (hands_back 0) 1 (new_method_call "c" "/p" "i" "m") "x"
       (Jstring "5")
     = (new_method_call "c" "/p" "i" "m", Done (Returned (-1)))
  /\ convert_json_to_dbus sd_accept (hands_back 0) 1 (new_method_call "c" "/p" "i" "m") "y"
       (Jnumber_integer (-1))
     = (new_method_call "c" "/p" "i" "m", Done (Returned (-1))).
Proof.
  split; [| split].
  - apply (proj1 (encode_basic_code_mismatch_is_rejected sd_accept (hands_back 0) 0
                    (new_method_call "c" "/p" "i" "m") (Jnumber_unsigned 5))).
    reflexivity.
  - apply (proj1 (proj2 (encode_basic_code_mismatch_is_rejected sd_accept (hands_back 0) 0
                    (new_method_call "c" "/p" "i" "m") (Jstring "5")))).
    reflexivity.
  - apply (proj2 (proj2 (encode_basic_code_mismatch_is_rejected sd_accept (hands_back 0) 0
                    (new_method_call "c" "/p" "i" "m") (Jnumber_integer (-1))))).
    reflexivity.
Defined.


(** X6.  A negative answer of the builder is handed back as it is and the
    message is left alone: for the append of a string, and for the opening
    of an array container, in which case no element is looked at. *)
Theorem encode_reports_builder_error :
  forall (sd_bus : message -> bus_op -> Z)
         (garbage : message -> string -> json -> Z) (fuel : nat) (m : message)
         (s : string) (j : json),
    (sd_bus m (append_basic "s" (Bstring s)) < 0 ->
     convert_json_to_dbus sd_bus garbage (S fuel) m "s" (Jstring s)
     = (m, Done (Returned (sd_bus m (append_basic "s" (Bstring s))))))
    /\ (sd_bus m (open_container SD_BUS_TYPE_ARRAY "i") < 0 ->
        convert_json_to_dbus sd_bus garbage (S fuel) m "ai" j
        = (m, Done (Returned (sd_bus m (open_container SD_BUS_TYPE_ARRAY "i"))))).
Proof.
  intros sd_bus garbage fuel m s j. split; intros H; apply Z.ltb_lt in H.
  - cbn -[Z.ltb]. unfold sd_checked, sd. cbn -[Z.ltb]. rewrite !H. reflexivity.
  - cbn -[Z.ltb]. unfold sd_checked, sd.
    change (Str.substr_from 1 "ai") with "i".
    cbn -[Z.ltb]. rewrite !H. reflexivity.
Qed.

Lemma encode_reports_builder_error_witness :
  convert_json_to_dbus sd_reject (hands_back 0) 1 (new_method_call "c" "/p" "i" "m") "s"
    (Jstring "x")
  = (new_method_call "c" "/p" "i" "m", Done (Returned (-22)))
  /\ convert_json_to_dbus sd_reject (hands_back 0) 1 (new_method_call "c" "/p" "i" "m") "ai"
       (Jarray [Jnumber_unsigned 1])
     = (new_method_call "c" "/p" "i" "m", Done (Returned (-22))).
Proof.
  split.
  - apply (proj1 (encode_reports_builder_error sd_reject (hands_back 0) 0
                    (new_method_call "c" "/p" "i" "m") "x" Jnull)).
    reflexivity.
  - apply (proj2 (encode_reports_builder_error sd_reject (hands_back 0) 0
                    (new_method_call "c" "/p" "i" "m") "x"
                    (Jarray [Jnumber_unsigned 1]))).
    reflexivity.
Defined.

Lemma dbus_arg_split_one_char (c : ascii) :
  dbus_arg_split (Str.of_char c) = FellOff [Str.of_char c].
Proof.
  unfold dbus_arg_split, Str.of_char. cbn.
  repeat match goal with
         | |- context [if ?b then _ else _] => destruct b
         end; reflexivity.
Qed.

(** X7.  A one-character signature other than [s i b n x y q u t d a v] is
    rejected with [-2] and nothing is appended, whatever the JSON value:
    so are the object path [o], the signature [g], and a lone bracket. *)
Theorem encode_unknown_code_is_rejected :
  forall (sd_bus : message -> bus_op -> Z)
         (garbage : message -> string -> json -> Z) (fuel : nat) (m : message)
         (c : ascii) (j : json),
    handled_code c = false ->
    convert_json_to_dbus sd_bus garbage (S fuel) m (Str.of_char c) j
    = (m, Done (Returned (-2))).
Proof.
  intros sd_bus garbage fuel m c j Hc.
  unfold handled_code in Hc. cbn [existsb] in Hc.
  repeat (apply orb_false_iff in Hc; destruct Hc as [? Hc]).
  cbn [convert_json_to_dbus]. unfold convert_body.
  rewrite dbus_arg_split_one_char. cbn [result_of List.length Nat.ltb Nat.leb codes_loop].
  unfold encode_code, Str.of_char.
  cbn [String.eqb]. 
  repeat match goal with
         | H : Ascii.eqb c _ = false |- _ => rewrite H; clear H
         end.
  cbn [andb].
  unfold Str.starts_with. cbn [prefix].
  destruct (ascii_dec "a" c) as [<-|_]; [discriminate |].
  destruct (ascii_dec "v" c) as [<-|_]; [discriminate |].
  destruct (ascii_dec "(" c) as [<-|_]; [reflexivity |].
  destruct (ascii_dec "{" c) as [<-|_]; reflexivity.
Qed.

Lemma encode_unknown_code_is_rejected_witness :
  convert_json_to_dbus sd_accept (hands_back 0) 1 (new_method_call "c" "/p" "i" "m") "o"
    (Jstring "/xyz/openbmc_project")
  = (new_method_call "c" "/p" "i" "m", Done (Returned (-2))).
Proof.
  apply (encode_unknown_code_is_rejected sd_accept (hands_back 0) 0
           (new_method_call "c" "/p" "i" "m") "o"%char
           (Jstring "/xyz/openbmc_project")).
  reflexivity.
Defined.

(** X8.  A struct signature is never encoded.  The struct case iterates
    over the codes of the whole signature, which is the struct itself, so
    each element of the JSON value is encoded against the same struct
    again: the codec either runs out of elements and answers [-1], or
    recurses for as long as it is given fuel. *)
Theorem encode_struct_never_succeeds :
  forall (sd_bus : message -> bus_op -> Z)
         (garbage : message -> string -> json -> Z) (t : string),
    dbus_arg_split (String "(" t) = FellOff [String "(" t] ->
    Str.ends_with (String "(" t) ")" = true ->
    forall (fuel : nat) (m : message) (j : json),
      snd (convert_json_to_dbus sd_bus garbage fuel m (String "(" t) j) = NoFuel
      \/ snd (convert_json_to_dbus sd_bus garbage fuel m (String "(" t) j)
         = Done (Returned (-1)).
Proof.
  intros sd_bus garbage t Hsplit Hends fuel.
  induction fuel as [|fuel IH]; intros m j; [left; reflexivity |].
  cbn [convert_json_to_dbus]. unfold convert_body.
  rewrite Hsplit. cbn [result_of List.length Nat.ltb Nat.leb codes_loop].
  unfold encode_code. cbn [String.eqb Ascii.eqb Bool.eqb andb].
  assert (Ha : Str.starts_with (String "(" t) "a" = false) by reflexivity.
  assert (Hv : Str.starts_with (String "(" t) "v" = false) by reflexivity.
  assert (Hp : Str.starts_with (String "(" t) "(" = true)
    by (destruct t; reflexivity).
  rewrite Ha, Hv, Hp, Hends. cbn [andb].
  rewrite Hsplit. cbn [result_of].
  unfold sd_unchecked.
  destruct (sd sd_bus m (open_container SD_BUS_TYPE_STRUCT
              (substring 1 (String.length (String "(" t) - 1) (String "(" t))))
    as [m1 r1].
  destruct (Json.range j) as [|x its]; [right; reflexivity |].
  cbn [struct_loop]. unfold call_checked.
  destruct (IH m1 x) as [H | H];
    destruct (convert_json_to_dbus sd_bus garbage fuel m1 (String "(" t) x) as [m2 res];
    cbn [snd] in H; subst res; [left | right]; reflexivity.
Qed.

Lemma encode_struct_never_succeeds_witness :
  snd (convert_json_to_dbus sd_accept (hands_back 0) 7 (new_method_call "c" "/p" "i" "m")
         "(ii)" (Jarray [Jnumber_unsigned 1; Jnumber_unsigned 2]))
  = NoFuel
  \/ snd (convert_json_to_dbus sd_accept (hands_back 0) 7 (new_method_call "c" "/p" "i" "m")
            "(ii)" (Jarray [Jnumber_unsigned 1; Jnumber_unsigned 2]))
     = Done (Returned (-1)).
Proof.
  apply (encode_struct_never_succeeds sd_accept (hands_back 0) "ii)"); reflexivity.
Defined.







(** ** [handle_action], continued *)

(** [handle_action] answers 400 to a body that is no JSON array. *)
Lemma post_with_bad_body_answers_400 :
  forall (path : string) (n : nat) (body : option json),
    index 0 action_seperator path = Some n ->
    not_an_array body = true ->
    xyz_route (Request POST body) path fresh
    = World (Response bad_request Jnull 1) None [].
Proof.
  intros path n body Hn Hbody.
  unfold xyz_route, xyz_dispatch. cbn [method]. rewrite Hn.
  destruct (index 0 attr_seperator path); cbv iota beta;
    unfold handle_action; cbn [body_json];
    (destruct body as [j|]; [cbn in Hbody; rewrite Hbody |]); reflexivity.
Qed.

(** A POST without [/action/] falls through to the 405 at the end of the
    route. *)
Lemma post_without_action_answers_405 :
  forall (path : string) (body : option json),
    index 0 action_seperator path = None ->
    xyz_route (Request POST body) path fresh
    = World (Response method_not_allowed Jnull 1) None [].
Proof.
  intros path body Hn. unfold xyz_route, xyz_dispatch. cbn [method]. rewrite Hn.
  destruct (index 0 attr_seperator path); reflexivity.
Qed.

(** X10.  A POST is turned down at once, with no bus call, when its path
    has an [/action/] separator but its body is no JSON text or no JSON
    array (400), and when its path has no [/action/] separator (405,
    whatever the body). *)
Theorem post_is_turned_down :
  forall (path : string) (body : option json),
    (forall n : nat,
        index 0 action_seperator path = Some n ->
        not_an_array body = true ->
        xyz_route (Request POST body) path fresh
        = World (Response bad_request Jnull 1) None [])
    /\ (index 0 action_seperator path = None ->
        xyz_route (Request POST body) path fresh
        = World (Response method_not_allowed Jnull 1) None []).
Proof.
  intros path body. split.
  - intros n. apply post_with_bad_body_answers_400.
  - apply post_without_action_answers_405.
Qed.

Lemma post_is_turned_down_witness :
  xyz_route (Request POST (Some (Jobject [("data", Jnull)])))
            "openbmc_project/control/chassis0/action/PowerOn" fresh
  = World (Response bad_request Jnull 1) None []
  /\ xyz_route (Request POST (Some (Jarray [])))
               "openbmc_project/control/chassis0" fresh
     = World (Response method_not_allowed Jnull 1) None [].
Proof.
  split.
  - apply (proj1 (post_is_turned_down
                    "openbmc_project/control/chassis0/action/PowerOn"
                    (Some (Jobject [("data", Jnull)]))) 32%nat);
      reflexivity.
  - apply (proj2 (post_is_turned_down "openbmc_project/control/chassis0"
                    (Some (Jarray [])))).
    reflexivity.
Defined.

(** X11.  When the [GetObject] call of [handle_action] fails, or names no
    owner, the request is answered 500 with an empty object as body, once,
    and no introspection is started. *)
Theorem action_without_owner_answers_500 :
  forall (sd_bus : message -> bus_op -> Z)
         (garbage : message -> string -> json -> Z) (fuel : nat)
         (object_path method_name : string) (args : list json)
         (ec : error_code) (interface_names : GetObjectType),
    failed ec = true \/ interface_names = [] ->
    run sd_bus garbage fuel [(0%nat, object_reply ec interface_names)]
        (handle_action (Request POST (Some (Jarray args)))
                       object_path method_name fresh)
    = Completed (World (Response internal_server_error (Jobject []) 1) None []).
Proof.
  intros sd_bus garbage fuel object_path method_name args ec names [Hec | ->].
  - cbn. unfold handle_action_callback. rewrite Hec. reflexivity.
  - cbn. unfold handle_action_callback. destruct (failed ec); reflexivity.
Qed.

Lemma action_without_owner_answers_500_witness :
  run sd_accept (hands_back 0) 1 [(0%nat, object_reply None [])]
      (handle_action (Request POST (Some (Jarray [])))
                     "/xyz/openbmc_project/control/chassis0" "PowerOn" fresh)
  = Completed (World (Response internal_server_error (Jobject []) 1) None [])
  /\ run sd_accept (hands_back 0) 1 [(0%nat, object_reply (Some "timed out") [("c", ["i"])])]
       (handle_action (Request POST (Some (Jarray [])))
                      "/xyz/openbmc_project/control/chassis0" "PowerOn" fresh)
     = Completed (World (Response internal_server_error (Jobject []) 1) None []).
Proof.
  split.
  - apply (action_without_owner_answers_500 sd_accept (hands_back 0) 1
             "/xyz/openbmc_project/control/chassis0" "PowerOn" [] None []).
    right; reflexivity.
  - apply (action_without_owner_answers_500 sd_accept (hands_back 0) 1
             "/xyz/openbmc_project/control/chassis0" "PowerOn" []
             (Some "timed out") [("c", ["i"])]).
    left; reflexivity.
Defined.

Lemma action_methods_no_match (sd_bus : message -> bus_op -> Z)
  (garbage : message -> string -> json -> Z) (fuel : nat)
  (connectionName iname path method_name : string) (arguments : json)
  (w : world) (nodes : list XMLElement) :
  no_method_named method_name nodes = true ->
  action_methods sd_bus garbage fuel connectionName iname path method_name arguments
                 nodes w = Go w.
Proof.
  induction nodes as [|e rest IH]; intros H; [reflexivity |].
  cbn [no_method_named forallb] in H. apply andb_prop in H as [He Hrest].
  cbn [action_methods].
  destruct (Xml.name_of e =? "method")%string; [| apply IH, Hrest].
  destruct (Xml.Attribute "name" [e]) as [n|]; [| discriminate].
  apply negb_true_iff in He. rewrite He. apply IH, Hrest.
Qed.

Lemma action_interfaces_no_match (sd_bus : message -> bus_op -> Z)
  (garbage : message -> string -> json -> Z) (fuel : nat)
  (connectionName path method_name : string) (arguments : json)
  (w : world) (nodes : list XMLElement) :
  forallb
    (fun e =>
       if (Xml.name_of e =? "interface")%string then
         match Xml.Attribute "name" [e] with
         | Some _ => no_method_named method_name (Xml.children_of e)
         | None => false
         end
       else true) nodes = true ->
  action_interfaces sd_bus garbage fuel connectionName path method_name arguments
                    nodes w = Go w.
Proof.
  induction nodes as [|e rest IH]; intros H; [reflexivity |].
  cbn [forallb] in H. apply andb_prop in H as [He Hrest].
  cbn [action_interfaces].
  destruct (Xml.name_of e =? "interface")%string; [| apply IH, Hrest].
  destruct (Xml.Attribute "name" [e]) as [n|]; [| discriminate].
  rewrite action_methods_no_match by exact He. apply IH, Hrest.
Qed.

(** No interface offers the method: the transaction is destroyed with its
    status and body untouched. *)
Lemma action_on_unknown_method_answers_200_without_body :
  forall (sd_bus : message -> bus_op -> Z)
         (garbage : message -> string -> json -> Z) (fuel : nat)
         (connectionName : string) (ifaces : list string)
         (object_path method_name : string) (args : list json)
         (introspect_xml : XMLDocument),
    offers_no_method method_name introspect_xml = true ->
    run sd_bus garbage fuel
      [(0%nat, object_reply None [(connectionName, ifaces)]);
       (0%nat, introspect_reply None introspect_xml)]
      (handle_action (Request POST (Some (Jarray args)))
                     object_path method_name fresh)
    = Completed (World (Response ok Jnull 1) None []).
Proof.
  intros sd_bus garbage fuel connectionName ifaces object_path method_name args doc H.
  unfold offers_no_method in H.
  cbn. unfold find_action_callback. cbn [failed heap].
  destruct (Xml.seek "node" doc) as [|pRoot rest]; [discriminate |].
  rewrite action_interfaces_no_match by exact H. reflexivity.
Qed.

(** The introspection fails or has no root: the callback only logs. *)
Lemma action_with_failed_introspection_answers_200_without_body :
  forall (sd_bus : message -> bus_op -> Z)
         (garbage : message -> string -> json -> Z) (fuel : nat)
         (connectionName : string) (ifaces : list string)
         (object_path method_name : string) (args : list json)
         (ec : error_code) (introspect_xml : XMLDocument),
    failed ec = true \/ Xml.seek "node" introspect_xml = [] ->
    run sd_bus garbage fuel
      [(0%nat, object_reply None [(connectionName, ifaces)]);
       (0%nat, introspect_reply ec introspect_xml)]
      (handle_action (Request POST (Some (Jarray args)))
                     object_path method_name fresh)
    = Completed (World (Response ok Jnull 1) None []).
Proof.
  intros sd_bus garbage fuel connectionName ifaces object_path method_name args ec doc H.
  cbn. unfold find_action_callback.
  destruct H as [H | H].
  - rewrite H. reflexivity.
  - rewrite H. destruct (failed ec); reflexivity.
Qed.

(** X12.  A POST for which nothing is dispatched is answered 200 with no
    JSON body: when the owner's introspection offers no method of the
    requested name, when the [Introspect] call fails, and when its reply
    has no [<node>] root.  No error status is recorded on these paths. *)
Theorem action_without_dispatch_answers_200_without_body :
  forall (sd_bus : message -> bus_op -> Z)
         (garbage : message -> string -> json -> Z) (fuel : nat)
         (connectionName : string) (ifaces : list string)
         (object_path method_name : string) (args : list json)
         (ec : error_code) (introspect_xml : XMLDocument),
    (offers_no_method method_name introspect_xml = true ->
     run sd_bus garbage fuel
       [(0%nat, object_reply None [(connectionName, ifaces)]);
        (0%nat, introspect_reply None introspect_xml)]
       (handle_action (Request POST (Some (Jarray args)))
                      object_path method_name fresh)
     = Completed (World (Response ok Jnull 1) None []))
    /\ (failed ec = true \/ Xml.seek "node" introspect_xml = [] ->
        run sd_bus garbage fuel
          [(0%nat, object_reply None [(connectionName, ifaces)]);
           (0%nat, introspect_reply ec introspect_xml)]
          (handle_action (Request POST (Some (Jarray args)))
                         object_path method_name fresh)
        = Completed (World (Response ok Jnull 1) None [])).
Proof.
  intros. split.
  - apply action_on_unknown_method_answers_200_without_body.
  - apply action_with_failed_introspection_answers_200_without_body.
Qed.

Lemma action_without_dispatch_answers_200_without_body_witness :
  run sd_accept (hands_back 0) 1
    [(0%nat, object_reply None [("xyz.openbmc_project.Chassis", ["c.I"])]);
     (0%nat, introspect_reply None (method_document "c.I" "PowerOn" []))]
    (handle_action (Request POST (Some (Jarray [])))
                   "/xyz/openbmc_project/control/chassis0" "PowerOff" fresh)
  = Completed (World (Response ok Jnull 1) None [])
  /\ run sd_accept (hands_back 0) 1
       [(0%nat, object_reply None [("xyz.openbmc_project.Chassis", ["c.I"])]);
        (0%nat, introspect_reply (Some "timed out") [])]
       (handle_action (Request POST (Some (Jarray [])))
                      "/xyz/openbmc_project/control/chassis0" "PowerOff" fresh)
     = Completed (World (Response ok Jnull 1) None []).
Proof.
  split.
  - apply (proj1 (action_without_dispatch_answers_200_without_body
                    sd_accept (hands_back 0) 1 "xyz.openbmc_project.Chassis" ["c.I"]
                    "/xyz/openbmc_project/control/chassis0" "PowerOff" []
                    None (method_document "c.I" "PowerOn" []))).
    reflexivity.
  - apply (proj2 (action_without_dispatch_answers_200_without_body
                    sd_accept (hands_back 0) 1 "xyz.openbmc_project.Chassis" ["c.I"]
                    "/xyz/openbmc_project/control/chassis0" "PowerOff" []
                    (Some "timed out") [])).
    left; reflexivity.
Defined.

(** X13.  When the bus answers the dispatched method call with an error,
    the request is answered 500 with an empty object as body. *)
Theorem action_bus_error_answers_500 :
  forall (sd_bus : message -> bus_op -> Z)
         (garbage : message -> string -> json -> Z) (fuel : nat)
         (connectionName : string) (ifaces : list string)
         (object_path method_name iname message : string)
         (margs : list XMLElement) (args : list json),
    Xml.seek "arg" margs = [] ->
    run sd_bus garbage fuel
      [(0%nat, object_reply None [(connectionName, ifaces)]);
       (0%nat, introspect_reply None (method_document iname method_name margs));
       (0%nat, send_reply (Some message))]
      (handle_action (Request POST (Some (Jarray args)))
                     object_path method_name fresh)
    = Completed (World (Response internal_server_error (Jobject []) 1) None []).
Proof.
  intros. cbn. rewrite String.eqb_refl.
  rewrite encode_arguments_without_arg by assumption. reflexivity.
Qed.

Lemma action_bus_error_answers_500_witness :
  run sd_accept (hands_back 0) 1
    [(0%nat, object_reply None [("xyz.openbmc_project.Chassis", ["c.I"])]);
     (0%nat, introspect_reply None (method_document "c.I" "PowerOn" []));
     (0%nat, send_reply (Some "no reply"))]
    (handle_action (Request POST (Some (Jarray [])))
                   "/xyz/openbmc_project/control/chassis0" "PowerOn" fresh)
  = Completed (World (Response internal_server_error (Jobject []) 1) None []).
Proof.
  apply (action_bus_error_answers_500 sd_accept (hands_back 0) 1
           "xyz.openbmc_project.Chassis" ["c.I"]
           "/xyz/openbmc_project/control/chassis0" "PowerOn" "c.I" "no reply"
           [] []).
  reflexivity.
Defined.

(** ** [handle_put], continued *)

Lemma xyz_dispatch_put (path : string) :
  exists object_path dest_property,
    xyz_dispatch PUT path = to_handle_put object_path dest_property.
Proof.
  unfold xyz_dispatch. destruct (index 0 attr_seperator path);
    eexists; eexists; reflexivity.
Qed.

(** X14.  A PUT whose body is no JSON text, or no JSON object with the key
    [data], is answered 400 at once on every path; no transaction is made
    and no bus call is issued. *)
Theorem put_without_data_answers_400 :
  forall (path : string) (body : option json),
    without_data body = true ->
    xyz_route (Request PUT body) path fresh
    = World (Response bad_request Jnull 1) None [].
Proof.
  intros path body Hbody. unfold xyz_route. cbn [method].
  destruct (xyz_dispatch_put path) as (op & dp & ->).
  unfold handle_put. cbn [body_json].
  destruct body as [j|]; [| reflexivity].
  cbn in Hbody. destruct (Json.find "data" j); [discriminate | reflexivity].
Qed.

Lemma put_without_data_answers_400_witness :
  xyz_route (Request PUT (Some (Jarray [Jboolean true])))
            "openbmc_project/network/config/attr/DHCPEnabled" fresh
  = World (Response bad_request Jnull 1) None [].
Proof.
  apply (put_without_data_answers_400
           "openbmc_project/network/config/attr/DHCPEnabled"
           (Some (Jarray [Jboolean true]))).
  reflexivity.
Defined.

(** X15.  When the [GetObject] call of a PUT succeeds and names no owner,
    the answer has status 404 and the success envelope as body; when the
    call fails (and so names none), the answer is 200 with the success
    envelope.  No introspection is started in either case. *)
Theorem put_without_owner :
  forall (sd_bus : message -> bus_op -> Z)
         (garbage : message -> string -> json -> Z) (fuel : nat)
         (objectPath destProperty message : string) (body value : json),
    Json.find "data" body = Some value ->
    run sd_bus garbage fuel [(0%nat, object_reply None [])]
        (handle_put (Request PUT (Some body)) objectPath destProperty fresh)
    = Completed (World (Response not_found (ok_envelope Jnull) 1) None [])
    /\ run sd_bus garbage fuel [(0%nat, object_reply (Some message) [])]
         (handle_put (Request PUT (Some body)) objectPath destProperty fresh)
       = Completed (World (Response ok (ok_envelope Jnull) 1) None []).
Proof.
  intros sd_bus garbage fuel objectPath destProperty message body value Hdata.
  unfold handle_put. cbn [body_json]. rewrite Hdata. split; reflexivity.
Qed.

Lemma put_without_owner_witness :
  run sd_accept (hands_back 0) 1 [(0%nat, object_reply None [])]
      (handle_put (Request PUT (Some (Jobject [("data", Jboolean true)])))
                  "/xyz/openbmc_project/network/config" "DHCPEnabled" fresh)
  = Completed (World (Response not_found (ok_envelope Jnull) 1) None [])
  /\ run sd_accept (hands_back 0) 1 [(0%nat, object_reply (Some "timed out") [])]
       (handle_put (Request PUT (Some (Jobject [("data", Jboolean true)])))
                   "/xyz/openbmc_project/network/config" "DHCPEnabled" fresh)
     = Completed (World (Response ok (ok_envelope Jnull) 1) None []).
Proof.
  apply (put_without_owner sd_accept (hands_back 0) 1 "/xyz/openbmc_project/network/config"
           "DHCPEnabled" "timed out" (Jobject [("data", Jboolean true)])
           (Jboolean true)).
  reflexivity.
Defined.

Lemma put_properties_no_match (sd_bus : message -> bus_op -> Z)
  (garbage : message -> string -> json -> Z) (fuel : nat)
  (connectionName iname objectPath propertyName : string) (value : json)
  (w : world) (nodes : list XMLElement) :
  no_property_named propertyName nodes = true ->
  put_properties sd_bus garbage fuel connectionName iname objectPath propertyName
                 value nodes w = Go w.
Proof.
  induction nodes as [|e rest IH]; intros H; [reflexivity |].
  cbn [no_property_named forallb] in H. apply andb_prop in H as [He Hrest].
  cbn [put_properties].
  destruct (Xml.name_of e =? "property")%string; [| apply IH, Hrest].
  destruct (Xml.Attribute "name" [e]) as [n|]; [| discriminate].
  apply negb_true_iff in He. rewrite He. apply IH, Hrest.
Qed.

Lemma put_interfaces_no_match (sd_bus : message -> bus_op -> Z)
  (garbage : message -> string -> json -> Z) (fuel : nat)
  (connectionName objectPath propertyName : string) (value : json)
  (w : world) (nodes : list XMLElement) :
  forallb
    (fun e =>
       if (Xml.name_of e =? "interface")%string then
         match Xml.Attribute "name" [e] with
         | Some _ => no_property_named propertyName (Xml.children_of e)
         | None => false
         end
       else true) nodes = true ->
  put_interfaces sd_bus garbage fuel connectionName objectPath propertyName value
                 nodes w = Go w.
Proof.
  induction nodes as [|e rest IH]; intros H; [reflexivity |].
  cbn [forallb] in H. apply andb_prop in H as [He Hrest].
  cbn [put_interfaces].
  destruct (Xml.name_of e =? "interface")%string; [| apply IH, Hrest].
  destruct (Xml.Attribute "name" [e]) as [n|]; [| discriminate].
  rewrite put_properties_no_match by exact He. apply IH, Hrest.
Qed.

(** X16.  A PUT for a property that no interface of the owner offers is
    answered 200 with the success envelope, for every introspection
    document whose interfaces and properties are named: nothing is sent
    and no error is recorded. *)
Theorem put_on_unknown_property_answers_200 :
  forall (sd_bus : message -> bus_op -> Z)
         (garbage : message -> string -> json -> Z) (fuel : nat)
         (connectionName : string) (ifaces : list string)
         (objectPath destProperty : string) (body value : json)
         (introspectXml : XMLDocument),
    Json.find "data" body = Some value ->
    offers_no_property destProperty introspectXml = true ->
    run sd_bus garbage fuel
      [(0%nat, object_reply None [(connectionName, ifaces)]);
       (0%nat, introspect_reply None introspectXml)]
      (handle_put (Request PUT (Some body)) objectPath destProperty fresh)
    = Completed (World (Response ok (ok_envelope Jnull) 1) None []).
Proof.
  intros sd_bus garbage fuel connectionName ifaces objectPath destProperty body value
         doc Hdata H.
  unfold offers_no_property in H.
  unfold handle_put. cbn [body_json]. rewrite Hdata.
  cbn. unfold put_introspect_callback. cbn [failed heap].
  destruct (Xml.seek "node" doc) as [|pRoot rest]; [discriminate |].
  rewrite put_interfaces_no_match by exact H. reflexivity.
Qed.

Lemma put_on_unknown_property_answers_200_witness :
  run sd_accept (hands_back 0) 1
    [(0%nat, object_reply None [("xyz.openbmc_project.Network", ["n.Config"])]);
     (0%nat, introspect_reply None
               (property_document "n.Config" "DHCPEnabled" "b"))]
    (handle_put (Request PUT (Some (Jobject [("data", Jstring "bmc")])))
                "/xyz/openbmc_project/network/config" "HostName" fresh)
  = Completed (World (Response ok (ok_envelope Jnull) 1) None []).
Proof.
  apply (put_on_unknown_property_answers_200 sd_accept (hands_back 0) 1
           "xyz.openbmc_project.Network" ["n.Config"]
           "/xyz/openbmc_project/network/config" "HostName"
           (Jobject [("data", Jstring "bmc")]) (Jstring "bmc")
           (property_document "n.Config" "DHCPEnabled" "b"));
    reflexivity.
Defined.

(** The [Set] call for a string: the message is built, and whether it is
    sent hangs on what the handler reads after the call of the codec. *)
Lemma put_set_property_string (garbage : message -> string -> json -> Z)
  (fuel : nat) (connectionName iname objectPath destProperty value : string)
  (w : world) :
  put_set_property sd_accept garbage (S fuel) connectionName iname objectPath
                   destProperty (Jstring value) "s" w
  = if garbage (set_string_open connectionName objectPath iname destProperty
                                value)
               "s" (Jstring value) <? 0
    then Stop (setErrorStatus w)
    else Go (spawn (put_send_call
                      (set_string_call connectionName objectPath iname
                                       destProperty value)) w).
Proof. reflexivity. Qed.

(** X17.  A PUT of a JSON string to a property of signature [s], with a
    builder that accepts: the interface name, the property name and the
    string inside a variant of signature [s] are put into a
    [org.freedesktop.DBus.Properties.Set] message for the owner, and then
    the handler tests the value of the call of the codec, which has got
    to its closing brace and handed back none.  When what the handler
    reads there is negative, nothing is sent and the answer is 403 with
    the message that the property cannot be created.  Otherwise the
    variant is closed and the call is sent: a successful reply is
    answered 200 with the success envelope; a bus error is answered 200
    as well, with [status] set to [error] and [message] to the text of
    the error. *)
Theorem put_string_property :
  forall (garbage : message -> string -> json -> Z) (fuel : nat)
         (connectionName : string) (ifaces : list string)
         (objectPath destProperty iname value message : string),
    (garbage (set_string_open connectionName objectPath iname destProperty
                              value)
             "s" (Jstring value) < 0 ->
     run sd_accept garbage (S fuel)
       [(0%nat, object_reply None [(connectionName, ifaces)]);
        (0%nat, introspect_reply None
                  (property_document iname destProperty "s"))]
       (handle_put (Request PUT (Some (Jobject [("data", Jstring value)])))
                   objectPath destProperty fresh)
     = Completed
         (World (Response forbidden (forbidden_body destProperty) 1) None []))
    /\ (0 <= garbage (set_string_open connectionName objectPath iname
                                      destProperty value)
                     "s" (Jstring value) ->
        run sd_accept garbage (S fuel)
          [(0%nat, object_reply None [(connectionName, ifaces)]);
           (0%nat, introspect_reply None
                     (property_document iname destProperty "s"))]
          (handle_put (Request PUT (Some (Jobject [("data", Jstring value)])))
                      objectPath destProperty fresh)
        = Completed
            (World (Response ok (ok_envelope Jnull) 0)
               (Some (AsyncPutRequest objectPath destProperty (Jstring value)))
               [put_send_call
                  (set_string_call connectionName objectPath iname
                                   destProperty value)])
        /\ run sd_accept garbage (S fuel)
             [(0%nat, object_reply None [(connectionName, ifaces)]);
              (0%nat, introspect_reply None
                        (property_document iname destProperty "s"));
              (0%nat, send_reply None)]
             (handle_put
                (Request PUT (Some (Jobject [("data", Jstring value)])))
                objectPath destProperty fresh)
           = Completed (World (Response ok (ok_envelope Jnull) 1) None [])
        /\ run sd_accept garbage (S fuel)
             [(0%nat, object_reply None [(connectionName, ifaces)]);
              (0%nat, introspect_reply None
                        (property_document iname destProperty "s"));
              (0%nat, send_reply (Some message))]
             (handle_put
                (Request PUT (Some (Jobject [("data", Jstring value)])))
                objectPath destProperty fresh)
           = Completed
               (World (Response ok
                         (Json.object [("status", Jstring "error");
                                       ("message", Jstring message);
                                       ("data", Jnull)])
                         1)
                      None [])).
Proof.
  intros garbage fuel connectionName ifaces objectPath destProperty iname
         value message.
  split; intros Hv; [apply Z.ltb_lt in Hv | apply Z.ltb_ge in Hv].
  - cbn -[Z.ltb]. rewrite String.eqb_refl. cbn -[Z.ltb].
    rewrite put_set_property_string, Hv. reflexivity.
  - split; [| split]; cbn -[Z.ltb]; rewrite String.eqb_refl; cbn -[Z.ltb];
      rewrite put_set_property_string, Hv; reflexivity.
Qed.

(** A negative value, and zero, for what the handler reads. *)
Lemma put_string_property_witness :
  run sd_accept (hands_back (-11136)) 1
    [(0%nat, object_reply None [("xyz.openbmc_project.Network", ["n.Config"])]);
     (0%nat, introspect_reply None
               (property_document "n.Config" "HostName" "s"))]
    (handle_put (Request PUT (Some (Jobject [("data", Jstring "bmc")])))
                "/xyz/openbmc_project/network/config" "HostName" fresh)
  = Completed (World (Response forbidden (forbidden_body "HostName") 1) None [])
  /\ run sd_accept (hands_back 0) 1
       [(0%nat, object_reply None
                  [("xyz.openbmc_project.Network", ["n.Config"])]);
        (0%nat, introspect_reply None
                  (property_document "n.Config" "HostName" "s"));
        (0%nat, send_reply None)]
       (handle_put (Request PUT (Some (Jobject [("data", Jstring "bmc")])))
                   "/xyz/openbmc_project/network/config" "HostName" fresh)
     = Completed (World (Response ok (ok_envelope Jnull) 1) None []).
Proof.
  split.
  - apply (proj1 (put_string_property (hands_back (-11136)) 0
                    "xyz.openbmc_project.Network" ["n.Config"]
                    "/xyz/openbmc_project/network/config" "HostName"
                    "n.Config" "bmc" "timed out")).
    reflexivity.
  - apply (proj1 (proj2 (proj2 (put_string_property (hands_back 0) 0
                    "xyz.openbmc_project.Network" ["n.Config"]
                    "/xyz/openbmc_project/network/config" "HostName"
                    "n.Config" "bmc" "timed out")
                    ltac:(unfold hands_back; lia)))).
Defined.

(** ** [handle_get], continued *)

(** X18.  When the [GetObject] call of a GET fails, or names no owner, the
    request is answered 404 without a body, once, and no [GetAll] call is
    issued. *)
Theorem get_without_owner_answers_404 :
  forall (sd_bus : message -> bus_op -> Z)
         (garbage : message -> string -> json -> Z) (fuel : nat)
         (object_path dest_property : string)
         (ec : error_code) (object_names : GetObjectType),
    failed ec = true \/ object_names = [] ->
    run sd_bus garbage fuel [(0%nat, object_reply ec object_names)]
        (handle_get object_path dest_property fresh)
    = Completed (World (Response not_found Jnull 1) None []).
Proof.
  intros sd_bus garbage fuel object_path dest_property ec names [H | ->];
    cbn; unfold handle_get_callback.
  - rewrite H. reflexivity.
  - destruct (failed ec); reflexivity.
Qed.

Lemma get_without_owner_answers_404_witness :
  run sd_accept (hands_back 0) 1 [(0%nat, object_reply None [])]
      (handle_get "/xyz/openbmc_project/nonexistent" EmptyString fresh)
  = Completed (World (Response not_found Jnull 1) None []).
Proof.
  apply (get_without_owner_answers_404 sd_accept (hands_back 0) 1
           "/xyz/openbmc_project/nonexistent" EmptyString None []).
  right; reflexivity.
Defined.

Lemma collect_properties_no_match (c : ascii) (name : string)
  (properties : list (string * DbusRestVariantType)) (response : json) :
  forallb (fun p => negb (fst p =? String c name)%string) properties = true ->
  collect_properties (String c name) properties response = Some response.
Proof.
  induction properties as [|[n v] rest IH]; intros H; [reflexivity |].
  cbn [forallb fst] in H. apply andb_prop in H as [Hn Hrest].
  apply negb_true_iff in Hn.
  cbn [collect_properties Str.empty]. rewrite Hn. apply IH, Hrest.
Qed.

(** X19.  A GET of [/attr/<name>] where the interface of the one owner has
    no property of that name is answered 200 with the success envelope and
    an empty object as [data], not 404. *)
Theorem get_unknown_attribute_answers_200_with_empty_data :
  forall (sd_bus : message -> bus_op -> Z)
         (garbage : message -> string -> json -> Z) (fuel : nat)
         (connection interface object_path : string) (c : ascii) (name : string)
         (properties : list (string * DbusRestVariantType)),
    forallb (fun p => negb (fst p =? String c name)%string) properties = true ->
    run sd_bus garbage fuel
      [(0%nat, object_reply None [(connection, [interface])]);
       (0%nat, properties_reply None properties)]
      (handle_get object_path (String c name) fresh)
    = Completed (World (Response ok (ok_envelope (Jobject [])) 1) None []).
Proof.
  intros sd_bus garbage fuel connection interface object_path c name properties H.
  cbn -[collect_properties]. unfold get_all_callback. cbn -[collect_properties].
  change (Json.object []) with (Jobject []).
  rewrite collect_properties_no_match by exact H. reflexivity.
Qed.

Lemma get_unknown_attribute_answers_200_with_empty_data_witness :
  run sd_accept (hands_back 0) 1
    [(0%nat, object_reply None [("xyz.openbmc_project.State.Host", ["s.Host"])]);
     (0%nat, properties_reply None [("Powered", v_bool true)])]
    (handle_get "/xyz/openbmc_project/state/host0" "Speed" fresh)
  = Completed (World (Response ok (ok_envelope (Jobject [])) 1) None []).
Proof.
  apply (get_unknown_attribute_answers_200_with_empty_data sd_accept (hands_back 0) 1
           "xyz.openbmc_project.State.Host" "s.Host"
           "/xyz/openbmc_project/state/host0" "S"%char "peed"
           [("Powered", v_bool true)]).
  reflexivity.
Defined.

Lemma collect_properties_last_match (c : ascii) (name : string)
  (before : list (string * DbusRestVariantType)) (v : DbusRestVariantType)
  (after : list (string * DbusRestVariantType)) (response : json) :
  forallb (fun p => negb (fst p =? String c name)%string) after = true ->
  collect_properties (String c name) (before ++ (String c name, v) :: after)
                     response
  = Some (json_of_variant v).
Proof.
  intros Hafter. revert response.
  induction before as [|[n x] before IH]; intros response.
  - cbn [app collect_properties Str.empty]. rewrite String.eqb_refl.
    apply collect_properties_no_match, Hafter.
  - cbn [app collect_properties Str.empty].
    destruct (n =? String c name)%string; apply IH.
Qed.

(** X20.  A GET of [/attr/<name>] answers with the value of the property of
    that name as [data], unwrapped from its variant and not put under a
    key; the other properties of the reply are left out, and of several
    properties of that name the last one is answered. *)
Theorem get_attribute_answers_the_variant :
  forall (sd_bus : message -> bus_op -> Z)
         (garbage : message -> string -> json -> Z) (fuel : nat)
         (connection interface object_path : string) (c : ascii) (name : string)
         (before after : list (string * DbusRestVariantType))
         (v : DbusRestVariantType),
    forallb (fun p => negb (fst p =? String c name)%string) after = true ->
    run sd_bus garbage fuel
      [(0%nat, object_reply None [(connection, [interface])]);
       (0%nat, properties_reply None (before ++ (String c name, v) :: after))]
      (handle_get object_path (String c name) fresh)
    = Completed
        (World (Response ok (ok_envelope (json_of_variant v)) 1) None []).
Proof.
  intros sd_bus garbage fuel connection interface object_path c name before after v H.
  cbn -[collect_properties]. unfold get_all_callback. cbn -[collect_properties].
  rewrite collect_properties_last_match by exact H. reflexivity.
Qed.

Lemma get_attribute_answers_the_variant_witness :
  run sd_accept (hands_back 0) 1
    [(0%nat, object_reply None [("xyz.openbmc_project.Hwmon", ["s.Value"])]);
     (0%nat, properties_reply None
               [("Scale", v_int64 (-3)); ("Value", v_double (Dbits 42));
                ("Unit", v_string "C")])]
    (handle_get "/xyz/openbmc_project/sensors/temperature/cpu" "Value" fresh)
  = Completed
      (World (Response ok (ok_envelope (Jnumber_float (Dbits 42))) 1) None []).
Proof.
  apply (get_attribute_answers_the_variant sd_accept (hands_back 0) 1
           "xyz.openbmc_project.Hwmon" "s.Value"
           "/xyz/openbmc_project/sensors/temperature/cpu" "V"%char "alue"
           [("Scale", v_int64 (-3))] [("Unit", v_string "C")]
           (v_double (Dbits 42))).
  reflexivity.
Defined.

Lemma collect_properties_total (property_name : string)
  (properties : list (string * DbusRestVariantType)) :
  forall response : json,
    (Str.empty property_name = true -> is_object response = true) ->
    exists response',
      collect_properties property_name properties response = Some response'
      /\ (Str.empty property_name = true -> is_object response' = true).
Proof.
  induction properties as [|[n v] rest IH]; intros response Hobj.
  - exists response; split; [reflexivity | exact Hobj].
  - cbn [collect_properties].
    destruct (Str.empty property_name) eqn:He.
    + specialize (Hobj eq_refl). destruct response; try discriminate.
      cbn [Json.set]. apply IH. reflexivity.
    + destruct (n =? property_name)%string; apply IH; discriminate.
Qed.

Lemma forallb_get_all_holds (property_name : string) (l : list task) :
  forallb (get_all_for property_name) l = true -> filter holds l = l.
Proof.
  induction l as [|t l IH]; simpl; [reflexivity |].
  intros H; apply andb_prop in H as [Ht Hl].
  destruct t; try discriminate. simpl. now rewrite IH.
Qed.

Lemma forallb_remove {A : Type} (p : A -> bool) (i : nat) (l : list A) :
  forallb p l = true -> forallb p (firstn i l ++ skipn (S i) l) = true.
Proof.
  revert i; induction l as [|t l IH]; intros i H.
  - destruct i; reflexivity.
  - simpl in H. apply andb_prop in H as [Ht Hl].
    destruct i as [|i]; simpl; [exact Hl |].
    rewrite Ht. apply IH, Hl.
Qed.

Lemma fire_get_all sd_bus garbage fuel property_name k w i ec properties :
  get_outstanding property_name (S k) w -> (i < S k)%nat ->
  exists w',
    fire sd_bus garbage fuel i (properties_reply ec properties) w = Completed w'
    /\ match k with
       | O => ended (res w') = 1%nat /\ result (res w') = ok
              /\ pending w' = []
       | S _ => get_outstanding property_name k w'
       end.
Proof.
  intros (Hended & Hresult & (j & Hheap & Hj) & Hlen & Hall) Hi.
  unfold fire.
  destruct (nth_error (pending w) i) as [t|] eqn:Hnth.
  2:{ apply nth_error_None in Hnth. lia. }
  assert (Ht : get_all_for property_name t = true).
  { rewrite forallb_forall in Hall. apply Hall.
    eapply nth_error_In; eassumption. }
  destruct t; try discriminate. cbn [callback].
  cbn [get_all_for] in Ht. apply String.eqb_eq in Ht. subst property_name0.
  pose proof (forallb_remove _ i _ Hall) as Hothers.
  assert (Hlen' : List.length (firstn i (pending w) ++ skipn (S i) (pending w)) = k).
  { rewrite length_remove by lia. lia. }
  revert Hothers Hlen'.
  generalize (firstn i (pending w) ++ skipn (S i) (pending w)).
  intros others Hothers Hlen'.
  unfold get_all_callback. cbn [heap]. rewrite Hheap.
  assert (Hfill : exists j',
     (Str.empty property_name = true -> is_object j' = true) /\
     (if failed ec
      then Some (World (res w) (Some (SharedJson j)) others)
      else match collect_properties property_name properties j with
           | Some response =>
               Some (with_heap (Some (SharedJson response))
                       (World (res w) (Some (SharedJson j)) others))
           | None => None
           end)
     = Some (World (res w) (Some (SharedJson j')) others)).
  { destruct (failed ec).
    - exists j; split; [exact Hj | reflexivity].
    - destruct (collect_properties_total property_name properties j Hj)
        as (j' & -> & Hj').
      exists j'; split; [exact Hj' | reflexivity]. }
  destruct Hfill as (j' & Hj' & ->).
  unfold use_count. cbn [pending].
  rewrite (forallb_get_all_holds _ _ Hothers), Hlen'.
  destruct k as [|k].
  - destruct others; [| discriminate].
    eexists; split; [reflexivity |]. cbn. rewrite Hresult, Hended.
    repeat split.
  - change (S (S k) =? 1)%nat with false. cbv iota.
    destruct others as [|t others']; [discriminate |].
    pose proof Hothers as Hall'.
    cbn [forallb] in Hothers. apply andb_prop in Hothers as [Ht' Hothers'].
    destruct t; try discriminate.
    eexists; split; [reflexivity |].
    unfold get_outstanding. cbn [res heap pending].
    split; [exact Hended |]. split; [exact Hresult |].
    split; [exists j'; split; [reflexivity | exact Hj'] |].
    split; [exact Hlen' | exact Hall'].
Qed.

Lemma run_get_all sd_bus garbage fuel property_name answers :
  forall k w,
    get_outstanding property_name k w -> get_all_answers k answers ->
    exists w',
      run sd_bus garbage fuel answers w = Completed w'
      /\ (if (List.length answers =? k)%nat
          then (k = 0%nat \/
                (ended (res w') = 1%nat /\ result (res w') = ok
                 /\ pending w' = []))
          else ended (res w') = 0%nat).
Proof.
  induction answers as [|[i r] rest IH]; intros k w Hw Hans.
  - exists w; split; [reflexivity |]. simpl.
    destruct k; simpl; [left; reflexivity | apply Hw].
  - destruct Hans as (Hi & Hr & Hrest).
    destruct r; try discriminate.
    destruct k as [|k]; [lia |].
    destruct (fire_get_all sd_bus garbage fuel property_name k w i ec properties Hw Hi)
      as (w1 & Hfire & Hk).
    simpl run. rewrite Hfire.
    replace (S k - 1)%nat with k in Hrest by lia.
    destruct k as [|k].
    + destruct Hk as (He & Hres & Hp).
      destruct rest as [|[j r'] rest'].
      * exists w1; split; [reflexivity |]. simpl. right. auto.
      * destruct Hrest as (Hj & _). lia.
    + destruct (IH (S k) w1 Hk Hrest) as (w' & Hrun & Hend).
      exists w'; split; [exact Hrun |].
      change (List.length ((i, properties_reply ec properties) :: rest))
        with (S (List.length rest)).
      change (S (List.length rest) =? S (S k))%nat
        with (List.length rest =? S k)%nat.
      destruct (List.length rest =? S k)%nat; [| exact Hend].
      destruct Hend as [Hz | Hend]; [discriminate | right; exact Hend].
Qed.

Lemma spawn_get_all_calls (connection object_path property_name : string)
  (interfaceNames : list string) :
  forall w : world,
    fold_left
      (fun w interface =>
         spawn (get_all_call connection object_path interface property_name) w)
      interfaceNames w
    = World (res w) (heap w)
            (pending w
             ++ map (fun interface =>
                       get_all_call connection object_path interface
                                    property_name) interfaceNames).
Proof.
  induction interfaceNames as [|i ifs IH]; intros w; simpl.
  - rewrite app_nil_r. destruct w; reflexivity.
  - rewrite IH. unfold spawn. simpl. now rewrite <- app_assoc.
Qed.

Lemma get_connections_spawns (object_path property_name : string)
  (object_names : GetObjectType) :
  forall w : world,
    Forall (fun connection => snd connection <> []) object_names ->
    get_connections object_path property_name object_names w
    = World (res w) (heap w)
            (pending w ++ get_all_calls object_path property_name object_names).
Proof.
  induction object_names as [|[c ifs] rest IH]; intros w Hall.
  - cbn. rewrite app_nil_r. destruct w; reflexivity.
  - inversion Hall as [|? ? His Hrest]; subst. cbn [snd] in His.
    cbn [get_connections].
    destruct ifs as [|i ifs]; [congruence |].
    cbn [List.length Nat.leb]. rewrite spawn_get_all_calls, IH by exact Hrest.
    cbn [res heap pending]. unfold get_all_calls. cbn [flat_map fst snd].
    now rewrite <- app_assoc.
Qed.

Lemma get_all_calls_for (object_path property_name : string)
  (object_names : GetObjectType) :
  forallb (get_all_for property_name)
          (get_all_calls object_path property_name object_names) = true.
Proof.
  unfold get_all_calls. induction object_names as [|[c ifs] rest IH]; [reflexivity |].
  cbn [flat_map]. rewrite forallb_app, IH, andb_true_r.
  cbn [fst snd]. induction ifs as [|i ifs IHifs]; [reflexivity |].
  cbn [map forallb get_all_for]. rewrite String.eqb_refl. exact IHifs.
Qed.

(** X21.  When every owner the mapper names has at least one interface,
    [handle_get] issues one [GetAll] call per interface, and the response
    is not ended while fewer replies than calls have come back, in
    whatever order and with or without errors; the callback that runs last
    ends it once, with status 200, and nothing is pending after it. *)
Theorem handle_get_fan_out_ends_once :
  forall (sd_bus : message -> bus_op -> Z)
         (garbage : message -> string -> json -> Z) (fuel : nat)
         (object_path property_name : string) (object_names : GetObjectType)
         (answers : list (nat * reply)),
    object_names <> [] ->
    Forall (fun connection => snd connection <> []) object_names ->
    get_all_answers
      (List.length (get_all_calls object_path property_name object_names))
      answers ->
    exists w' : world,
      run sd_bus garbage fuel ((0%nat, object_reply None object_names) :: answers)
          (handle_get object_path property_name fresh)
      = Completed w'
      /\ (if (List.length answers
              =? List.length (get_all_calls object_path property_name
                                            object_names))%nat
          then ended (res w') = 1%nat /\ result (res w') = ok
               /\ pending w' = []
          else ended (res w') = 0%nat).
Proof.
  intros sd_bus garbage fuel object_path property_name object_names answers
         Hne Hifaces Hans.
  set (calls := get_all_calls object_path property_name object_names) in *.
  assert (Hcalls : calls <> []).
  { unfold calls, get_all_calls.
    destruct object_names as [|[c ifs] rest]; [congruence |].
    inversion Hifaces as [|? ? His _]; subst. cbn [snd] in His.
    destruct ifs; [congruence | discriminate]. }
  assert (Hholds : existsb holds calls = true).
  { pose proof (get_all_calls_for object_path property_name object_names) as Hf.
    fold calls in Hf. destruct calls as [|t ts]; [congruence |].
    cbn [forallb] in Hf. apply andb_prop in Hf as [Ht _].
    destruct t; try discriminate. reflexivity. }
  assert (Hfirst :
    fire sd_bus garbage fuel 0 (object_reply None object_names)
         (handle_get object_path property_name fresh)
    = Completed
        (World (Response ok Jnull 0) (Some (SharedJson (Jobject []))) calls)).
  { unfold fire, handle_get, spawn, fresh. cbn [pending app nth_error].
    cbn [callback firstn skipn app res heap].
    unfold handle_get_callback. cbn [failed orb].
    assert (Hlen : (List.length object_names <=? 0)%nat = false)
      by (destruct object_names; [congruence | reflexivity]).
    rewrite Hlen.
    rewrite get_connections_spawns by exact Hifaces.
    cbn [res heap pending with_heap app].
    fold calls. unfold release. cbn [pending]. rewrite Hholds. reflexivity. }
  assert (Hinv : get_outstanding property_name (List.length calls)
    (World (Response ok Jnull 0) (Some (SharedJson (Jobject []))) calls)).
  { repeat split; cbn.
    - exists (Jobject []); split; [reflexivity | reflexivity].
    - apply get_all_calls_for. }
  destruct (run_get_all sd_bus garbage fuel property_name answers _ _ Hinv Hans)
    as (w' & Hrun & Hend).
  exists w'. split.
  - cbn [run]. rewrite Hfirst. exact Hrun.
  - destruct (List.length answers =? List.length calls)%nat; [| exact Hend].
    destruct Hend as [Hz | Hend]; [| exact Hend].
    destruct calls; [congruence | discriminate].
Qed.

Lemma handle_get_fan_out_ends_once_witness :
  exists w' : world,
    run sd_accept (hands_back 0) 1
      [(0%nat, object_reply None [("org.a", ["a.I"; "a.J"]); ("org.b", ["b.I"])]);
       (2%nat, properties_reply None [("Level", v_uint8 3)]);
       (0%nat, properties_reply (Some "timed out") []);
       (0%nat, properties_reply None [("Name", v_string "x")])]
      (handle_get "/xyz/openbmc_project/x" EmptyString fresh)
    = Completed w'
    /\ ended (res w') = 1%nat /\ result (res w') = ok /\ pending w' = [].
Proof.
  apply (handle_get_fan_out_ends_once sd_accept (hands_back 0) 1 "/xyz/openbmc_project/x"
           EmptyString [("org.a", ["a.I"; "a.J"]); ("org.b", ["b.I"])]
           [(2%nat, properties_reply None [("Level", v_uint8 3)]);
            (0%nat, properties_reply (Some "timed out") []);
            (0%nat, properties_reply None [("Name", v_string "x")])]).
  - discriminate.
  - repeat constructor; discriminate.
  - cbn. repeat split; lia.
Defined.

(** ** [handle_enumerate], continued *)

(** Three connections, answered out of order and one of them with an
    error. *)
Lemma handle_enumerate_fan_out_ends_once_witness :
  exists w' : world,
    run sd_accept (hands_back 0) 1
      [(0%nat, subtree_reply None
                 [("/xyz/a", [("org.c", ["c.I"]); ("org.a", ["a.I"])]);
                  ("/xyz/a/b", [("org.b", ["b.I"]); ("org.a", ["a.I"])])]);
       (2%nat, managed_objects_reply None []);
       (0%nat, managed_objects_reply (Some "timed out") []);
       (0%nat, managed_objects_reply None [])]
      (handle_enumerate "/xyz/a" fresh)
    = Completed w'
    /\ ended (res w') = 1%nat /\ result (res w') = ok /\ pending w' = [].
Proof.
  apply (handle_enumerate_fan_out_ends_once sd_accept (hands_back 0) 1 "/xyz/a"
           [("/xyz/a", [("org.c", ["c.I"]); ("org.a", ["a.I"])]);
            ("/xyz/a/b", [("org.b", ["b.I"]); ("org.a", ["a.I"])])]
           [(2%nat, managed_objects_reply None []);
            (0%nat, managed_objects_reply (Some "timed out") []);
            (0%nat, managed_objects_reply None [])]).
  - discriminate.
  - cbn. repeat split; lia.
Defined.

Lemma bool_as_int_is_no_bool (j : json) : Json.bool_ptr (bool_as_int j) = None.
Proof. destruct j; reflexivity. Qed.

Lemma members_set_keeps {P : json -> Prop} (key : string) (v : json)
  (m : list (string * json)) :
  P v -> Forall (fun kv => P (snd kv)) m ->
  Forall (fun kv => P (snd kv)) (Json.members_set key v m).
Proof.
  intros Hv Hm. induction Hm as [|[k x] m Hx Hm IH]; cbn [Json.members_set].
  - constructor; [exact Hv | constructor].
  - destruct (String.compare key k).
    + constructor; [exact Hv | exact Hm].
    + constructor; [exact Hv |]. constructor; assumption.
    + constructor; assumption.
Qed.

Lemma members_get_keeps {P : json -> Prop} (key : string)
  (m : list (string * json)) (x : json) :
  Forall (fun kv => P (snd kv)) m -> Json.members_get key m = Some x -> P x.
Proof.
  intros Hm. induction Hm as [|[k y] m Hy Hm IH]; cbn [Json.members_get];
    [discriminate |].
  destruct (key =? k)%string; [intros [= <-]; exact Hy | exact IH].
Qed.

(** [m[key] = v] and then [m.find(key)]. *)
Lemma members_get_set_same (key : string) (v : json)
  (m : list (string * json)) :
  Json.members_get key (Json.members_set key v m) = Some v.
Proof.
  induction m as [|[k x] m IH]; cbn [Json.members_set Json.members_get].
  - now rewrite String.eqb_refl.
  - destruct (String.compare key k) eqn:Hc; cbn [Json.members_get].
    + now rewrite String.eqb_refl.
    + now rewrite String.eqb_refl.
    + destruct (String.eqb_spec key k) as [-> | _]; [| exact IH].
      pose proof (String.compare_antisym k k) as Ha.
      rewrite Hc in Ha. discriminate.
Qed.

(** Setting one key leaves what is found under another. *)
Lemma members_get_set_other (key key' : string) (v : json)
  (m : list (string * json)) :
  key <> key' ->
  Json.members_get key (Json.members_set key' v m) = Json.members_get key m.
Proof.
  intros Hne.
  induction m as [|[k x] m IH]; cbn [Json.members_set Json.members_get].
  - destruct (String.eqb_spec key key'); [contradiction | reflexivity].
  - destruct (String.compare key' k) eqn:Hc; cbn [Json.members_get].
    + apply String.compare_eq_iff in Hc. subst k.
      destruct (String.eqb_spec key key'); [contradiction | reflexivity].
    + destruct (String.eqb_spec key key'); [contradiction | reflexivity].
    + destruct (key =? k)%string; [reflexivity | exact IH].
Qed.

Lemma last_property_app (name : string)
  (a b : list (string * DbusRestVariantType)) :
  last_property name (a ++ b)
  = match last_property name b with
    | Some v => Some v
    | None => last_property name a
    end.
Proof.
  induction a as [|[n v] a IH]; cbn [app last_property].
  - destruct (last_property name b); reflexivity.
  - rewrite IH. destruct (last_property name b); reflexivity.
Qed.

(** The property loop: each name ends up with the value reported last for
    it, a boolean as an integer; the other members stay. *)
Lemma enumerate_properties_stores properties :
  forall m, bool_free m ->
    exists m',
      enumerate_properties properties (Jobject m) = Some (Jobject m')
      /\ bool_free m'
      /\ forall name : string,
           Json.members_get name m'
           = match last_property name properties with
             | Some v => Some (bool_as_int (json_of_variant v))
             | None => Json.members_get name m
             end.
Proof.
  induction properties as [|[n v] rest IH]; intros m Hm.
  - exists m; split; [reflexivity |]. split; [exact Hm | reflexivity].
  - cbn [enumerate_properties Json.set].
    destruct (IH (Json.members_set n (bool_as_int (json_of_variant v)) m))
      as (m' & Hrun & Hfree & Hget).
    { apply (members_set_keeps (P := fun j => Json.bool_ptr j = None));
        [apply bool_as_int_is_no_bool | exact Hm]. }
    exists m'. split; [exact Hrun |]. split; [exact Hfree |].
    intros name. rewrite Hget. cbn [last_property].
    destruct (last_property name rest); [reflexivity |].
    destruct (String.eqb_spec n name) as [-> | Hne].
    + apply members_get_set_same.
    + apply members_get_set_other. congruence.
Qed.

Lemma enumerate_interfaces_stores interfaces :
  forall m, bool_free m ->
    exists m',
      enumerate_interfaces interfaces (Jobject m) = Some (Jobject m')
      /\ bool_free m'
      /\ forall name : string,
           Json.members_get name m'
           = match last_property name (flat_map snd interfaces) with
             | Some v => Some (bool_as_int (json_of_variant v))
             | None => Json.members_get name m
             end.
Proof.
  induction interfaces as [|[iname properties] rest IH]; intros m Hm.
  - exists m; split; [reflexivity |]. split; [exact Hm | reflexivity].
  - cbn [enumerate_interfaces].
    destruct (enumerate_properties_stores properties m Hm)
      as (m1 & -> & Hm1 & Hget1).
    destruct (IH m1 Hm1) as (m' & Hrun & Hfree & Hget).
    exists m'. split; [exact Hrun |]. split; [exact Hfree |].
    intros name. rewrite Hget. cbn [flat_map snd].
    rewrite last_property_app.
    destruct (last_property name (flat_map snd rest)); [reflexivity |].
    apply Hget1.
Qed.

Lemma member_of_set_same (d : list (string * json)) (path name : string)
  (o : list (string * json)) :
  member_of (Json.members_set path (Jobject o) d) path name
  = Json.members_get name o.
Proof. unfold member_of. now rewrite members_get_set_same. Qed.

Lemma member_of_set_other (d : list (string * json)) (path path' name : string)
  (x : json) :
  path <> path' ->
  member_of (Json.members_set path' x d) path name = member_of d path name.
Proof. intros H. unfold member_of. now rewrite members_get_set_other. Qed.

(** Merging a reply into the transaction. *)
Lemma enumerate_objects_stores :
  forall (objects : ManagedObjectType) (d : list (string * json)),
    bool_free_objects d ->
    exists d',
      enumerate_objects objects (Jobject d) = Some (Jobject d')
      /\ bool_free_objects d'
      /\ forall path name : string,
           member_of d' path name
           = match last_property name (reported_properties objects path) with
             | Some v => Some (bool_as_int (json_of_variant v))
             | None => member_of d path name
             end.
Proof.
  induction objects as [|[object_path interfaces] rest IH]; intros d Hd.
  - exists d; split; [reflexivity |]. split; [exact Hd | reflexivity].
  - cbn [enumerate_objects Json.find].
    assert (Hobj : exists o,
      match Json.members_get object_path d with
      | Some x => if Json.is_null x then Json.object [] else x
      | None => Json.object []
      end = Jobject o /\ bool_free o
      /\ forall name, member_of d object_path name = Json.members_get name o).
    { unfold member_of.
      destruct (Json.members_get object_path d) as [x|] eqn:Hget.
      - destruct (members_get_keeps
                    (P := fun j => exists m, j = Jobject m /\ bool_free m)
                    _ _ _ Hd Hget) as (m & -> & Hm).
        exists m; split; [reflexivity |]. split; [exact Hm | reflexivity].
      - exists []; split; [reflexivity |]. split; [constructor | reflexivity]. }
    destruct Hobj as (o & -> & Ho & Hold).
    destruct (enumerate_interfaces_stores interfaces o Ho)
      as (o' & -> & Ho' & Hget').
    cbn [Json.set].
    destruct (IH (Json.members_set object_path (Jobject o') d))
      as (d' & Hrun & Hfree & Hget).
    { apply (members_set_keeps
               (P := fun j => exists m, j = Jobject m /\ bool_free m));
        [exists o'; split; [reflexivity | exact Ho'] | exact Hd]. }
    exists d'. split; [exact Hrun |]. split; [exact Hfree |].
    intros path name. rewrite Hget.
    unfold reported_properties at 2. cbn [flat_map fst snd].
    fold (reported_properties rest path).
    rewrite last_property_app.
    destruct (last_property name (reported_properties rest path));
      [reflexivity |].
    destruct (String.eqb_spec object_path path) as [<- | Hne].
    + rewrite member_of_set_same, Hget', Hold. reflexivity.
    + rewrite member_of_set_other by congruence. reflexivity.
Qed.

(** X23.  Whatever objects, interfaces and properties the owner reports,
    the enumerate request is answered 200 with the success envelope, and
    under [data], for every object path and property name, stands the
    value the reply holds last for that property of that object (through
    all its interfaces), nothing when it holds none: a bus boolean stands
    there as the integer 1 or 0, every other value as it is.  No member of
    an object of the answer is a JSON bool. *)
Theorem enumerate_answers_bool_as_integer :
  forall (sd_bus : message -> bus_op -> Z)
         (garbage : message -> string -> json -> Z) (fuel : nat)
         (object_path connection : string) (interfaces : list string)
         (objects : ManagedObjectType),
    exists d : list (string * json),
      run sd_bus garbage fuel
        [(0%nat, subtree_reply None [(object_path, [(connection, interfaces)])]);
         (0%nat, managed_objects_reply None objects)]
        (handle_enumerate object_path fresh)
      = Completed (World (Response ok (ok_envelope (Jobject d)) 1) None [])
      /\ bool_free_objects d
      /\ (forall path name : string,
             member_of d path name
             = option_map (fun v => bool_as_int (json_of_variant v))
                 (last_property name (reported_properties objects path)))
      /\ (forall (path name : string) (b : bool),
             last_property name (reported_properties objects path)
             = Some (v_bool b) ->
             member_of d path name
             = Some (Jnumber_integer (if b then 1 else 0))).
Proof.
  intros sd_bus garbage fuel object_path connection interfaces objects.
  destruct (enumerate_objects_stores objects [] (Forall_nil _))
    as (d & Hd & Hfree & Hget).
  assert (Hall : forall path name : string,
             member_of d path name
             = option_map (fun v => bool_as_int (json_of_variant v))
                 (last_property name (reported_properties objects path))).
  { intros path name. rewrite Hget.
    destruct (last_property name (reported_properties objects path));
      reflexivity. }
  exists d. split; [| split; [exact Hfree | split; [exact Hall |]]].
  - cbn -[enumerate_objects]. unfold get_managed_objects_callback.
    cbn -[enumerate_objects].
    change (Json.object []) with (Jobject []). rewrite Hd. reflexivity.
  - intros path name b Hb. rewrite Hall, Hb. reflexivity.
Qed.

(** ** The URL dispatcher, continued *)

Lemma ends_with_append (a suf : string) :
  Str.ends_with (String.append a suf) suf = true.
Proof.
  unfold Str.ends_with, Str.substr_from. rewrite length_append.
  apply andb_true_intro; split; [apply Nat.leb_le; lia |].
  replace (String.length a + String.length suf - String.length suf)%nat
    with (String.length a + 0)%nat by lia.
  rewrite substring_skip_append, substring_whole by lia.
  apply String.eqb_refl.
Qed.

Lemma drop_back_append (a suf : string) :
  Str.drop_back (String.length suf) (String.append a suf) = a.
Proof.
  unfold Str.drop_back. rewrite length_append.
  replace (String.length a + String.length suf - String.length suf)%nat
    with (String.length a) by lia.
  apply substring_prefix_of_append.
Qed.

Lemma ends_with_inv (s suf : string) :
  Str.ends_with s suf = true -> exists a, s = String.append a suf.
Proof.
  unfold Str.ends_with, Str.substr_from. intros H.
  apply andb_prop in H as [_ H]. apply String.eqb_eq in H.
  remember (String.length s - String.length suf)%nat as n eqn:Hn. clear Hn.
  exists (substring 0 n s). rewrite <- H.
  pose proof (substring_cut s 0 n (String.length s) (le_n _)) as Hcut.
  cbn [Nat.add] in Hcut. rewrite Hcut. symmetry. apply substring_whole. lia.
Qed.

Lemma last_char_append (a : string) (c : ascii) (s : string) :
  last_char (String.append a (String c s)) = last_char (String c s).
Proof.
  induction a as [|x a IH]; [reflexivity |].
  cbn [String.append]. cbn [last_char].
  destruct (String.append a (String c s)) eqn:E; [destruct a; discriminate |].
  exact IH.
Qed.

Lemma ends_with_other_last_char (a suf : string) (c d : ascii) (s t : string) :
  last_char (String c s) <> last_char (String d t) ->
  Str.ends_with (String.append a (String c s)) (String d t) = false.
Proof.
  intros Hne. destruct (Str.ends_with _ _) eqn:E; [| reflexivity].
  apply ends_with_inv in E as (b & E).
  apply (f_equal last_char) in E. rewrite !last_char_append in E. congruence.
Qed.

(** The suffixes [/enumerate] and [/list] of a GET. *)
Lemma xyz_dispatch_get_suffixes :
  forall p : string,
    (index 0 attr_seperator (String.append p "/enumerate") = None ->
     xyz_dispatch GET (String.append p "/enumerate")
     = to_handle_enumerate (String.append "/xyz/" p))
    /\ (index 0 attr_seperator (String.append p "/list") = None ->
        xyz_dispatch GET (String.append p "/list")
        = to_handle_list (String.append "/xyz/" p))
    /\ (index 0 attr_seperator (String.append p "/enumerate/") = None ->
        xyz_dispatch GET (String.append p "/enumerate/")
        = to_handle_enumerate (String.append "/xyz/" p)).
Proof.
  intros p. split; [| split]; intros Hattr; unfold xyz_dispatch; rewrite Hattr.
  - rewrite <- append_assoc.
    rewrite (ends_with_other_last_char (String.append "/xyz/" p) "/" "/" "/" "enumerate" EmptyString)
      by (cbn; discriminate).
    rewrite ends_with_append.
    pose proof (drop_back_append (String.append "/xyz/" p) "/enumerate") as Hd.
    cbn [String.length] in Hd. rewrite Hd. reflexivity.
  - rewrite <- append_assoc.
    rewrite (ends_with_other_last_char (String.append "/xyz/" p) "/" "/" "/" "list" EmptyString)
      by (cbn; discriminate).
    rewrite (ends_with_other_last_char (String.append "/xyz/" p) "/enumerate" "/" "/" "list" "enumerate")
      by (cbn; discriminate).
    rewrite ends_with_append.
    pose proof (drop_back_append (String.append "/xyz/" p) "/list") as Hd.
    cbn [String.length] in Hd. rewrite Hd. reflexivity.
  - replace (String.append "/xyz/" (String.append p "/enumerate/"))
      with (String.append (String.append (String.append "/xyz/" p) "/enumerate") "/")
      by (rewrite !append_assoc; reflexivity).
    rewrite ends_with_append.
    pose proof (drop_back_append
                  (String.append (String.append "/xyz/" p) "/enumerate") "/")
      as Hs.
    cbn [String.length] in Hs. rewrite Hs.
    rewrite ends_with_append.
    pose proof (drop_back_append (String.append "/xyz/" p) "/enumerate") as Hd.
    cbn [String.length] in Hd. rewrite Hd. reflexivity.
Qed.

(** The slash at the end of the path is dropped. *)
Lemma xyz_dispatch_trims_one_trailing_slash :
  forall p : string,
    index 0 attr_seperator (String.append p "/") = None ->
    xyz_dispatch PUT (String.append p "/")
    = to_handle_put (String.append "/xyz/" p) EmptyString.
Proof.
  intros p Hattr. unfold xyz_dispatch. rewrite Hattr.
  rewrite <- append_assoc. rewrite ends_with_append.
  pose proof (drop_back_append (String.append "/xyz/" p) "/") as Hs.
  cbn [String.length] in Hs. rewrite Hs. reflexivity.
Qed.

(** X24.  On a path without [/attr/], a GET of [<p>/enumerate] goes to the
    enumerate handler and a GET of [<p>/list] to the list handler, both
    for the object path [/xyz/<p>] with the suffix taken off; one slash at
    the end of the path is dropped first, so [<p>/enumerate/] is an
    enumerate request too, and a PUT of [<p>/] is a PUT on [/xyz/<p>]. *)
Theorem xyz_dispatch_suffixes :
  forall p : string,
    (index 0 attr_seperator (String.append p "/enumerate") = None ->
     xyz_dispatch GET (String.append p "/enumerate")
     = to_handle_enumerate (String.append "/xyz/" p))
    /\ (index 0 attr_seperator (String.append p "/list") = None ->
        xyz_dispatch GET (String.append p "/list")
        = to_handle_list (String.append "/xyz/" p))
    /\ (index 0 attr_seperator (String.append p "/enumerate/") = None ->
        xyz_dispatch GET (String.append p "/enumerate/")
        = to_handle_enumerate (String.append "/xyz/" p))
    /\ (index 0 attr_seperator (String.append p "/") = None ->
        xyz_dispatch PUT (String.append p "/")
        = to_handle_put (String.append "/xyz/" p) EmptyString).
Proof.
  intros p.
  destruct (xyz_dispatch_get_suffixes p) as (He & Hl & Hes).
  repeat split; try assumption.
  apply xyz_dispatch_trims_one_trailing_slash.
Qed.

Lemma xyz_dispatch_suffixes_witness :
  xyz_dispatch GET "openbmc_project/sensors/enumerate"
  = to_handle_enumerate "/xyz/openbmc_project/sensors"
  /\ xyz_dispatch GET "openbmc_project/sensors/list"
     = to_handle_list "/xyz/openbmc_project/sensors"
  /\ xyz_dispatch GET "openbmc_project/sensors/enumerate/"
     = to_handle_enumerate "/xyz/openbmc_project/sensors"
  /\ xyz_dispatch PUT "openbmc_project/sensors/"
     = to_handle_put "/xyz/openbmc_project/sensors" EmptyString.
Proof.
  destruct (xyz_dispatch_suffixes "openbmc_project/sensors")
    as (He & Hl & Hes & Hp).
  split; [apply He | split; [apply Hl | split; [apply Hes | apply Hp]]];
    reflexivity.
Defined.

(** ** The [/bus/system/] route *)

Lemma insert_name_perm (x : string) (l : list string) :
  Permutation (x :: l) (insert_name x l).
Proof.
  induction l as [|y l IH]; cbn [insert_name]; [reflexivity |].
  destruct (String.leb x y); [reflexivity |].
  rewrite perm_swap. now apply perm_skip.
Qed.

Lemma sort_names_perm (names : list string) :
  Permutation names (sort_names names).
Proof.
  induction names as [|x l IH]; [constructor |].
  cbn [sort_names fold_right]. rewrite <- insert_name_perm. now apply perm_skip.
Qed.

Lemma insert_name_sorted (x : string) (l : list string) :
  Sorted (fun a b => String.leb a b = true) l ->
  Sorted (fun a b => String.leb a b = true) (insert_name x l).
Proof.
  induction l as [|y l IH]; intros Hs; cbn [insert_name].
  - repeat constructor.
  - destruct (String.leb x y) eqn:Hxy.
    + constructor; [exact Hs | constructor; exact Hxy].
    + inversion Hs as [|? ? Hl Hhd]; subst.
      constructor; [apply IH, Hl |].
      assert (Hyx : String.leb y x = true).
      { destruct (String.leb_total x y) as [H | H]; [congruence | exact H]. }
      destruct l as [|z l]; cbn [insert_name].
      * constructor; exact Hyx.
      * destruct (String.leb x z); constructor; [exact Hyx |].
        inversion Hhd; assumption.
Qed.

Lemma sort_names_sorted (names : list string) :
  Sorted (fun a b => String.leb a b = true) (sort_names names).
Proof.
  induction names as [|x l IH]; [constructor |].
  cbn [sort_names fold_right]. apply insert_name_sorted, IH.
Qed.

Lemma push_names_array (names : list string) :
  forall l : list json,
    push_names names (Jarray l) = Some (Jarray (l ++ map name_entry names)).
Proof.
  induction names as [|n rest IH]; intros l; cbn [push_names map].
  - now rewrite app_nil_r.
  - cbn [Json.push_back]. rewrite IH, <- app_assoc. reflexivity.
Qed.

(** X25.  The [ListNames] callback answers 500 without a body on a bus
    error.  Otherwise it answers 200 with [status] [ok] and, under
    [objects], one [{"name": n}] entry per name the bus listed, each as
    often as it was listed, in ascending order; when the bus lists no name
    at all, [objects] is null, not an empty array. *)
Theorem list_names_answers_sorted :
  forall (ec : error_code) (names : list string),
    (failed ec = true ->
     list_names_callback ec names fresh
     = Some (World (Response internal_server_error Jnull 1) None []))
    /\ (failed ec = false ->
        exists sorted : list string,
          Permutation names sorted
          /\ Sorted (fun a b => String.leb a b = true) sorted
          /\ list_names_callback ec names fresh
             = Some
                 (World
                    (Response ok
                       (Jobject
                          [("objects",
                            match sorted with
                            | [] => Jnull
                            | _ :: _ => Jarray (map name_entry sorted)
                            end);
                           ("status", Jstring "ok")])
                       1)
                    None [])).
Proof.
  intros ec names. split; intros Hec; unfold list_names_callback; rewrite Hec.
  - reflexivity.
  - exists (sort_names names).
    split; [apply sort_names_perm |]. split; [apply sort_names_sorted |].
    destruct (sort_names names) as [|n rest]; [reflexivity |].
    cbn [push_names Json.push_back]. rewrite push_names_array. reflexivity.
Qed.

Lemma list_names_answers_sorted_witness :
  list_names_callback (Some "timed out") ["org.example.B"] fresh
  = Some (World (Response internal_server_error Jnull 1) None [])
  /\ exists sorted : list string,
       Permutation ["org.example.B"; "org.example.A"] sorted
       /\ Sorted (fun a b => String.leb a b = true) sorted
       /\ list_names_callback None ["org.example.B"; "org.example.A"] fresh
          = Some
              (World
                 (Response ok
                    (Jobject
                       [("objects",
                         match sorted with
                         | [] => Jnull
                         | _ :: _ => Jarray (map name_entry sorted)
                         end);
                        ("status", Jstring "ok")])
                    1)
                 None []).
Proof.
  split.
  - apply (proj1 (list_names_answers_sorted (Some "timed out")
                    ["org.example.B"])).
    reflexivity.
  - apply (proj2 (list_names_answers_sorted None
                    ["org.example.B"; "org.example.A"])).
    reflexivity.
Defined.

(** ** The [/bus/system/<str>/<path>] route *)

Lemma has_dot_chars (s : string) :
  has_dot s = negb (all_chars not_dot s).
Proof.
  unfold has_dot. induction s as [|c s IH]; [reflexivity |].
  cbn [all_chars index].
  destruct (prefix "." (String c s)) eqn:Hp.
  - apply prefix_correct in Hp. cbn in Hp.
    injection Hp as Hc. subst c. reflexivity.
  - assert (Hc : not_dot c = true).
    { unfold not_dot. destruct (Ascii.eqb_spec c "."); [| reflexivity].
      subst c. exfalso.
      assert (prefix "." (String "." s) = true)
        by (apply prefix_correct; destruct s; reflexivity).
      congruence. }
    rewrite Hc. cbn [andb].
    destruct (index 0 "." s); exact IH.
Qed.

Lemma all_chars_append (p : ascii -> bool) (a b : string) :
  all_chars p (String.append a b) = all_chars p a && all_chars p b.
Proof.
  induction a as [|c a IH]; [reflexivity |].
  cbn [String.append all_chars]. rewrite IH. apply andb_assoc.
Qed.

Lemma split_slash_append (a b : string) :
  forall token : string,
    split_slash (String.append a (String "/" b)) token
    = split_slash a token ++ split_slash b EmptyString.
Proof.
  induction a as [|c a IH]; intros token; [reflexivity |].
  cbn [String.append split_slash].
  destruct (Ascii.eqb c "/"); [cbn [app]; f_equal |]; apply IH.
Qed.


Lemma split_slash_not_empty (s token : string) :
  exists t l, split_slash s token = t :: l.
Proof.
  revert token; induction s as [|c s IH]; intros token; cbn [split_slash].
  - eexists; eexists; reflexivity.
  - destruct (Ascii.eqb c "/"); [eexists; eexists; reflexivity | apply IH].
Qed.

Lemma split_slash_dot_free (s : string) :
  forall token : string,
    all_chars not_dot token = true -> all_chars not_dot s = true ->
    Forall (fun segment => has_dot segment = false) (split_slash s token).
Proof.
  induction s as [|c s IH]; intros token Ht Hs.
  - constructor; [| constructor]. rewrite has_dot_chars, Ht. reflexivity.
  - cbn [all_chars] in Hs. apply andb_prop in Hs as [Hc Hs].
    cbn [split_slash]. destruct (Ascii.eqb c "/").
    + constructor; [rewrite has_dot_chars, Ht; reflexivity |].
      apply IH; [reflexivity | exact Hs].
    + apply IH; [| exact Hs].
      rewrite all_chars_append, Ht. cbn. now rewrite Hc.
Qed.

Lemma walk_segments_dot_free (front : list string) :
  forall (rest : list string) (object_path : string),
    Forall (fun segment => has_dot segment = false) front ->
    walk_segments (front ++ rest) object_path
    = walk_segments rest
        (fold_left
           (fun object_path segment =>
              if Str.empty segment then object_path
              else String.append object_path (String.append "/" segment))
           front object_path).
Proof.
  induction front as [|seg front IH]; intros rest object_path Hall;
    [reflexivity |].
  inversion Hall as [|? ? Hseg Hfront]; subst.
  cbn [app walk_segments fold_left]. rewrite Hseg. apply IH, Hfront.
Qed.



(** X27.  In front of the interface name empty path segments do not count:
    a doubled slash after a part without a dot is read like a single one. *)
Theorem bus_path_ignores_empty_segments :
  forall a b : string,
    all_chars not_dot a = true ->
    parse_requested_path (String.append a (String "/" (String "/" b)))
    = parse_requested_path (String.append a (String "/" b)).
Proof.
  intros a b Ha. unfold parse_requested_path.
  rewrite !split_slash_append.
  change (split_slash (String "/" b) EmptyString)
    with (EmptyString :: split_slash b EmptyString).
  pose proof (split_slash_dot_free a EmptyString eq_refl Ha) as Hfree.
  destruct (split_slash_not_empty a EmptyString) as (t0 & l0 & Hsplit).
  rewrite Hsplit in *.
  rewrite !walk_segments_dot_free by exact Hfree.
  reflexivity.
Qed.

Lemma bus_path_ignores_empty_segments_witness :
  parse_requested_path "xyz//openbmc_project/org.example.I"
  = parse_requested_path "xyz/openbmc_project/org.example.I".
Proof.
  apply (bus_path_ignores_empty_segments "xyz"
           "openbmc_project/org.example.I").
  reflexivity.
Defined.

Lemma describe_interfaces_absent (process_name object_path interface_name : string)
  (nodes : list XMLElement) :
  interface_absent interface_name nodes = true ->
  describe_interfaces process_name object_path interface_name nodes = Some None.
Proof.
  induction nodes as [|e rest IH]; intros H; [reflexivity |].
  cbn [interface_absent forallb] in H. apply andb_prop in H as [He Hrest].
  cbn [describe_interfaces].
  destruct (Xml.name_of e =? "interface")%string; [| apply IH, Hrest].
  destruct (Xml.Attribute "name" [e]) as [n|]; [| discriminate].
  apply negb_true_iff in He. rewrite He. apply IH, Hrest.
Qed.

(** X28.  The describe callback ends the response once in each failure
    case: a bus error leaves status 200 and no body, a reply without a
    [<node>] root gives 500, and a root none of whose (named) interfaces
    is the requested one gives 404. *)
Theorem describe_interface_failures :
  forall (process_name object_path interface_name : string)
         (ec : error_code) (attrs : list (string * string))
         (nodes others : list XMLElement) (introspect_xml : XMLDocument),
    (failed ec = true ->
     describe_interface_callback process_name object_path interface_name
       ec introspect_xml fresh
     = Some (World (Response ok Jnull 1) None []))
    /\ (Xml.seek "node" introspect_xml = [] ->
        describe_interface_callback process_name object_path interface_name
          None introspect_xml fresh
        = Some (World (Response internal_server_error Jnull 1) None []))
    /\ (interface_absent interface_name nodes = true ->
        describe_interface_callback process_name object_path interface_name
          None (Element "node" attrs nodes :: others) fresh
        = Some (World (Response not_found Jnull 1) None [])).
Proof.
  intros. split; [| split]; intros H; unfold describe_interface_callback.
  - rewrite H. reflexivity.
  - cbn [failed]. rewrite H. reflexivity.
  - cbn [failed Xml.seek Xml.name_of String.eqb Ascii.eqb Bool.eqb andb Xml.children_of].
    rewrite describe_interfaces_absent by exact H. reflexivity.
Qed.

Lemma describe_interface_failures_witness :
  describe_interface_callback "org.example" "/xyz/a" "org.example.I"
    (Some "timed out") [] fresh
  = Some (World (Response ok Jnull 1) None [])
  /\ describe_interface_callback "org.example" "/xyz/a" "org.example.I"
       None [Element "html" [] []] fresh
     = Some (World (Response internal_server_error Jnull 1) None [])
  /\ describe_interface_callback "org.example" "/xyz/a" "org.example.I"
       None [Element "node" [] [plain_interface "org.example.J"]] fresh
     = Some (World (Response not_found Jnull 1) None []).
Proof.
  split; [| split].
  - apply (proj1 (describe_interface_failures "org.example" "/xyz/a"
                    "org.example.I" (Some "timed out") [] [] [] [])).
    reflexivity.
  - apply (proj1 (proj2 (describe_interface_failures "org.example" "/xyz/a"
                           "org.example.I" None [] [] []
                           [Element "html" [] []]))).
    reflexivity.
  - apply (proj2 (proj2 (describe_interface_failures "org.example" "/xyz/a"
                           "org.example.I" None []
                           [plain_interface "org.example.J"] [] []))).
    reflexivity.
Defined.

Lemma describe_plain_methods (process_name object_path interface_name : string)
  (names : list string) :
  describe_methods process_name object_path interface_name
                   (map plain_method names)
  = Some (map (method_entry process_name object_path interface_name) names).
Proof.
  induction names as [|n rest IH]; [reflexivity |].
  cbn [map describe_methods plain_method Xml.name_of String.eqb Ascii.eqb
       Bool.eqb andb Xml.children_of method_args].
  cbn [Xml.Attribute Xml.attributes_of Xml.lookup String.eqb Ascii.eqb Bool.eqb andb].
  fold (plain_method). rewrite IH. reflexivity.
Qed.

Lemma describe_signals_of_methods (names : list string) :
  describe_signals (map plain_method names) = Some [].
Proof.
  induction names as [|n rest IH]; [reflexivity |]. exact IH.
Qed.

(** X29.  For an interface with methods without arguments the describe
    callback answers 200 with the methods in document order, each with
    empty [args] and the [uri]
    [/bus/system/<process><object path>/<interface>/<method>], and with
    empty [signals] and [properties]. *)
Theorem describe_interface_lists_method_uris :
  forall (process_name object_path interface_name : string)
         (names : list string),
    describe_interface_callback process_name object_path interface_name None
      [Element "node" []
         [Element "interface" [("name", interface_name)]
            (map plain_method names)]]
      fresh
    = Some
        (World
           (Response ok
              (Json.object
                 [("status", Jstring "ok");
                  ("bus_name", Jstring process_name);
                  ("interface", Jstring interface_name);
                  ("methods",
                   Jarray (map (method_entry process_name object_path
                                             interface_name) names));
                  ("object_path", Jstring object_path);
                  ("properties", Jobject []);
                  ("signals", Jarray [])])
              1)
           None []).
Proof.
  intros. unfold describe_interface_callback.
  cbn [failed Xml.seek Xml.name_of String.eqb Ascii.eqb Bool.eqb andb
       Xml.children_of describe_interfaces].
  cbn [Xml.Attribute Xml.attributes_of Xml.lookup String.eqb Ascii.eqb Bool.eqb andb].
  rewrite String.eqb_refl.
  rewrite describe_plain_methods, describe_signals_of_methods. reflexivity.
Qed.

Lemma interface_names_plain (names : list string) :
  interface_names (map plain_interface names) = Some (map name_entry names).
Proof.
  induction names as [|n rest IH]; [reflexivity |].
  cbn [map interface_names plain_interface Xml.name_of String.eqb Ascii.eqb
       Bool.eqb andb].
  cbn [Xml.Attribute Xml.attributes_of Xml.lookup String.eqb Ascii.eqb Bool.eqb andb].
  fold plain_interface. rewrite IH. reflexivity.
Qed.

(** X30.  The callback that lists interfaces answers 200 with
    [bus_name], [object_path] and one [{"name": n}] entry per interface in
    document order; a bus error leaves status 200 and no body, and a reply
    without a [<node>] root gives 500 with the body
    [{"status": "XML parse error"}]. *)
Theorem list_interfaces_answers :
  forall (process_name object_path message : string) (names : list string)
         (introspect_xml : XMLDocument),
    list_interfaces_callback process_name object_path None
      [Element "node" [] (map plain_interface names)] fresh
    = Some
        (World
           (Response ok
              (Json.object
                 [("status", Jstring "ok");
                  ("bus_name", Jstring process_name);
                  ("interfaces", Jarray (map name_entry names));
                  ("object_path", Jstring object_path)])
              1)
           None [])
    /\ list_interfaces_callback process_name object_path (Some message)
         introspect_xml fresh
       = Some (World (Response ok Jnull 1) None [])
    /\ (Xml.seek "node" introspect_xml = [] ->
        list_interfaces_callback process_name object_path None
          introspect_xml fresh
        = Some
            (World
               (Response internal_server_error
                  (Jobject [("status", Jstring "XML parse error")]) 1)
               None [])).
Proof.
  intros. split; [| split].
  - unfold list_interfaces_callback.
    cbn [failed Xml.seek Xml.name_of String.eqb Ascii.eqb Bool.eqb andb
         Xml.children_of].
    rewrite interface_names_plain. reflexivity.
  - reflexivity.
  - intros H. unfold list_interfaces_callback. cbn [failed]. rewrite H.
    reflexivity.
Qed.

Lemma list_interfaces_answers_witness :
  list_interfaces_callback "org.example" "/xyz/a" None [Element "html" [] []]
    fresh
  = Some
      (World
         (Response internal_server_error
            (Jobject [("status", Jstring "XML parse error")]) 1)
         None []).
Proof.
  apply (proj2 (proj2 (list_interfaces_answers "org.example" "/xyz/a"
                         "timed out" [] [Element "html" [] []]))).
  reflexivity.
Defined.
